(** * pgpdump.packet: a shallow embedding of the OpenPGP packet decoder

    The Python module [pgpdump/packet.py] is embedded function by function.
    A [bytearray] is a list of bytes, Python integers are [Z], a raised
    exception is the [Raise] outcome of a small error monad, and the fields
    an object starts with as [None] are [option]s.  The two [while] loops are
    run with a fuel computed from their input; the fuel is shown to suffice,
    so [OutOfFuel] is never the outcome of decoding a packet. *)

From Stdlib Require Import ZArith List Bool Lia Ascii String.
From Stdlib.Strings Require Import Byte.
Import ListNotations.

Local Open Scope Z_scope.

(** ** Python values and exceptions *)

Definition bytearray := list byte.

(** A [str]: the sequence of its Unicode code points. *)
Definition unicode := list Z.

(** The exceptions the module can raise.  [Exception_] carries the message of
    a plain [raise Exception(msg)]. *)
Inductive exn : Type :=
| IndexError
| TypeError
| AttributeError
| UnicodeDecodeError
| Exception_ (msg : string).

Inductive result (A : Type) : Type :=
| Ok (a : A)
| Raise (e : exn)
| OutOfFuel.

Arguments Ok {A} a.
Arguments Raise {A} e.
Arguments OutOfFuel {A}.

Definition bind {A B : Type} (m : result A) (k : A -> result B) : result B :=
  match m with
  | Ok a => k a
  | Raise e => Raise e
  | OutOfFuel => OutOfFuel
  end.

Notation "x <- m ;; k" := (bind m (fun x => k))
  (at level 61, m at next level, right associativity).
Notation "' p <- m ;; k" := (bind m (fun x => match x with p => k end))
  (at level 61, p pattern, m at next level, right associativity).

(** ** Indexing and slicing a bytearray *)

Definition int_of_byte (b : byte) : Z := Z.of_N (Byte.to_N b).

(** The byte of an integer in [range(256)]; every use below masks or reads a
    byte first, so the default is never taken. *)
Definition byte_of_int (z : Z) : byte :=
  match Byte.of_N (Z.to_N z) with
  | Some b => b
  | None => x00
  end.

Definition bytearray_of (l : list Z) : bytearray := map byte_of_int l.

Definition len {A : Type} (l : list A) : Z := Z.of_nat (List.length l).

(** [data[i]]: a negative index counts from the end; outside the buffer the
    read raises [IndexError]. *)
Definition getitem (data : bytearray) (i : Z) : result Z :=
  let j := if i <? 0 then i + len data else i in
  if (0 <=? j) && (j <? len data) then
    match nth_error data (Z.to_nat j) with
    | Some b => Ok (int_of_byte b)
    | None => Raise IndexError
    end
  else Raise IndexError.

(** How a slice bound is brought into [0 .. len]. *)
Definition clamp (n i : Z) : Z :=
  if i <? 0 then Z.max 0 (i + n) else Z.min i n.

(** [data[lo:hi]]: never raises; bounds are clipped to the buffer. *)
Definition getslice {A : Type} (data : list A) (lo hi : Z) : list A :=
  let a := clamp (len data) lo in
  let b := clamp (len data) hi in
  firstn (Z.to_nat (b - a)) (skipn (Z.to_nat a) data).

(** [data[lo:]] *)
Definition getslice_from {A : Type} (data : list A) (lo : Z) : list A :=
  skipn (Z.to_nat (clamp (len data) lo)) data.

(** The big-endian value of a run of bytes. *)
Definition be_int (bs : bytearray) : Z :=
  fold_left (fun acc b => acc * 256 + int_of_byte b) bs 0.

(** ** pgpdump.utils *)

(** Modelled from the spec: [pgpdump/utils.py] is not among the sources.  The
    spec's primitive readers are big-endian unsigned reads of a fixed width
    that fail with OutOfBounds (Python's [IndexError]) when
    [off + width > len(buf)]. *)
Definition read_be (width : Z) (data : bytearray) (off : Z) : result Z :=
  if (0 <=? off) && (off + width <=? len data)
  then Ok (be_int (getslice data off (off + width)))
  else Raise IndexError.

(** Modelled from the spec: [read_u16], the module's [get_int2]. *)
Definition get_int2 (data : bytearray) (offset : Z) : result Z :=
  read_be 2 data offset.

(** Modelled from the spec: [read_u32], the module's [get_int4]. *)
Definition get_int4 (data : bytearray) (offset : Z) : result Z :=
  read_be 4 data offset.

(** Modelled from the spec: [read_key_id], the module's [get_key_id], returns
    the 8-byte slice at [off] and fails with OutOfBounds on insufficient
    length. *)
Definition get_key_id (data : bytearray) (offset : Z) : result bytearray :=
  if (0 <=? offset) && (offset + 8 <=? len data)
  then Ok (getslice data offset (offset + 8))
  else Raise IndexError.

(** Modelled from the spec: [read_mpi], the module's [get_mpi], reads a 2-byte
    bit length, takes [ceil(bit_len/8)] bytes as a big-endian integer and
    returns it with the new offset; it fails with OutOfBounds when too few
    bytes remain. *)
Definition get_mpi (data : bytearray) (offset : Z) : result (Z * Z) :=
  bit_len <- get_int2 data offset ;;
  let byte_len := (bit_len + 7) / 8 in
  let stop := offset + 2 + byte_len in
  if stop <=? len data
  then Ok (be_int (getslice data (offset + 2) stop), stop)
  else Raise IndexError.

(** ** Length decoders *)

(** [new_tag_length(data, start)] *)
Definition new_tag_length (data : bytearray) (start : Z)
  : result (Z * Z * bool) :=
  first <- getitem data start ;;
  if first <? 192 then
    Ok (0, first, false)
  else if first <? 224 then
    next <- getitem data (start + 1) ;;
    Ok (1, Z.shiftl (first - 192) 8 + next + 192, false)
  else if first =? 255 then
    length <- get_int4 data (start + 1) ;;
    Ok (4, length, false)
  else
    Ok (0, Z.shiftl 1 (Z.land first 0x1f), true).

(** [old_tag_length(data, start)] *)
Definition old_tag_length (data : bytearray) (start : Z) : result (Z * Z) :=
  tag_byte <- getitem data start ;;
  let temp_len := Z.land tag_byte 0x03 in
  if temp_len =? 0 then
    length <- getitem data (start + 1) ;;
    Ok (1, length)
  else if temp_len =? 1 then
    length <- get_int2 data (start + 1) ;;
    Ok (2, length)
  else if temp_len =? 2 then
    length <- get_int4 data (start + 1) ;;
    Ok (4, length)
  else if temp_len =? 3 then
    Ok (0, len data - start - 1)
  else
    Ok (0, 0).

(** ** datetime *)

(** A naive UTC [datetime], held as its number of seconds since the epoch.
    Every timestamp the decoder converts is an unsigned 32-bit value, and the
    only sum formed adds another one, so the year stays below 9999 and neither
    [utcfromtimestamp] nor the addition can overflow. *)
Inductive datetime : Type :=
| utc (timestamp : Z).

Definition utcfromtimestamp (t : Z) : datetime := utc t.

(** [d + timedelta(seconds=s)] *)
Definition add_seconds (d : datetime) (s : Z) : datetime :=
  match d with
  | utc t => utc (t + s)
  end.

(** ** hashlib.sha1 and hexadecimal text *)

Module hashlib.

Definition mask32 (x : Z) : Z := Z.land x 0xffffffff.

Definition rotl (n x : Z) : Z :=
  mask32 (Z.lor (Z.shiftl x n) (Z.shiftr x (32 - n))).

(** Message padding: one 1 bit, zeros up to 56 mod 64 bytes, then the bit
    length as a 64-bit big-endian integer. *)
Definition be_bytes (count : nat) (v : Z) : list Z :=
  map (fun i => Z.land (Z.shiftr v (8 * Z.of_nat i)) 0xff) (rev (seq 0 count)).

Definition pad (msg : list Z) : list Z :=
  let l := len msg in
  msg ++ [0x80] ++ repeat 0 (Z.to_nat ((55 - l) mod 64)) ++ be_bytes 8 (8 * l).

Fixpoint words (bs : list Z) : list Z :=
  match bs with
  | b0 :: b1 :: b2 :: b3 :: rest =>
      (Z.shiftl b0 24 + Z.shiftl b1 16 + Z.shiftl b2 8 + b3) :: words rest
  | _ => []
  end.

(** The message schedule, most recent word first. *)
Fixpoint extend (n : nat) (w : list Z) : list Z :=
  match n with
  | O => w
  | S n' =>
      extend n'
        (rotl 1 (Z.lxor (Z.lxor (nth 2 w 0) (nth 7 w 0))
                        (Z.lxor (nth 13 w 0) (nth 15 w 0))) :: w)
  end.

Definition schedule (block : list Z) : list Z :=
  rev (extend 64 (rev (words block))).

Definition state : Type := Z * Z * Z * Z * Z.

Definition round (s : state) (tw : nat * Z) : state :=
  let '(a, b, c, d, e) := s in
  let '(t, w) := tw in
  let '(f, k) :=
    if Nat.ltb t 20 then
      (Z.lor (Z.land b c) (Z.land (Z.lnot b) d), 0x5A827999)
    else if Nat.ltb t 40 then
      (Z.lxor (Z.lxor b c) d, 0x6ED9EBA1)
    else if Nat.ltb t 60 then
      (Z.lor (Z.lor (Z.land b c) (Z.land b d)) (Z.land c d), 0x8F1BBCDC)
    else
      (Z.lxor (Z.lxor b c) d, 0xCA62C1D6) in
  (mask32 (rotl 5 a + f + e + k + w), a, rotl 30 b, c, d).

Definition compress (h : state) (block : list Z) : state :=
  let '(h0, h1, h2, h3, h4) := h in
  let '(a, b, c, d, e) :=
    fold_left round (combine (seq 0 80) (schedule block)) h in
  (mask32 (h0 + a), mask32 (h1 + b), mask32 (h2 + c), mask32 (h3 + d),
   mask32 (h4 + e)).

Fixpoint blocks (count : nat) (bs : list Z) : list (list Z) :=
  match count with
  | O => []
  | S count' => firstn 64 bs :: blocks count' (skipn 64 bs)
  end.

Definition initial : state :=
  (0x67452301, 0xEFCDAB89, 0x98BADCFE, 0x10325476, 0xC3D2E1F0).

(** [hashlib.sha1(msg).digest()] *)
Definition sha1 (msg : bytearray) : bytearray :=
  let padded := pad (map int_of_byte msg) in
  let '(h0, h1, h2, h3, h4) :=
    fold_left compress (blocks (List.length padded / 64) padded) initial in
  bytearray_of
    (be_bytes 4 h0 ++ be_bytes 4 h1 ++ be_bytes 4 h2 ++ be_bytes 4 h3 ++
     be_bytes 4 h4).

Definition hex_digit (n : Z) : ascii :=
  nth (Z.to_nat n) (list_ascii_of_string "0123456789abcdef") "0"%char.

Fixpoint hexlify (bs : bytearray) : string :=
  match bs with
  | [] => EmptyString
  | b :: rest =>
      String (hex_digit (Z.shiftr (int_of_byte b) 4))
        (String (hex_digit (Z.land (int_of_byte b) 0x0f)) (hexlify rest))
  end.

(** [hashlib.sha1(msg).hexdigest()] *)
Definition hexdigest (msg : bytearray) : string := hexlify (sha1 msg).

End hashlib.

(** [c.upper()] on one ASCII character. *)
Definition upper_ascii (c : ascii) : ascii :=
  let n := N_of_ascii c in
  if (97 <=? n)%N && (n <=? 122)%N then ascii_of_N (n - 32) else c.

(** [s.upper()] for ASCII text. *)
Fixpoint upper (s : string) : string :=
  match s with
  | EmptyString => EmptyString
  | String c rest => String (upper_ascii c) (upper rest)
  end.

(** [s.encode('ascii')] for ASCII text. *)
Definition encode_ascii (s : string) : bytearray := list_byte_of_string s.

(** ** SignatureSubpacket *)

Module SignatureSubpacket.

Definition CRITICAL_BIT : Z := 0x80.
Definition CRITICAL_MASK : Z := 0x7f.

Record t : Type := mk {
  raw : Z;
  subtype : Z;
  hashed : bool;
  critical : bool;
  length : Z;
  data : bytearray
}.

(** [SignatureSubpacket(raw, hashed, data)] *)
Definition init (raw : Z) (hashed : bool) (data : bytearray) : t :=
  {| raw := raw;
     subtype := Z.land raw CRITICAL_MASK;
     hashed := hashed;
     critical := negb (Z.land raw CRITICAL_BIT =? 0);
     length := len data;
     data := data |}.

End SignatureSubpacket.

(** ** SignaturePacket *)

Module SignaturePacket.

Record t : Type := mk {
  sig_version : option Z;
  raw_sig_type : option Z;
  raw_pub_algorithm : option Z;
  raw_hash_algorithm : option Z;
  raw_creation_time : option Z;
  creation_time : option datetime;
  raw_expiration_time : option Z;
  expiration_time : option datetime;
  key_id : option bytearray;
  hash2 : option bytearray;
  subpackets : list SignatureSubpacket.t
}.

(** The fields as [__init__] leaves them before [parse] runs. *)
Definition init : t :=
  mk None None None None None None None None None None [].

Definition set_sig_version (v : Z) (s : t) : t :=
  mk (Some v) (raw_sig_type s) (raw_pub_algorithm s) (raw_hash_algorithm s)
     (raw_creation_time s) (creation_time s) (raw_expiration_time s)
     (expiration_time s) (key_id s) (hash2 s) (subpackets s).

Definition set_raw_sig_type (v : Z) (s : t) : t :=
  mk (sig_version s) (Some v) (raw_pub_algorithm s) (raw_hash_algorithm s)
     (raw_creation_time s) (creation_time s) (raw_expiration_time s)
     (expiration_time s) (key_id s) (hash2 s) (subpackets s).

Definition set_raw_pub_algorithm (v : Z) (s : t) : t :=
  mk (sig_version s) (raw_sig_type s) (Some v) (raw_hash_algorithm s)
     (raw_creation_time s) (creation_time s) (raw_expiration_time s)
     (expiration_time s) (key_id s) (hash2 s) (subpackets s).

Definition set_raw_hash_algorithm (v : Z) (s : t) : t :=
  mk (sig_version s) (raw_sig_type s) (raw_pub_algorithm s) (Some v)
     (raw_creation_time s) (creation_time s) (raw_expiration_time s)
     (expiration_time s) (key_id s) (hash2 s) (subpackets s).

(** [raw_creation_time] and [creation_time] are always assigned together. *)
Definition set_creation_time (v : Z) (s : t) : t :=
  mk (sig_version s) (raw_sig_type s) (raw_pub_algorithm s)
     (raw_hash_algorithm s) (Some v) (Some (utcfromtimestamp v))
     (raw_expiration_time s) (expiration_time s) (key_id s) (hash2 s)
     (subpackets s).

Definition set_raw_expiration_time (v : Z) (s : t) : t :=
  mk (sig_version s) (raw_sig_type s) (raw_pub_algorithm s)
     (raw_hash_algorithm s) (raw_creation_time s) (creation_time s) (Some v)
     (expiration_time s) (key_id s) (hash2 s) (subpackets s).

Definition set_expiration_time (v : datetime) (s : t) : t :=
  mk (sig_version s) (raw_sig_type s) (raw_pub_algorithm s)
     (raw_hash_algorithm s) (raw_creation_time s) (creation_time s)
     (raw_expiration_time s) (Some v) (key_id s) (hash2 s) (subpackets s).

Definition set_key_id (v : bytearray) (s : t) : t :=
  mk (sig_version s) (raw_sig_type s) (raw_pub_algorithm s)
     (raw_hash_algorithm s) (raw_creation_time s) (creation_time s)
     (raw_expiration_time s) (expiration_time s) (Some v) (hash2 s)
     (subpackets s).

Definition set_hash2 (v : bytearray) (s : t) : t :=
  mk (sig_version s) (raw_sig_type s) (raw_pub_algorithm s)
     (raw_hash_algorithm s) (raw_creation_time s) (creation_time s)
     (raw_expiration_time s) (expiration_time s) (key_id s) (Some v)
     (subpackets s).

(** [self.subpackets.append(sp)] *)
Definition append_subpacket (sp : SignatureSubpacket.t) (s : t) : t :=
  mk (sig_version s) (raw_sig_type s) (raw_pub_algorithm s)
     (raw_hash_algorithm s) (raw_creation_time s) (creation_time s)
     (raw_expiration_time s) (expiration_time s) (key_id s) (hash2 s)
     (subpackets s ++ [sp]).

(** One turn of the [while] loop of [parse_subpackets]: the packet after
    the turn and the new [offset]. *)
Definition subpacket_step (data : bytearray) (hashed : bool) (self : t)
    (offset : Z) : result (t * Z) :=
  '(sub_offset, sub_len, sub_part) <- new_tag_length data offset ;;
  let sub_len := sub_len - 1 in
  let offset := offset + (1 + sub_offset) in
  subtype <- getitem data offset ;;
  let offset := offset + 1 in
  let sub_data := getslice data offset (offset + sub_len) in
  let subpacket := SignatureSubpacket.init subtype hashed sub_data in
  self <-
    (if SignatureSubpacket.subtype subpacket =? 2 then
       v <- get_int4 (SignatureSubpacket.data subpacket) 0 ;;
       Ok (set_creation_time v self)
     else if SignatureSubpacket.subtype subpacket =? 3 then
       v <- get_int4 (SignatureSubpacket.data subpacket) 0 ;;
       Ok (set_raw_expiration_time v self)
     else if SignatureSubpacket.subtype subpacket =? 16 then
       v <- get_key_id (SignatureSubpacket.data subpacket) 0 ;;
       Ok (set_key_id v self)
     else Ok self) ;;
  let offset := offset + sub_len in
  Ok (append_subpacket subpacket self, offset).

(** [while offset < outer_offset + outer_length: ...], with [stop] the sum. *)
Fixpoint subpackets_loop (fuel : nat) (data : bytearray) (stop : Z)
    (hashed : bool) (self : t) (offset : Z) : result t :=
  if offset <? stop then
    match fuel with
    | O => OutOfFuel
    | S fuel' =>
        '(self, offset) <- subpacket_step data hashed self offset ;;
        subpackets_loop fuel' data stop hashed self offset
    end
  else Ok self.

(** The statement after the loop: [if self.raw_expiration_time: ...].  Both
    [None] and [0] are false; adding a [timedelta] to a [creation_time]
    that is still [None] raises [TypeError]. *)
Definition finish_expiration (self : t) : result t :=
  match raw_expiration_time self with
  | None => Ok self
  | Some seconds =>
      if seconds =? 0 then Ok self
      else
        match creation_time self with
        | None => Raise TypeError
        | Some created =>
            Ok (set_expiration_time (add_seconds created seconds) self)
        end
  end.

(** [self.parse_subpackets(outer_offset, outer_length, hashed)].  Every turn
    of the loop moves [offset] forward by at least one, so [outer_length]
    turns are enough. *)
Definition parse_subpackets (data : bytearray) (self : t)
    (outer_offset outer_length : Z) (hashed : bool) : result t :=
  self <- subpackets_loop (Z.to_nat outer_length) data
            (outer_offset + outer_length) hashed self outer_offset ;;
  finish_expiration self.

Definition invalid_v3 : exn := Exception_ "Invalid v3 signature packet".

(** [SignaturePacket.parse] *)
Definition parse (data : bytearray) : result t :=
  let self := init in
  version <- getitem data 0 ;;
  let self := set_sig_version version self in
  let offset := 1 in
  if version =? 3 then
    material <- getitem data offset ;;
    if negb (material =? 0x05) then Raise invalid_v3
    else
      let offset := offset + 1 in
      v <- getitem data offset ;;
      let self := set_raw_sig_type v self in
      let offset := offset + 1 in
      v <- get_int4 data offset ;;
      let self := set_creation_time v self in
      let offset := offset + 4 in
      v <- get_key_id data offset ;;
      let self := set_key_id v self in
      let offset := offset + 8 in
      v <- getitem data offset ;;
      let self := set_raw_pub_algorithm v self in
      let offset := offset + 1 in
      v <- getitem data offset ;;
      let self := set_raw_hash_algorithm v self in
      let offset := offset + 1 in
      Ok (set_hash2 (getslice data offset (offset + 2)) self)
  else if version =? 4 then
    v <- getitem data offset ;;
    let self := set_raw_sig_type v self in
    let offset := offset + 1 in
    v <- getitem data offset ;;
    let self := set_raw_pub_algorithm v self in
    let offset := offset + 1 in
    v <- getitem data offset ;;
    let self := set_raw_hash_algorithm v self in
    let offset := offset + 1 in
    length <- get_int2 data offset ;;
    let offset := offset + 2 in
    self <- parse_subpackets data self offset length true ;;
    let offset := offset + length in
    length <- get_int2 data offset ;;
    let offset := offset + 2 in
    self <- parse_subpackets data self offset length false ;;
    let offset := offset + length in
    Ok (set_hash2 (getslice data offset (offset + 2)) self)
  else Ok self.

End SignaturePacket.

(** ** PublicKeyPacket (also the class of PublicSubkeyPacket) *)

Module PublicKeyPacket.

Record t : Type := mk {
  pubkey_version : option Z;
  fingerprint : option bytearray;
  key_id : option bytearray;
  raw_creation_time : option Z;
  creation_time : option datetime;
  raw_pub_algorithm : option Z;
  pub_algorithm_type : option string;
  modulus : option Z;
  exponent : option Z;
  prime : option Z;
  group_order : option Z;
  group_gen : option Z;
  key_value : option Z
}.

(** The three bytes hashed before the body. *)
Definition seed_bytes (length : Z) : bytearray :=
  bytearray_of
    [0x99; Z.land (Z.shiftr length 8) 0xff; Z.land length 0xff].

(** [sha1.update(seed_bytes); sha1.update(self.data)], then
    [hexdigest().upper().encode('ascii')]. *)
Definition compute_fingerprint (length : Z) (data : bytearray) : bytearray :=
  encode_ascii (upper (hashlib.hexdigest (seed_bytes length ++ data))).

(** [PublicKeyPacket.parse]; [length] is [self.length]. *)
Definition parse (length : Z) (data : bytearray) : result t :=
  version <- getitem data 0 ;;
  let offset := 1 in
  if version =? 4 then
    let fp := compute_fingerprint length data in
    let kid := getslice_from fp 24 in
    created <- get_int4 data offset ;;
    let offset := offset + 4 in
    algo <- getitem data offset ;;
    let offset := offset + 1 in
    let self kind n e p q g y :=
      mk (Some version) (Some fp) (Some kid) (Some created)
         (Some (utcfromtimestamp created)) (Some algo) kind n e p q g y in
    if (algo =? 1) || (algo =? 2) || (algo =? 3) then
      '(n, offset) <- get_mpi data offset ;;
      '(e, offset) <- get_mpi data offset ;;
      Ok (self (Some "rsa"%string) (Some n) (Some e) None None None None)
    else if algo =? 17 then
      '(p, offset) <- get_mpi data offset ;;
      '(q, offset) <- get_mpi data offset ;;
      '(g, offset) <- get_mpi data offset ;;
      '(y, offset) <- get_mpi data offset ;;
      Ok (self (Some "dsa"%string) None None (Some p) (Some q) (Some g)
            (Some y))
    else if algo =? 16 then
      '(p, offset) <- get_mpi data offset ;;
      '(g, offset) <- get_mpi data offset ;;
      '(y, offset) <- get_mpi data offset ;;
      Ok (self (Some "elgamal"%string) None None (Some p) None (Some g)
            (Some y))
    else Ok (self None None None None None None None)
  else
    Ok (mk (Some version) None None None None None None None None None None
           None None).

End PublicKeyPacket.

(** ** Text: UTF-8, [str.strip] and the [re] patterns the module uses *)

Definition continuation (b : Z) : bool := (0x80 <=? b) && (b <? 0xC0).

(** [data.decode('utf8')] with strict errors: ill-formed input (a stray or
    missing continuation byte, an overlong form, a surrogate, a value above
    U+10FFFF) raises [UnicodeDecodeError]. *)
Fixpoint decode_utf8 (data : bytearray) : result unicode :=
  match data with
  | [] => Ok []
  | c0 :: r0 =>
      let b0 := int_of_byte c0 in
      if b0 <? 0x80 then
        rest <- decode_utf8 r0 ;; Ok (b0 :: rest)
      else if (0xC2 <=? b0) && (b0 <? 0xE0) then
        match r0 with
        | c1 :: r1 =>
            let b1 := int_of_byte c1 in
            if continuation b1 then
              rest <- decode_utf8 r1 ;;
              Ok (Z.shiftl (Z.land b0 0x1f) 6 + Z.land b1 0x3f :: rest)
            else Raise UnicodeDecodeError
        | _ => Raise UnicodeDecodeError
        end
      else if (0xE0 <=? b0) && (b0 <? 0xF0) then
        match r0 with
        | c1 :: c2 :: r2 =>
            let b1 := int_of_byte c1 in
            let b2 := int_of_byte c2 in
            let cp := Z.shiftl (Z.land b0 0x0f) 12
                      + Z.shiftl (Z.land b1 0x3f) 6 + Z.land b2 0x3f in
            if continuation b1 && continuation b2 && (0x800 <=? cp)
               && negb ((0xD800 <=? cp) && (cp <=? 0xDFFF)) then
              rest <- decode_utf8 r2 ;; Ok (cp :: rest)
            else Raise UnicodeDecodeError
        | _ => Raise UnicodeDecodeError
        end
      else if (0xF0 <=? b0) && (b0 <? 0xF5) then
        match r0 with
        | c1 :: c2 :: c3 :: r3 =>
            let b1 := int_of_byte c1 in
            let b2 := int_of_byte c2 in
            let b3 := int_of_byte c3 in
            let cp := Z.shiftl (Z.land b0 0x07) 18
                      + Z.shiftl (Z.land b1 0x3f) 12
                      + Z.shiftl (Z.land b2 0x3f) 6 + Z.land b3 0x3f in
            if continuation b1 && continuation b2 && continuation b3
               && (0x10000 <=? cp) && (cp <=? 0x10FFFF) then
              rest <- decode_utf8 r3 ;; Ok (cp :: rest)
            else Raise UnicodeDecodeError
        | _ => Raise UnicodeDecodeError
        end
      else Raise UnicodeDecodeError
  end.

(** [c.isspace()] for a code point. *)
Definition isspace (c : Z) : bool :=
  ((0x09 <=? c) && (c <=? 0x0D)) || ((0x1C <=? c) && (c <=? 0x20))
  || (c =? 0x85) || (c =? 0xA0) || (c =? 0x1680)
  || ((0x2000 <=? c) && (c <=? 0x200A)) || (c =? 0x2028) || (c =? 0x2029)
  || (c =? 0x202F) || (c =? 0x205F) || (c =? 0x3000).

Fixpoint lstrip (s : unicode) : unicode :=
  match s with
  | c :: rest => if isspace c then lstrip rest else s
  | [] => []
  end.

(** [s.strip()] *)
Definition strip (s : unicode) : unicode := rev (lstrip (rev (lstrip s))).

Module re.

Inductive charset : Type :=
| Is (c : Z)        (* the character itself *)
| IsNot (c : Z).    (* the class [^c] *)

Definition member (cs : charset) (x : Z) : bool :=
  match cs with
  | Is c => x =? c
  | IsNot c => negb (x =? c)
  end.

(** The pattern syntax the module needs; repetition is greedy. *)
Inductive pattern : Type :=
| Caret                              (* ^ *)
| One (cs : charset)
| Star (cs : charset)                (* cs* *)
| Plus (cs : charset)                (* cs+ *)
| Opt (p : pattern)                  (* p? *)
| Seq (p q : pattern)
| Group (i : nat) (p : pattern).     (* ( p ), the i-th group *)

(** A match object: [m i] is [m.group(i)], [None] for a group that took no
    part in the match. *)
Definition groups : Type := nat -> option unicode.

Definition no_groups : groups := fun _ => None.

Definition set_group (i : nat) (text : unicode) (g : groups) : groups :=
  fun j => if Nat.eqb i j then Some text else g j.

(** What was consumed between two positions of the subject, each given by
    the text that remains. *)
Definition consumed (before after : unicode) : unicode :=
  firstn (List.length before - List.length after) before.

(** The longest run of [cs] first, then shorter ones, until [k] accepts. *)
Fixpoint greedy {A : Type} (cs : charset) (s : unicode)
    (k : unicode -> option A) : option A :=
  match s with
  | c :: rest =>
      if member cs c then
        match greedy cs rest k with
        | Some m => Some m
        | None => k s
        end
      else k s
  | [] => k s
  end.

(** Backtracking matcher: [p] is matched at the front of [s], and [k] is
    the rest of the pattern. *)
Fixpoint run (p : pattern) (subject s : unicode) (g : groups)
    (k : unicode -> groups -> option groups) : option groups :=
  match p with
  | Caret =>
      if Nat.eqb (List.length s) (List.length subject) then k s g else None
  | One cs =>
      match s with
      | c :: rest => if member cs c then k rest g else None
      | [] => None
      end
  | Star cs => greedy cs s (fun rest => k rest g)
  | Plus cs =>
      match s with
      | c :: rest =>
          if member cs c then greedy cs rest (fun rest' => k rest' g)
          else None
      | [] => None
      end
  | Opt q =>
      match run q subject s g k with
      | Some m => Some m
      | None => k s g
      end
  | Seq q r => run q subject s g (fun s' g' => run r subject s' g' k)
  | Group i q =>
      run q subject s g (fun s' g' => k s' (set_group i (consumed s s') g'))
  end.

(** [re.match(p, subject)] *)
Definition match_ (p : pattern) (subject : unicode) : option groups :=
  run p subject subject no_groups (fun _ g => Some g).

End re.

(** ** UserIDPacket *)

Module UserIDPacket.

Record t : Type := mk {
  user : option unicode;
  user_name : option unicode;
  user_email : option unicode
}.

(** The pattern of [parse], piece by piece: [^], then [([^<]+)?], then
    [ ?], then [<], then the group [(] [[^>]*] [)], then [>?].  The code
    points 60, 62 and 32 are the two angle brackets and the space. *)
Definition user_re : re.pattern :=
  re.Seq re.Caret
    (re.Seq (re.Opt (re.Group 1 (re.Plus (re.IsNot 60))))
       (re.Seq (re.Opt (re.One (re.Is 32)))
          (re.Seq (re.One (re.Is 60))
             (re.Seq (re.Group 2 (re.Star (re.IsNot 62)))
                (re.Opt (re.One (re.Is 62))))))).

(** [matches.group(i).strip()]: on a group that is [None] the attribute
    lookup raises [AttributeError]. *)
Definition group_strip (matches : re.groups) (i : nat) : result unicode :=
  match matches i with
  | Some text => Ok (strip text)
  | None => Raise AttributeError
  end.

(** [UserIDPacket.parse] *)
Definition parse (data : bytearray) : result t :=
  user <- decode_utf8 data ;;
  match re.match_ user_re user with
  | Some matches =>
      name <- group_strip matches 1 ;;
      email <- group_strip matches 2 ;;
      Ok (mk (Some user) (Some name) (Some email))
  | None => Ok (mk (Some user) None None)
  end.

End UserIDPacket.

(** ** UserAttributePacket *)

Module UserAttributePacket.

Record t : Type := mk {
  raw_image_format : option Z;
  image_format : option string;
  image_data : option bytearray
}.

Definition init : t := mk None None None.

(** One turn of the loop of [parse]: the packet, [offset] and [sub_len]
    after the turn. *)
Definition attribute_step (data : bytearray) (self : t) (offset : Z)
    : result (t * Z * Z) :=
  '(sub_offset, sub_len, sub_part) <- new_tag_length data offset ;;
  let sub_len := sub_len - 1 in
  let offset := offset + (1 + sub_offset) in
  sub_type <- getitem data offset ;;
  let offset := offset + 1 in
  if sub_type =? 1 then
    lo <- getitem data offset ;;
    hi <- getitem data (offset + 1) ;;
    let hdr_size := lo + Z.shiftl hi 8 in
    hdr_version <- getitem data (offset + 2) ;;
    format <- getitem data (offset + 3) ;;
    let offset := offset + hdr_size in
    let image := getslice_from data offset in
    let kind := if format =? 1 then "jpeg"%string else "unknown"%string in
    Ok (mk (Some format) (Some kind) (Some image), offset, sub_len)
  else Ok (self, offset, sub_len).

(** [while offset + sub_len < len(self.data): ...] *)
Fixpoint attributes_loop (fuel : nat) (data : bytearray) (self : t)
    (offset sub_len : Z) : result t :=
  if offset + sub_len <? len data then
    match fuel with
    | O => OutOfFuel
    | S fuel' =>
        '(self, offset, sub_len) <- attribute_step data self offset ;;
        attributes_loop fuel' data self offset sub_len
    end
  else Ok self.

(** [UserAttributePacket.parse].  A turn that does not raise reads inside
    the buffer and moves [offset] forward by at least two, so one turn per
    byte and one more are enough. *)
Definition parse (data : bytearray) : result t :=
  attributes_loop (S (List.length data)) data init 0 0.

End UserAttributePacket.

(** ** TrustPacket *)

Module TrustPacket.

Record t : Type := mk {
  trust : option Z
}.

(** [TrustPacket.parse]; [length] is [self.length]. *)
Definition parse (length : Z) (data : bytearray) : result t :=
  if length =? 2 then
    v <- get_int2 data 0 ;; Ok (mk (Some v))
  else Ok (mk None).

End TrustPacket.

(** ** Packet and the dispatcher *)

(** The classes a tag can be decoded by. *)
Inductive PacketType : Type :=
| PacketClass
| SignaturePacketClass
| PublicKeyPacketClass
| PublicSubkeyPacketClass
| UserIDPacketClass
| UserAttributePacketClass
| TrustPacketClass.

(** What a subclass adds to the fields of [Packet]. *)
Inductive fields : Type :=
| NoFields
| SignatureFields (s : SignaturePacket.t)
| PublicKeyFields (k : PublicKeyPacket.t)
| PublicSubkeyFields (k : PublicKeyPacket.t)
| UserIDFields (u : UserIDPacket.t)
| UserAttributeFields (a : UserAttributePacket.t)
| TrustFields (v : TrustPacket.t).

Module Packet.

Record t : Type := mk {
  raw : Z;
  name : string;
  new : bool;
  length : Z;
  data : bytearray;
  parsed : fields
}.

(** [self.parse()], by class; the base class method does nothing. *)
Definition parse (cls : PacketType) (length : Z) (data : bytearray)
    : result fields :=
  match cls with
  | PacketClass => Ok NoFields
  | SignaturePacketClass =>
      s <- SignaturePacket.parse data ;; Ok (SignatureFields s)
  | PublicKeyPacketClass =>
      k <- PublicKeyPacket.parse length data ;; Ok (PublicKeyFields k)
  | PublicSubkeyPacketClass =>
      k <- PublicKeyPacket.parse length data ;; Ok (PublicSubkeyFields k)
  | UserIDPacketClass =>
      u <- UserIDPacket.parse data ;; Ok (UserIDFields u)
  | UserAttributePacketClass =>
      a <- UserAttributePacket.parse data ;; Ok (UserAttributeFields a)
  | TrustPacketClass =>
      v <- TrustPacket.parse length data ;; Ok (TrustFields v)
  end.

(** [cls(raw, name, new, data)]: [Packet.__init__] stores the header fields
    and the body, then lets the class parse. *)
Definition init (cls : PacketType) (raw : Z) (name : string) (new : bool)
    (data : bytearray) : result t :=
  let length := len data in
  parsed <- parse cls length data ;;
  Ok (mk raw name new length data parsed).

End Packet.

(** [TAG_TYPES]: tag number to (name, class or [None]). *)
Definition TAG_TYPES : list (Z * (string * option PacketType)) :=
  [ (0, ("Reserved", None));
    (1, ("Public-Key Encrypted Session Key Packet", None));
    (2, ("Signature Packet", Some SignaturePacketClass));
    (3, ("Symmetric-Key Encrypted Session Key Packet", None));
    (4, ("One-Pass Signature Packet", None));
    (5, ("Secret Key Packet", None));
    (6, ("Public Key Packet", Some PublicKeyPacketClass));
    (7, ("Secret Subkey Packet", None));
    (8, ("Compressed Data Packet", None));
    (9, ("Symmetrically Encrypted Data Packet", None));
    (10, ("Marker Packet", None));
    (11, ("Literal Data Packet", None));
    (12, ("Trust Packet", Some TrustPacketClass));
    (13, ("User ID Packet", Some UserIDPacketClass));
    (14, ("Public Subkey Packet", Some PublicSubkeyPacketClass));
    (17, ("User Attribute Packet", Some UserAttributePacketClass));
    (18, ("Symmetrically Encrypted and MDC Packet", None));
    (19, ("Modification Detection Code Packet", None));
    (60, ("Private", None));
    (61, ("Private", None));
    (62, ("Private", None));
    (63, ("Private", None)) ]%string.

(** [d.get(key, default)] *)
Fixpoint dict_get {V : Type} (d : list (Z * V)) (key : Z) (default : V) : V :=
  match d with
  | [] => default
  | (k, v) :: rest => if k =? key then v else dict_get rest key default
  end.

(** The header of the packet at [start], as [construct_packet] reads it
    before it moves [start]: the tag, the framing flag, [data_offset] (the
    header's size, tag byte included), the declared body [length] and the
    partial flag. *)
Definition packet_header (data : bytearray) (start : Z)
  : result (Z * bool * Z * Z * bool) :=
  tag_byte <- getitem data start ;;
  let tag := Z.land tag_byte 0x3f in
  let new := negb (Z.land tag_byte 0x40 =? 0) in
  '(tag, data_offset, length, partial) <-
    (if new then
       '(data_offset, length, partial) <- new_tag_length data (start + 1) ;;
       Ok (tag, data_offset + 1, length, partial)
     else
       let tag := Z.shiftr tag 2 in
       '(data_offset, length) <- old_tag_length data start ;;
       Ok (tag, data_offset, length, false)) ;;
  let data_offset := data_offset + 1 in
  Ok (tag, new, data_offset, length, partial).

(** [construct_packet(data, start)] *)
Definition construct_packet (data : bytearray) (start : Z)
  : result (Z * Packet.t) :=
  '(tag, new, data_offset, length, partial) <- packet_header data start ;;
  let start := start + data_offset in
  let '(name, PacketType) :=
    dict_get TAG_TYPES tag ("Unknown"%string, None) in
  let end_ := start + length in
  let packet_data := getslice data start end_ in
  let PacketType :=
    match PacketType with
    | Some cls => cls
    | None => PacketClass
    end in
  packet <- Packet.init PacketType tag name new packet_data ;;
  Ok (data_offset + length, packet).

(** ** Display names *)

(** [d.get(key, default)] where the key may be [None], which no table has. *)
Definition dict_get_opt {V : Type} (d : list (Z * V)) (key : option Z)
    (default : V) : V :=
  match key with
  | Some k => dict_get d k default
  | None => default
  end.

(** [key in (a, b, ...)] where the key may be [None]. *)
Definition in_tuple (key : option Z) (t : list Z) : bool :=
  match key with
  | Some k => existsb (Z.eqb k) t
  | None => false
  end.

Module AlgoLookup.

Definition pub_algorithms : list (Z * string) :=
  [ (1, "RSA Encrypt or Sign");
    (2, "RSA Encrypt-Only");
    (3, "RSA Sign-Only");
    (16, "ElGamal Encrypt-Only");
    (17, "DSA Digital Signature Algorithm");
    (18, "Elliptic Curve");
    (19, "ECDSA");
    (20, "Formerly ElGamal Encrypt or Sign");
    (21, "Diffie-Hellman") ]%string.

(** [cls.lookup_pub_algorithm(alg)] *)
Definition lookup_pub_algorithm (alg : option Z) : string :=
  dict_get_opt pub_algorithms alg "Unknown"%string.

Definition hash_algorithms : list (Z * string) :=
  [ (1, "MD5");
    (2, "SHA1");
    (3, "RIPEMD160");
    (8, "SHA256");
    (9, "SHA384");
    (10, "SHA512");
    (11, "SHA224") ]%string.

(** [cls.lookup_hash_algorithm(alg)] *)
Definition lookup_hash_algorithm (alg : option Z) : string :=
  if in_tuple alg [4; 5; 6; 7] then "Reserved"%string
  else dict_get_opt hash_algorithms alg "Unknown"%string.

End AlgoLookup.

(** [SignatureSubpacket.subpacket_types] *)
Definition subpacket_types : list (Z * string) :=
  [ (2, "Signature Creation Time");
    (3, "Signature Expiration Time");
    (4, "Exportable Certification");
    (5, "Trust Signature");
    (6, "Regular Expression");
    (7, "Revocable");
    (9, "Key Expiration Time");
    (10, "Placeholder for backward compatibility");
    (11, "Preferred Symmetric Algorithms");
    (12, "Revocation Key");
    (16, "Issuer");
    (20, "Notation Data");
    (21, "Preferred Hash Algorithms");
    (22, "Preferred Compression Algorithms");
    (23, "Key Server Preferences");
    (24, "Preferred Key Server");
    (25, "Primary User ID");
    (26, "Policy URI");
    (27, "Key Flags");
    (28, "Signer's User ID");
    (29, "Reason for Revocation");
    (30, "Features");
    (31, "Signature Target");
    (32, "Embedded Signature") ]%string.

(** The property [SignatureSubpacket.name]. *)
Definition subpacket_name (sp : SignatureSubpacket.t) : string :=
  if existsb (Z.eqb (SignatureSubpacket.subtype sp))
       [0; 1; 8; 13; 14; 15; 17; 18; 19]
  then "Reserved"%string
  else dict_get subpacket_types (SignatureSubpacket.subtype sp)
         "Unknown"%string.

(** [SignaturePacket.sig_types] *)
Definition sig_types : list (Z * string) :=
  [ (0x00, "Signature of a binary document");
    (0x01, "Signature of a canonical text document");
    (0x02, "Standalone signature");
    (0x10, "Generic certification of a User ID and Public Key packet");
    (0x11, "Persona certification of a User ID and Public Key packet");
    (0x12, "Casual certification of a User ID and Public Key packet");
    (0x13, "Positive certification of a User ID and Public Key packet");
    (0x18, "Subkey Binding Signature");
    (0x19, "Primary Key Binding Signature");
    (0x1f, "Signature directly on a key");
    (0x20, "Key revocation signature");
    (0x28, "Subkey revocation signature");
    (0x30, "Certification revocation signature");
    (0x40, "Timestamp signature");
    (0x50, "Third-Party Confirmation signature") ]%string.

(** The properties [sig_type], [pub_algorithm] and [hash_algorithm] of a
    [SignaturePacket]. *)
Definition signature_sig_type (s : SignaturePacket.t) : string :=
  dict_get_opt sig_types (SignaturePacket.raw_sig_type s) "Unknown"%string.

Definition signature_pub_algorithm (s : SignaturePacket.t) : string :=
  AlgoLookup.lookup_pub_algorithm (SignaturePacket.raw_pub_algorithm s).

Definition signature_hash_algorithm (s : SignaturePacket.t) : string :=
  AlgoLookup.lookup_hash_algorithm (SignaturePacket.raw_hash_algorithm s).

(** The property [pub_algorithm] of a [PublicKeyPacket]. *)
Definition public_key_pub_algorithm (k : PublicKeyPacket.t) : string :=
  AlgoLookup.lookup_pub_algorithm (PublicKeyPacket.raw_pub_algorithm k).

(** * Vocabulary of the statements *)

(** The name and the class [TAG_TYPES] gives a tag. *)
Definition tag_name (tag : Z) : string :=
  fst (dict_get TAG_TYPES tag ("Unknown"%string, None)).

Definition tag_decoder (tag : Z) : option PacketType :=
  snd (dict_get TAG_TYPES tag ("Unknown"%string, None)).

Definition class_of (tag : Z) : PacketType :=
  match tag_decoder tag with
  | Some cls => cls
  | None => PacketClass
  end.

(** The last subpacket of subtype [k] in a list kept in scan order. *)
Definition last_of_subtype (k : Z) (sps : list SignatureSubpacket.t)
  : option SignatureSubpacket.t :=
  find (fun sp => SignatureSubpacket.subtype sp =? k) (rev sps).

(** [field] holds what [read] takes from the data of the last subpacket of
    subtype [k], and is unset when there is none. *)
Definition reads_last {V : Type} (k : Z) (read : bytearray -> result V)
    (sps : list SignatureSubpacket.t) (field : option V) : Prop :=
  match last_of_subtype k sps with
  | Some sp =>
      exists v, read (SignatureSubpacket.data sp) = Ok v /\ field = Some v
  | None => field = None
  end.

(** The fields the scan derives from subpackets follow the subpacket list. *)
Definition tracks (s : SignaturePacket.t) : Prop :=
  reads_last 2 (fun d => get_int4 d 0) (SignaturePacket.subpackets s)
    (SignaturePacket.raw_creation_time s)
  /\ SignaturePacket.creation_time s
     = option_map utcfromtimestamp (SignaturePacket.raw_creation_time s)
  /\ reads_last 3 (fun d => get_int4 d 0) (SignaturePacket.subpackets s)
       (SignaturePacket.raw_expiration_time s)
  /\ reads_last 16 (fun d => get_key_id d 0) (SignaturePacket.subpackets s)
       (SignaturePacket.key_id s).

(** A version 4 body: hashed region with a creation time of 1; unhashed
    region with a creation time of 2 and an issuer. *)
Definition example_v4_duplicates : bytearray :=
  bytearray_of
    [4; 0x10; 1; 2;
     0; 6;    5; 2; 0; 0; 0; 1;
     0; 16;   5; 2; 0; 0; 0; 2;   9; 16; 1; 2; 3; 4; 5; 6; 7; 8;
     0xab; 0xcd].



(** An ASCII digit or one of the letters A to F. *)
Definition is_upper_hex_digit (b : byte) : bool :=
  let n := int_of_byte b in
  ((48 <=? n) && (n <=? 57)) || ((65 <=? n) && (n <=? 70)).

(** The key fields of a Public-Key or Public-Subkey packet. *)
Definition public_key_of (f : fields) : option PublicKeyPacket.t :=
  match f with
  | PublicKeyFields k | PublicSubkeyFields k => Some k
  | _ => None
  end.

(** A version 4 RSA key body: creation time 1, algorithm 1, modulus 511
    (9 bits), exponent 3 (2 bits). *)
Definition example_rsa_key : bytearray :=
  bytearray_of [4; 0; 0; 0; 1; 1; 0; 9; 1; 0xff; 0; 2; 3].

(** The longest prefix whose characters all satisfy [p], and what follows
    it. *)
Fixpoint take_while (p : Z -> bool) (s : unicode) : unicode :=
  match s with
  | c :: rest => if p c then c :: take_while p rest else []
  | [] => []
  end.

Fixpoint drop_while (p : Z -> bool) (s : unicode) : unicode :=
  match s with
  | c :: rest => if p c then drop_while p rest else s
  | [] => []
  end.

(** The text up to the first [>], or all of it. *)
Definition up_to_closing (s : unicode) : unicode :=
  take_while (fun c => negb (c =? 62)) s.

(** The code points of an ASCII text, to write examples with. *)
Definition ascii_text (s : string) : unicode :=
  map int_of_byte (list_byte_of_string s).

(** The pattern after its first group: an optional space, [<], the second
    group and an optional [>]. *)
Definition after_name : re.pattern :=
  re.Seq (re.Opt (re.One (re.Is 32)))
    (re.Seq (re.One (re.Is 60))
       (re.Seq (re.Group 2 (re.Star (re.IsNot 62)))
          (re.Opt (re.One (re.Is 62))))).

Definition accept : unicode -> re.groups -> option re.groups :=
  fun _ g => Some g.

(** The tag byte of an old-format packet with length type 3: the body runs
    to the end of the buffer. *)
Definition indeterminate (tag_byte : Z) : bool :=
  (Z.land tag_byte 0x40 =? 0) && (Z.land tag_byte 0x03 =? 3).

(** The class whose [parse] filled the fields. *)
Definition class_of_fields (f : fields) : PacketType :=
  match f with
  | NoFields => PacketClass
  | SignatureFields _ => SignaturePacketClass
  | PublicKeyFields _ => PublicKeyPacketClass
  | PublicSubkeyFields _ => PublicSubkeyPacketClass
  | UserIDFields _ => UserIDPacketClass
  | UserAttributeFields _ => UserAttributePacketClass
  | TrustFields _ => TrustPacketClass
  end.

(** A subpacket built from one type byte and one slice of the body. *)
Definition subpacket_of (data : bytearray) (sp : SignatureSubpacket.t)
  : Prop :=
  exists (c : byte) (hashed : bool) (lo hi : Z),
    sp = SignatureSubpacket.init (int_of_byte c) hashed (getslice data lo hi).

(** The algorithm family [PublicKeyPacket.parse] decodes key parameters
    for. *)
Definition key_family (algo : Z) : option string :=
  if (algo =? 1) || (algo =? 2) || (algo =? 3) then Some "rsa"%string
  else if algo =? 17 then Some "dsa"%string
  else if algo =? 16 then Some "elgamal"%string
  else None.

(** The image fields of a User Attribute packet over the body [data]: all
    unset, or all set from a format code and the tail of the body. *)
Definition image_fields (data : bytearray) (a : UserAttributePacket.t)
  : Prop :=
  (UserAttributePacket.raw_image_format a = None
   /\ UserAttributePacket.image_format a = None
   /\ UserAttributePacket.image_data a = None)
  \/ exists format image,
       UserAttributePacket.raw_image_format a = Some format
       /\ 0 <= format < 256
       /\ UserAttributePacket.image_format a
          = Some (if format =? 1 then "jpeg"%string else "unknown"%string)
       /\ UserAttributePacket.image_data a = Some image
       /\ exists before, data = before ++ image.

(** * Properties *)

(** ** Bytes, indexing and slices *)

Lemma int_of_byte_range (b : byte) : 0 <= int_of_byte b < 256.
Proof.
  unfold int_of_byte. pose proof (Byte.to_N_bounded b). lia.
Qed.

Lemma len_nonneg {A : Type} (l : list A) : 0 <= len l.
Proof. unfold len. lia. Qed.

Lemma len_app {A : Type} (l1 l2 : list A) : len (l1 ++ l2) = len l1 + len l2.
Proof. unfold len. rewrite length_app. lia. Qed.

Lemma len_cons {A : Type} (x : A) (l : list A) : len (x :: l) = 1 + len l.
Proof. unfold len. cbn [List.length]. lia. Qed.

Lemma clamp_inside (n i : Z) : 0 <= i <= n -> clamp n i = i.
Proof.
  intros H. unfold clamp.
  destruct (Z.ltb_spec i 0); lia.
Qed.

(** Reading the byte that follows a prefix. *)
Lemma getitem_at (pre rest : bytearray) (c : byte) :
  getitem (pre ++ c :: rest) (len pre) = Ok (int_of_byte c).
Proof.
  unfold getitem.
  pose proof (len_nonneg pre) as Hp. pose proof (len_nonneg rest) as Hr.
  destruct (Z.ltb_spec (len pre) 0) as [Hneg | _]; [lia |].
  rewrite len_app, len_cons.
  destruct (Z.leb_spec 0 (len pre)) as [_ | Hneg]; [| lia].
  destruct (Z.ltb_spec (len pre) (len pre + (1 + len rest))) as [_ | Hge];
    [| lia].
  cbn [andb]. unfold len. rewrite Nat2Z.id.
  rewrite nth_error_app2 by lia. rewrite Nat.sub_diag. reflexivity.
Qed.

Lemma getitem_at_next (pre rest : bytearray) (c c1 : byte) :
  getitem (pre ++ c :: c1 :: rest) (len pre + 1) = Ok (int_of_byte c1).
Proof.
  replace (pre ++ c :: c1 :: rest) with ((pre ++ [c]) ++ c1 :: rest)
    by (rewrite <- app_assoc; reflexivity).
  replace (len pre + 1) with (len (pre ++ [c]))
    by (rewrite len_app; reflexivity).
  apply getitem_at.
Qed.

(** The slice that covers exactly a middle part of the buffer. *)
Lemma getslice_at {A : Type} (pre mid rest : list A) :
  getslice (pre ++ mid ++ rest) (len pre) (len pre + len mid) = mid.
Proof.
  unfold getslice.
  pose proof (len_nonneg pre). pose proof (len_nonneg mid).
  pose proof (len_nonneg rest).
  rewrite !clamp_inside by (rewrite !len_app; lia).
  replace (len pre + len mid - len pre) with (len mid) by lia.
  unfold len. rewrite !Nat2Z.id.
  rewrite skipn_app, skipn_all, Nat.sub_diag. cbn [skipn app].
  rewrite firstn_app, firstn_all, Nat.sub_diag. cbn [firstn].
  apply app_nil_r.
Qed.

Lemma length_getslice {A : Type} (data : list A) (lo hi : Z) :
  0 <= lo <= hi -> hi <= len data ->
  len (getslice data lo hi) = hi - lo.
Proof.
  intros H1 H2. unfold getslice.
  rewrite !clamp_inside by lia.
  unfold len in *. rewrite length_firstn, length_skipn. lia.
Qed.

(** The fixed-width reader on a middle part of the buffer. *)
Lemma read_be_at (pre mid rest : bytearray) :
  read_be (len mid) (pre ++ mid ++ rest) (len pre) = Ok (be_int mid).
Proof.
  unfold read_be.
  pose proof (len_nonneg pre). pose proof (len_nonneg rest).
  destruct (Z.leb_spec 0 (len pre)); [| lia].
  rewrite !len_app.
  destruct (Z.leb_spec (len pre + len mid) (len pre + (len mid + len rest)));
    [| lia].
  cbn [andb]. rewrite getslice_at. reflexivity.
Qed.

Lemma get_int2_at (pre rest : bytearray) (c1 c2 : byte) :
  get_int2 (pre ++ c1 :: c2 :: rest) (len pre)
  = Ok (int_of_byte c1 * 256 + int_of_byte c2).
Proof.
  unfold get_int2.
  change (pre ++ c1 :: c2 :: rest) with (pre ++ [c1; c2] ++ rest).
  change 2 with (len [c1; c2]) at 1.
  rewrite read_be_at. reflexivity.
Qed.

Lemma get_int4_at (pre rest : bytearray) (c1 c2 c3 c4 : byte) :
  get_int4 (pre ++ c1 :: c2 :: c3 :: c4 :: rest) (len pre)
  = Ok (((int_of_byte c1 * 256 + int_of_byte c2) * 256 + int_of_byte c3) * 256
        + int_of_byte c4).
Proof.
  unfold get_int4.
  change (pre ++ c1 :: c2 :: c3 :: c4 :: rest)
    with (pre ++ [c1; c2; c3; c4] ++ rest).
  change 4 with (len [c1; c2; c3; c4]) at 1.
  rewrite read_be_at. reflexivity.
Qed.

(** A value read by the fixed-width reader is unsigned and fits its width. *)
Lemma be_int_bound (bs : bytearray) : 0 <= be_int bs < 256 ^ len bs.
Proof.
  unfold be_int.
  enough (forall acc n, 0 <= acc < 256 ^ n -> 0 <= n ->
            0 <= fold_left (fun a b => a * 256 + int_of_byte b) bs acc
              < 256 ^ (n + len bs)) as H.
  { specialize (H 0 0). cbn in H. apply H; lia. }
  induction bs as [| b bs IH]; intros acc n Hacc Hn.
  - cbn. rewrite Z.add_0_r. exact Hacc.
  - cbn [fold_left]. rewrite len_cons.
    replace (n + (1 + len bs)) with ((n + 1) + len bs) by lia.
    apply IH; [| lia].
    pose proof (int_of_byte_range b).
    rewrite Z.pow_add_r by lia. change (256 ^ 1) with 256. nia.
Qed.

Lemma read_be_nonneg (w : Z) (data : bytearray) (off v : Z) :
  read_be w data off = Ok v -> 0 <= v.
Proof.
  unfold read_be. intros H.
  destruct ((0 <=? off) && (off + w <=? len data)); [| discriminate].
  injection H as <-. apply be_int_bound.
Qed.

(** ** The length decoders *)

(** C1: for a buffer [data = pre ++ c :: rest], the position [p = len pre] of
    the first length byte [b], and enough bytes after it, [new_tag_length]
    returns (header bytes after [b], body length, partial) by the four bands:
    [b < 192] gives [(0, b, False)]; [192 <= b < 224] gives
    [(1, ((b - 192) << 8) + next + 192, False)]; [b = 255] gives 4 and the
    next four bytes as a big-endian unsigned 32-bit value; [224 <= b < 255]
    gives [(0, 1 << (b & 0x1f), True)]. *)
Theorem new_tag_length_bands (pre rest : bytearray) (c : byte) :
  let data := pre ++ c :: rest in
  let p := len pre in
  let b := int_of_byte c in
  (b < 192 -> new_tag_length data p = Ok (0, b, false))
  /\ (192 <= b < 224 ->
      forall c1 rest', rest = c1 :: rest' ->
      new_tag_length data p
      = Ok (1, Z.shiftl (b - 192) 8 + int_of_byte c1 + 192, false))
  /\ (b = 255 ->
      forall c1 c2 c3 c4 rest', rest = c1 :: c2 :: c3 :: c4 :: rest' ->
      new_tag_length data p
      = Ok (4, int_of_byte c1 * 2 ^ 24 + int_of_byte c2 * 2 ^ 16
               + int_of_byte c3 * 2 ^ 8 + int_of_byte c4, false))
  /\ (224 <= b < 255 ->
      new_tag_length data p = Ok (0, Z.shiftl 1 (Z.land b 0x1f), true)).
Proof.
  intros data p b. subst data p.
  unfold new_tag_length. rewrite getitem_at. cbn [bind]. fold b.
  repeat split.
  - intros Hb. destruct (Z.ltb_spec b 192); [reflexivity | lia].
  - intros Hb c1 rest' ->.
    destruct (Z.ltb_spec b 192); [lia |].
    destruct (Z.ltb_spec b 224); [| lia].
    rewrite getitem_at_next. reflexivity.
  - intros Hb c1 c2 c3 c4 rest' ->. rewrite Hb. cbn [Z.ltb Z.eqb Z.compare
      Pos.compare Pos.compare_cont Pos.eqb].
    replace (pre ++ c :: c1 :: c2 :: c3 :: c4 :: rest')
      with ((pre ++ [c]) ++ c1 :: c2 :: c3 :: c4 :: rest')
      by (rewrite <- app_assoc; reflexivity).
    replace (len pre + 1) with (len (pre ++ [c]))
      by (rewrite len_app; reflexivity).
    rewrite get_int4_at. cbn [bind]. do 3 f_equal; lia.
  - intros Hb.
    destruct (Z.ltb_spec b 192); [lia |].
    destruct (Z.ltb_spec b 224); [lia |].
    destruct (Z.eqb_spec b 255); [lia |]. reflexivity.
Qed.

(** One instance per band, at the band's edges. *)
Lemma new_tag_length_bands_witness :
  new_tag_length (bytearray_of [191]) 0 = Ok (0, 191, false)
  /\ new_tag_length (bytearray_of [192; 0]) 0 = Ok (1, 192, false)
  /\ new_tag_length (bytearray_of [223; 255]) 0 = Ok (1, 8383, false)
  /\ new_tag_length (bytearray_of [255; 0; 1; 2; 3]) 0 = Ok (4, 66051, false)
  /\ new_tag_length (bytearray_of [224]) 0 = Ok (0, 1, true)
  /\ new_tag_length (bytearray_of [254]) 0 = Ok (0, 1073741824, true).
Proof.
  pose proof (new_tag_length_bands [] [] (byte_of_int 191))
    as (H191 & _).
  pose proof (new_tag_length_bands [] [byte_of_int 0] (byte_of_int 192))
    as (_ & H192 & _).
  pose proof (new_tag_length_bands [] [byte_of_int 255] (byte_of_int 223))
    as (_ & H223 & _).
  pose proof (new_tag_length_bands []
                (bytearray_of [0; 1; 2; 3]) (byte_of_int 255))
    as (_ & _ & H255 & _).
  pose proof (new_tag_length_bands [] [] (byte_of_int 224))
    as (_ & _ & _ & H224).
  pose proof (new_tag_length_bands [] [] (byte_of_int 254))
    as (_ & _ & _ & H254).
  refine (conj _ (conj _ (conj _ (conj _ (conj _ _))))).
  - exact (H191 eq_refl).
  - exact (H192 ltac:(vm_compute; split; [discriminate | reflexivity])
             (byte_of_int 0) [] eq_refl).
  - exact (H223 ltac:(vm_compute; split; [discriminate | reflexivity])
             (byte_of_int 255) [] eq_refl).
  - exact (H255 eq_refl (byte_of_int 0) (byte_of_int 1) (byte_of_int 2)
             (byte_of_int 3) [] eq_refl).
  - exact (H224 ltac:(vm_compute; split; [discriminate | reflexivity])).
  - exact (H254 ltac:(vm_compute; split; [discriminate | reflexivity])).
Defined.

(** C6: old-style length decoding at the tag byte [c] at [start = len pre],
    with [t = c & 3].  [t = 3] gives header size 0 and the body length
    [len(data) - start - 1]; [t = 0], [1], [2] give header sizes 1, 2, 4 and
    the next 1, 2, 4 bytes read big-endian. *)
Theorem old_tag_length_by_type (pre rest : bytearray) (c : byte) :
  let data := pre ++ c :: rest in
  let start := len pre in
  let t := Z.land (int_of_byte c) 0x03 in
  (t = 3 -> old_tag_length data start = Ok (0, len data - start - 1))
  /\ (t = 0 ->
      forall c1 rest', rest = c1 :: rest' ->
      old_tag_length data start = Ok (1, int_of_byte c1))
  /\ (t = 1 ->
      forall c1 c2 rest', rest = c1 :: c2 :: rest' ->
      old_tag_length data start
      = Ok (2, int_of_byte c1 * 2 ^ 8 + int_of_byte c2))
  /\ (t = 2 ->
      forall c1 c2 c3 c4 rest', rest = c1 :: c2 :: c3 :: c4 :: rest' ->
      old_tag_length data start
      = Ok (4, int_of_byte c1 * 2 ^ 24 + int_of_byte c2 * 2 ^ 16
               + int_of_byte c3 * 2 ^ 8 + int_of_byte c4)).
Proof.
  intros data start t. subst data start.
  unfold old_tag_length. rewrite getitem_at. cbn [bind]. fold t.
  repeat split.
  - intros ->. reflexivity.
  - intros -> c1 rest' ->. cbn [Z.eqb]. rewrite getitem_at_next. reflexivity.
  - intros -> c1 c2 rest' ->. cbn [Z.eqb Pos.eqb].
    replace (pre ++ c :: c1 :: c2 :: rest')
      with ((pre ++ [c]) ++ c1 :: c2 :: rest')
      by (rewrite <- app_assoc; reflexivity).
    replace (len pre + 1) with (len (pre ++ [c]))
      by (rewrite len_app; reflexivity).
    rewrite get_int2_at. cbn [bind]. do 2 f_equal; lia.
  - intros -> c1 c2 c3 c4 rest' ->. cbn [Z.eqb Pos.eqb].
    replace (pre ++ c :: c1 :: c2 :: c3 :: c4 :: rest')
      with ((pre ++ [c]) ++ c1 :: c2 :: c3 :: c4 :: rest')
      by (rewrite <- app_assoc; reflexivity).
    replace (len pre + 1) with (len (pre ++ [c]))
      by (rewrite len_app; reflexivity).
    rewrite get_int4_at. cbn [bind]. do 2 f_equal; lia.
Qed.

(** The four length types on a buffer whose tag byte is not the first. *)
Lemma old_tag_length_by_type_witness :
  old_tag_length (bytearray_of [0; 0x9b; 7; 7; 7]) 1 = Ok (0, 3)
  /\ old_tag_length (bytearray_of [0; 0x98; 7; 9]) 1 = Ok (1, 7)
  /\ old_tag_length (bytearray_of [0; 0x99; 1; 2]) 1 = Ok (2, 258)
  /\ old_tag_length (bytearray_of [0; 0x9a; 0; 1; 2; 3]) 1 = Ok (4, 66051).
Proof.
  pose proof (old_tag_length_by_type (bytearray_of [0])
                (bytearray_of [7; 7; 7]) (byte_of_int 0x9b)) as (H3 & _).
  pose proof (old_tag_length_by_type (bytearray_of [0])
                (bytearray_of [7; 9]) (byte_of_int 0x98)) as (_ & H0 & _).
  pose proof (old_tag_length_by_type (bytearray_of [0])
                (bytearray_of [1; 2]) (byte_of_int 0x99))
    as (_ & _ & H1 & _).
  pose proof (old_tag_length_by_type (bytearray_of [0])
                (bytearray_of [0; 1; 2; 3]) (byte_of_int 0x9a))
    as (_ & _ & _ & H2).
  refine (conj _ (conj _ (conj _ _))).
  - exact (H3 eq_refl).
  - exact (H0 eq_refl (byte_of_int 7) (bytearray_of [9]) eq_refl).
  - exact (H1 eq_refl (byte_of_int 1) (byte_of_int 2) [] eq_refl).
  - exact (H2 eq_refl (byte_of_int 0) (byte_of_int 1) (byte_of_int 2)
             (byte_of_int 3) [] eq_refl).
Defined.

(** ** Reads at fixed offsets *)

Lemma getitem_nth (data : bytearray) (i : Z) (c : byte) :
  0 <= i -> nth_error data (Z.to_nat i) = Some c ->
  getitem data i = Ok (int_of_byte c).
Proof.
  intros Hi Hnth. unfold getitem.
  assert (i < len data) as Hlt.
  { unfold len. assert (Z.to_nat i < List.length data)%nat; [| lia].
    apply nth_error_Some. congruence. }
  destruct (Z.ltb_spec i 0); [lia |].
  destruct (Z.leb_spec 0 i); [| lia].
  destruct (Z.ltb_spec i (len data)); [| lia].
  cbn [andb]. rewrite Hnth. reflexivity.
Qed.

Lemma getslice_inside {A : Type} (data : list A) (lo hi : Z) :
  0 <= lo <= hi -> hi <= len data ->
  getslice data lo hi = firstn (Z.to_nat (hi - lo)) (skipn (Z.to_nat lo) data).
Proof.
  intros H1 H2. unfold getslice. rewrite !clamp_inside by lia. reflexivity.
Qed.

Lemma read_be_inside (w : Z) (data : bytearray) (off : Z) :
  0 <= off -> 0 <= w -> off + w <= len data ->
  read_be w data off
  = Ok (be_int (firstn (Z.to_nat w) (skipn (Z.to_nat off) data))).
Proof.
  intros H1 H2 H3. unfold read_be.
  destruct (Z.leb_spec 0 off); [| lia].
  destruct (Z.leb_spec (off + w) (len data)); [| lia].
  cbn [andb]. rewrite getslice_inside by lia.
  replace (off + w - off) with w by lia. reflexivity.
Qed.

Lemma get_key_id_inside (data : bytearray) (off : Z) :
  0 <= off -> off + 8 <= len data ->
  get_key_id data off = Ok (firstn 8 (skipn (Z.to_nat off) data)).
Proof.
  intros H1 H2. unfold get_key_id.
  destruct (Z.leb_spec 0 off); [| lia].
  destruct (Z.leb_spec (off + 8) (len data)); [| lia].
  cbn [andb]. rewrite getslice_inside by lia.
  replace (off + 8 - off) with 8 by lia. reflexivity.
Qed.

(** Side conditions on the length of a buffer given by its first bytes. *)
Ltac len_side :=
  rewrite ?len_cons;
  repeat match goal with
         | |- context [len ?l] =>
             lazymatch goal with
             | _ : 0 <= len l |- _ => fail
             | _ => pose proof (len_nonneg l)
             end
         end;
  lia.

(** ** Version 3 signatures *)

(** C5: a signature body whose version byte is 3 and whose second byte is not
    0x05 raises the "Invalid v3 signature packet" exception (the spec's
    MalformedPacket); with 0x05 there, the decoder reads the signature type
    at offset 2, the creation time (big-endian u32) at 3, the 8-byte key id
    at 7, the public-key algorithm at 15, the hash algorithm at 16 and the
    2-byte hash prefix at 17, and nothing else. *)
Theorem v3_signature_layout :
  (forall (m : byte) (rest : bytearray),
      int_of_byte m <> 0x05 ->
      SignaturePacket.parse (x03 :: m :: rest)
      = Raise (Exception_ "Invalid v3 signature packet"))
  /\ (forall (t c1 c2 c3 c4 k1 k2 k3 k4 k5 k6 k7 k8 pa ha h1 h2 : byte)
        (rest : bytearray),
      SignaturePacket.parse
        (x03 :: x05 :: t :: c1 :: c2 :: c3 :: c4
         :: k1 :: k2 :: k3 :: k4 :: k5 :: k6 :: k7 :: k8
         :: pa :: ha :: h1 :: h2 :: rest)
      = Ok {| SignaturePacket.sig_version := Some 3;
              SignaturePacket.raw_sig_type := Some (int_of_byte t);
              SignaturePacket.raw_pub_algorithm := Some (int_of_byte pa);
              SignaturePacket.raw_hash_algorithm := Some (int_of_byte ha);
              SignaturePacket.raw_creation_time :=
                Some (be_int [c1; c2; c3; c4]);
              SignaturePacket.creation_time :=
                Some (utcfromtimestamp (be_int [c1; c2; c3; c4]));
              SignaturePacket.raw_expiration_time := None;
              SignaturePacket.expiration_time := None;
              SignaturePacket.key_id :=
                Some [k1; k2; k3; k4; k5; k6; k7; k8];
              SignaturePacket.hash2 := Some [h1; h2];
              SignaturePacket.subpackets := [] |}).
Proof.
  split.
  - intros m rest Hm. unfold SignaturePacket.parse.
    rewrite (getitem_nth _ 0 x03) by (lia || reflexivity). cbn [bind].
    change (int_of_byte x03 =? 3) with true. cbv iota zeta.
    rewrite (getitem_nth _ 1 m) by (lia || reflexivity). cbn [bind].
    destruct (Z.eqb_spec (int_of_byte m) 5); [contradiction | reflexivity].
  - intros. unfold SignaturePacket.parse.
    rewrite (getitem_nth _ 0 x03) by (lia || reflexivity). cbn [bind].
    change (int_of_byte x03 =? 3) with true. cbv iota zeta.
    rewrite (getitem_nth _ 1 x05) by (lia || reflexivity). cbn [bind].
    change (int_of_byte x05 =? 5) with true. cbn [negb].
    rewrite (getitem_nth _ (1 + 1) t) by (lia || reflexivity). cbn [bind].
    unfold get_int4. rewrite read_be_inside by len_side. cbn [bind].
    rewrite get_key_id_inside by len_side. cbn [bind].
    rewrite (getitem_nth _ (1 + 1 + 1 + 4 + 8) pa) by (lia || reflexivity).
    cbn [bind].
    rewrite (getitem_nth _ (1 + 1 + 1 + 4 + 8 + 1) ha)
      by (lia || reflexivity).
    cbn [bind].
    rewrite getslice_inside by len_side.
    reflexivity.
Qed.

(** A malformed and a well-formed version 3 body. *)
Lemma v3_signature_layout_witness :
  SignaturePacket.parse (bytearray_of [3; 4; 0]) =
    Raise (Exception_ "Invalid v3 signature packet")
  /\ option_map SignaturePacket.key_id
       (match SignaturePacket.parse
                (bytearray_of [3; 5; 0x10; 0; 0; 1; 0; 1; 2; 3; 4; 5; 6; 7; 8;
                               1; 2; 0xab; 0xcd]) with
        | Ok s => Some s
        | _ => None
        end)
     = Some (Some (bytearray_of [1; 2; 3; 4; 5; 6; 7; 8])).
Proof.
  destruct v3_signature_layout as [Hbad Hgood]. split.
  - exact (Hbad (byte_of_int 4) (bytearray_of [0])
             ltac:(vm_compute; discriminate)).
  - change (bytearray_of [3; 5; 0x10; 0; 0; 1; 0; 1; 2; 3; 4; 5; 6; 7; 8;
                          1; 2; 0xab; 0xcd])
      with (x03 :: x05 :: byte_of_int 0x10 :: x00 :: x00 :: x01 :: x00
            :: x01 :: x02 :: x03 :: x04 :: x05 :: x06 :: x07 :: x08
            :: x01 :: x02 :: byte_of_int 0xab :: byte_of_int 0xcd :: []).
    rewrite Hgood. reflexivity.
Defined.

(** ** The error monad *)

Lemma bind_Ok {A B : Type} (m : result A) (k : A -> result B) (b : B) :
  bind m k = Ok b -> exists a, m = Ok a /\ k a = Ok b.
Proof.
  destruct m as [a | e |]; cbn [bind]; intros H; try discriminate.
  exists a. split; [reflexivity | exact H].
Qed.

Lemma bind_not_OutOfFuel {A B : Type} (m : result A) (k : A -> result B) :
  m <> OutOfFuel -> (forall a, m = Ok a -> k a <> OutOfFuel) ->
  bind m k <> OutOfFuel.
Proof.
  destruct m as [a | e |]; cbn [bind]; intros Hm Hk.
  - apply Hk. reflexivity.
  - discriminate.
  - exfalso. apply Hm. reflexivity.
Qed.

Lemma Ok_inj {A : Type} (a b : A) : Ok a = Ok b -> a = b.
Proof. intros H. injection H as H. exact H. Qed.

(** Splits [Ok (x, y, ..) = Ok (x', y', ..)] into its components and
    substitutes them, without reducing the values. *)
Ltac ok_tuple H :=
  apply Ok_inj in H;
  repeat match type of H with
         | (_, _) = (_, _) =>
             let H' := fresh in
             apply pair_equal_spec in H; destruct H as [H H']; subst
         end;
  subst.

(** Inverts [bind m k = Ok b] hypotheses, naming nothing. *)
Ltac invert_bind :=
  repeat match goal with
         | H : bind _ _ = Ok _ |- _ =>
             let a := fresh "a" in
             let Ha := fresh "Ha" in
             apply bind_Ok in H; destruct H as (a & Ha & H)
         | H : Ok _ = Ok _ |- _ => injection H as H; subst
         | H : Raise _ = Ok _ |- _ => discriminate H
         | H : OutOfFuel = Ok _ |- _ => discriminate H
         end.

(** ** The dispatcher *)

(** [construct_packet] once the header is known. *)
Lemma construct_packet_body (data : bytearray) (start tag : Z) (new : bool)
    (off length : Z) (partial : bool) :
  packet_header data start = Ok (tag, new, off, length, partial) ->
  construct_packet data start
  = (packet <- Packet.init (class_of tag) tag (tag_name tag) new
                 (getslice data (start + off) (start + off + length)) ;;
     Ok (off + length, packet)).
Proof.
  intros H. unfold construct_packet. rewrite H. cbn [bind].
  unfold class_of, tag_decoder, tag_name.
  destruct (dict_get TAG_TYPES tag ("Unknown"%string, None)) as [nm cls].
  reflexivity.
Qed.

Lemma construct_packet_header (data : bytearray) (start n : Z) (p : Packet.t) :
  construct_packet data start = Ok (n, p) ->
  exists tag new off length partial,
    packet_header data start = Ok (tag, new, off, length, partial).
Proof.
  unfold construct_packet. intros H.
  apply bind_Ok in H. destruct H as ([[[[tag new] off] length] partial] & H & _).
  eauto 6.
Qed.

(** What [Packet.__init__] stores, whatever the class parses. *)
Lemma Packet_init_fields (cls : PacketType) (raw : Z) (name : string)
    (new : bool) (body : bytearray) (p : Packet.t) :
  Packet.init cls raw name new body = Ok p ->
  Packet.raw p = raw /\ Packet.name p = name /\ Packet.new p = new
  /\ Packet.length p = len body /\ Packet.data p = body.
Proof.
  unfold Packet.init. intros H. invert_bind. cbn. auto.
Qed.

Lemma getitem_inv (data : bytearray) (i v : Z) :
  0 <= i -> getitem data i = Ok v -> i < len data /\ 0 <= v < 256.
Proof.
  intros Hi H. unfold getitem in H.
  destruct (Z.ltb_spec i 0); [lia |].
  destruct (Z.leb_spec 0 i); [| lia].
  destruct (Z.ltb_spec i (len data)); [| discriminate].
  cbn [andb] in H.
  destruct (nth_error data (Z.to_nat i)); [| discriminate].
  apply Ok_inj in H. subst v. split; [lia | apply int_of_byte_range].
Qed.

Lemma read_be_inv (w : Z) (data : bytearray) (off v : Z) :
  read_be w data off = Ok v -> 0 <= off /\ off + w <= len data /\ 0 <= v.
Proof.
  intros H. pose proof (read_be_nonneg _ _ _ _ H).
  unfold read_be in H.
  destruct (Z.leb_spec 0 off); [| discriminate].
  destruct (Z.leb_spec (off + w) (len data)); [| discriminate].
  lia.
Qed.

Lemma new_tag_length_bounds (data : bytearray) (start off length : Z)
    (partial : bool) :
  0 <= start ->
  new_tag_length data start = Ok (off, length, partial) ->
  0 <= off /\ 0 <= length /\ start + 1 + off <= len data.
Proof.
  intros Hs H. unfold new_tag_length in H.
  apply bind_Ok in H. destruct H as (first & Hfirst & H).
  apply getitem_inv in Hfirst as [Hin Hr]; [| lia].
  destruct (Z.ltb_spec first 192).
  { ok_tuple H. lia. }
  destruct (Z.ltb_spec first 224).
  { apply bind_Ok in H. destruct H as (next & Hnext & H).
    ok_tuple H. apply getitem_inv in Hnext as [Hin' Hr']; [| lia].
    rewrite Z.shiftl_mul_pow2 by lia. lia. }
  destruct (Z.eqb_spec first 255).
  { apply bind_Ok in H. destruct H as (v & Hv & H).
    ok_tuple H. apply read_be_inv in Hv. lia. }
  ok_tuple H.
  assert (0 <= Z.land first 31) by (apply Z.land_nonneg; lia).
  rewrite Z.shiftl_mul_pow2 by lia.
  pose proof (Z.pow_pos_nonneg 2 (Z.land first 31)). lia.
Qed.

Lemma old_tag_length_bounds (data : bytearray) (start off length : Z) :
  0 <= start ->
  old_tag_length data start = Ok (off, length) ->
  0 <= off /\ 0 <= length /\ start + 1 + off <= len data.
Proof.
  intros Hs H. unfold old_tag_length in H.
  apply bind_Ok in H. destruct H as (b & Hb & H).
  apply getitem_inv in Hb as [Hin Hr]; [| lia].
  destruct (Z.land b 3 =? 0).
  { apply bind_Ok in H. destruct H as (v & Hv & H). ok_tuple H.
    apply getitem_inv in Hv; lia. }
  destruct (Z.land b 3 =? 1).
  { apply bind_Ok in H. destruct H as (v & Hv & H). ok_tuple H.
    apply read_be_inv in Hv. lia. }
  destruct (Z.land b 3 =? 2).
  { apply bind_Ok in H. destruct H as (v & Hv & H). ok_tuple H.
    apply read_be_inv in Hv. lia. }
  destruct (Z.land b 3 =? 3); ok_tuple H; lia.
Qed.

(** A header that decodes at a position of the buffer lies inside it. *)
Lemma packet_header_bounds (data : bytearray) (start tag : Z) (new : bool)
    (off length : Z) (partial : bool) :
  0 <= start ->
  packet_header data start = Ok (tag, new, off, length, partial) ->
  1 <= off /\ 0 <= length /\ start + off <= len data.
Proof.
  intros Hs H. unfold packet_header in H.
  apply bind_Ok in H. destruct H as (b & Hb & H).
  apply bind_Ok in H. destruct H as ([[[tg o] l] pt] & Hl & H).
  ok_tuple H.
  destruct (negb (Z.land b 64 =? 0)).
  - apply bind_Ok in Hl. destruct Hl as ([[o' l'] pt'] & Hl & H).
    ok_tuple H. apply new_tag_length_bounds in Hl; lia.
  - apply bind_Ok in Hl. destruct Hl as ([o' l'] & Hl & H).
    ok_tuple H. apply old_tag_length_bounds in Hl; lia.
Qed.

(** A slice that runs past the end of the buffer is what remains of it. *)
Lemma getslice_past_end {A : Type} (data : list A) (lo hi : Z) :
  0 <= lo <= len data -> len data <= hi ->
  getslice data lo hi = skipn (Z.to_nat lo) data.
Proof.
  intros H1 H2. unfold getslice.
  rewrite (clamp_inside _ lo) by lia.
  assert (clamp (len data) hi = len data) as ->.
  { unfold clamp. destruct (Z.ltb_spec hi 0); lia. }
  apply firstn_all2. rewrite length_skipn. unfold len in *. lia.
Qed.

Lemma len_skipn {A : Type} (data : list A) (n : Z) :
  0 <= n <= len data -> len (skipn (Z.to_nat n) data) = len data - n.
Proof.
  intros H. unfold len in *. rewrite length_skipn. lia.
Qed.



(** C2, as the code has it: where the header declares a body longer than
    what remains of the buffer after the header, [construct_packet] does not
    fail on that account.  The body given to the packet is the slice clipped
    at the end of the buffer, that is all the bytes after the header; a
    returned packet holds exactly that body, its [length] is the clipped
    size, less than the declared one, and the count returned is still the
    header size plus the declared length.  With no decoder registered for
    the tag the packet is always returned. *)
Theorem truncated_body_is_clipped (data : bytearray) (start tag : Z)
    (new : bool) (off length : Z) (partial : bool) :
  0 <= start ->
  packet_header data start = Ok (tag, new, off, length, partial) ->
  len data - (start + off) < length ->
  let remaining := skipn (Z.to_nat (start + off)) data in
  getslice data (start + off) (start + off + length) = remaining
  /\ (forall n p,
        construct_packet data start = Ok (n, p) ->
        n = off + length /\ Packet.data p = remaining
        /\ Packet.length p = len data - (start + off)
        /\ Packet.length p < length)
  /\ (tag_decoder tag = None ->
      exists p, construct_packet data start = Ok (off + length, p)
                /\ Packet.data p = remaining /\ Packet.parsed p = NoFields).
Proof.
  intros Hs Hh Hlong remaining.
  pose proof (packet_header_bounds _ _ _ _ _ _ _ Hs Hh) as (Ho & Hl & Hin).
  assert (getslice data (start + off) (start + off + length) = remaining)
    as Hslice by (apply getslice_past_end; lia).
  split; [exact Hslice |]. split.
  - intros n p H.
    rewrite (construct_packet_body _ _ _ _ _ _ _ Hh), Hslice in H.
    apply bind_Ok in H. destruct H as (p' & Hp & H). ok_tuple H.
    apply Packet_init_fields in Hp as (_ & _ & _ & Hlen & Hdata).
    rewrite Hlen, Hdata. subst remaining. rewrite len_skipn by lia.
    repeat split; lia.
  - intros Hd. eexists. split.
    + rewrite (construct_packet_body _ _ _ _ _ _ _ Hh), Hslice.
      unfold class_of. rewrite Hd. reflexivity.
    + split; reflexivity.
Qed.

(** A new-format Marker packet (tag 10) that declares 5 body bytes where 2
    remain. *)
Lemma truncated_body_is_clipped_witness :
  exists p,
    construct_packet (bytearray_of [0xCA; 5; 1; 2]) 0 = Ok (7, p)
    /\ Packet.data p = bytearray_of [1; 2]
    /\ Packet.parsed p = NoFields.
Proof.
  exact (proj2 (proj2 (truncated_body_is_clipped
                         (bytearray_of [0xCA; 5; 1; 2]) 0 10 true 2 5 false
                         ltac:(lia) eq_refl eq_refl))
           eq_refl).
Defined.

(** C2, as stated, fails: the Marker packet [CA 05 01 02] declares a body of
    5 bytes with 2 bytes left, and [construct_packet] returns a packet whose
    body is those 2 bytes instead of raising. *)
Lemma truncated_packet_not_rejected :
  packet_header (bytearray_of [0xCA; 5; 1; 2]) 0 = Ok (10, true, 2, 5, false)
  /\ len (bytearray_of [0xCA; 5; 1; 2]) - 2 < 5
  /\ construct_packet (bytearray_of [0xCA; 5; 1; 2]) 0
     = Ok (7, {| Packet.raw := 10;
                 Packet.name := "Marker Packet";
                 Packet.new := true;
                 Packet.length := 2;
                 Packet.data := bytearray_of [1; 2];
                 Packet.parsed := NoFields |})
  /\ ~ (exists e, construct_packet (bytearray_of [0xCA; 5; 1; 2]) 0
                  = Raise e).
Proof.
  split; [reflexivity |]. split; [reflexivity |]. split; [reflexivity |].
  intros [e He]. discriminate He.
Qed.

(** C10: the [length] of a packet returned by [construct_packet] is the
    number of bytes of its body, the slice of the buffer from the end of the
    header over the declared length; where the declared length runs past
    the end of the buffer, the slice is clipped and [length] is the clipped
    size, not the declared one. *)
Theorem packet_length_is_body_size (data : bytearray) (start n : Z)
    (p : Packet.t) :
  construct_packet data start = Ok (n, p) ->
  Packet.length p = len (Packet.data p)
  /\ exists tag new off length partial,
       packet_header data start = Ok (tag, new, off, length, partial)
       /\ Packet.data p
          = getslice data (start + off) (start + off + length)
       /\ (0 <= start -> len data - (start + off) < length ->
           Packet.length p = len data - (start + off)
           /\ Packet.length p < length).
Proof.
  intros H.
  destruct (construct_packet_header _ _ _ _ H)
    as (tag & new & off & length & partial & Hh).
  pose proof H as H'.
  rewrite (construct_packet_body _ _ _ _ _ _ _ Hh) in H'.
  apply bind_Ok in H'. destruct H' as (p' & Hp & H'). ok_tuple H'.
  apply Packet_init_fields in Hp as (_ & _ & _ & Hlen & Hdata).
  split; [congruence |].
  exists tag, new, off, length, partial.
  split; [exact Hh |]. split; [exact Hdata |].
  intros Hs Hlong.
  pose proof (packet_header_bounds _ _ _ _ _ _ _ Hs Hh) as (Ho & Hl & Hin).
  rewrite Hlen, getslice_past_end, len_skipn by lia. lia.
Qed.

(** A Trust packet (tag 12, old format, one length byte) whose header
    declares 4 body bytes where 1 remains: [length] is 1. *)
Lemma packet_length_is_body_size_witness :
  construct_packet (bytearray_of [0xB0; 4; 9]) 0
  = Ok (6, Packet.mk 12 "Trust Packet" false 1 (bytearray_of [9])
             (TrustFields (TrustPacket.mk None)))
  /\ Packet.length
       (Packet.mk 12 "Trust Packet" false 1 (bytearray_of [9])
          (TrustFields (TrustPacket.mk None)))
     = len (bytearray_of [9]).
Proof.
  split.
  - reflexivity.
  - exact (proj1 (packet_length_is_body_size
                    (bytearray_of [0xB0; 4; 9]) 0 6
                    (Packet.mk 12 "Trust Packet" false 1 (bytearray_of [9])
                       (TrustFields (TrustPacket.mk None)))
                    eq_refl)).
Defined.

(** ** Version 4 signatures: what the subpacket scan leaves in the packet *)

Lemma last_of_subtype_snoc (k : Z) (sps : list SignatureSubpacket.t)
    (sp : SignatureSubpacket.t) :
  last_of_subtype k (sps ++ [sp])
  = if SignatureSubpacket.subtype sp =? k then Some sp
    else last_of_subtype k sps.
Proof.
  unfold last_of_subtype. rewrite rev_app_distr. reflexivity.
Qed.

Lemma reads_last_snoc_hit {V : Type} (k : Z) (read : bytearray -> result V)
    (sps : list SignatureSubpacket.t) (sp : SignatureSubpacket.t) (v : V) :
  SignatureSubpacket.subtype sp = k ->
  read (SignatureSubpacket.data sp) = Ok v ->
  reads_last k read (sps ++ [sp]) (Some v).
Proof.
  intros Hk Hv. unfold reads_last. rewrite last_of_subtype_snoc.
  rewrite Hk, Z.eqb_refl. exists v. auto.
Qed.

Lemma reads_last_snoc_miss {V : Type} (k : Z) (read : bytearray -> result V)
    (sps : list SignatureSubpacket.t) (sp : SignatureSubpacket.t)
    (field : option V) :
  SignatureSubpacket.subtype sp <> k ->
  reads_last k read sps field ->
  reads_last k read (sps ++ [sp]) field.
Proof.
  intros Hk H. unfold reads_last in *. rewrite last_of_subtype_snoc.
  destruct (Z.eqb_spec (SignatureSubpacket.subtype sp) k);
    [contradiction | exact H].
Qed.

(** What one turn of the scan does to the packet. *)
Lemma subpacket_step_spec (data : bytearray) (hashed : bool)
    (s s' : SignaturePacket.t) (offset offset' : Z) :
  SignaturePacket.subpacket_step data hashed s offset = Ok (s', offset') ->
  (exists sp,
      SignaturePacket.subpackets s' = SignaturePacket.subpackets s ++ [sp]
      /\ SignatureSubpacket.hashed sp = hashed)
  /\ (tracks s -> tracks s')
  /\ SignaturePacket.expiration_time s' = SignaturePacket.expiration_time s
  /\ SignaturePacket.sig_version s' = SignaturePacket.sig_version s
  /\ (0 <= offset -> offset + 1 <= offset').
Proof.
  unfold SignaturePacket.subpacket_step. intros H.
  apply bind_Ok in H. destruct H as ([[so sl] spart] & Hlen & H).
  apply bind_Ok in H. destruct H as (raw & Hraw & H).
  apply bind_Ok in H. destruct H as (s1 & Hs1 & H).
  ok_tuple H.
  set (sp := SignatureSubpacket.init raw hashed
               (getslice data (offset + (1 + so) + 1)
                  (offset + (1 + so) + 1 + (sl - 1)))) in *.
  assert (0 <= offset -> offset + 1 <= offset + (1 + so) + 1 + (sl - 1)) as Hadv.
  { intros Ho. apply new_tag_length_bounds in Hlen; lia. }
  destruct (Z.eqb_spec (SignatureSubpacket.subtype sp) 2) as [E2 | N2].
  { apply bind_Ok in Hs1. destruct Hs1 as (v & Hv & Hs1).
    apply Ok_inj in Hs1. subst s1. cbn.
    split; [eauto |]. split; [| auto].
    intros (Hc & Hct & He & Hk). unfold tracks. cbn.
    split; [eapply reads_last_snoc_hit; eauto |].
    split; [reflexivity |].
    split; apply reads_last_snoc_miss; auto; lia. }
  destruct (Z.eqb_spec (SignatureSubpacket.subtype sp) 3) as [E3 | N3].
  { apply bind_Ok in Hs1. destruct Hs1 as (v & Hv & Hs1).
    apply Ok_inj in Hs1. subst s1. cbn.
    split; [eauto |]. split; [| auto].
    intros (Hc & Hct & He & Hk). unfold tracks. cbn.
    split; [apply reads_last_snoc_miss; auto; lia |].
    split; [exact Hct |].
    split; [eapply reads_last_snoc_hit; eauto |].
    apply reads_last_snoc_miss; auto; lia. }
  destruct (Z.eqb_spec (SignatureSubpacket.subtype sp) 16) as [E16 | N16].
  { apply bind_Ok in Hs1. destruct Hs1 as (v & Hv & Hs1).
    apply Ok_inj in Hs1. subst s1. cbn.
    split; [eauto |]. split; [| auto].
    intros (Hc & Hct & He & Hk). unfold tracks. cbn.
    split; [apply reads_last_snoc_miss; auto; lia |].
    split; [exact Hct |].
    split; [apply reads_last_snoc_miss; auto; lia |].
    eapply reads_last_snoc_hit; eauto. }
  apply Ok_inj in Hs1. subst s1. cbn.
  split; [eauto |]. split; [| auto].
  intros (Hc & Hct & He & Hk). unfold tracks. cbn.
  split; [apply reads_last_snoc_miss; auto |].
  split; [exact Hct |].
  split; apply reads_last_snoc_miss; auto.
Qed.


(** What the statement after the scan does. *)
Lemma finish_expiration_spec (s s' : SignaturePacket.t) :
  SignaturePacket.finish_expiration s = Ok s' ->
  SignaturePacket.subpackets s' = SignaturePacket.subpackets s
  /\ SignaturePacket.sig_version s' = SignaturePacket.sig_version s
  /\ SignaturePacket.raw_expiration_time s'
     = SignaturePacket.raw_expiration_time s
  /\ SignaturePacket.creation_time s' = SignaturePacket.creation_time s
  /\ (tracks s -> tracks s')
  /\ (forall v,
        SignaturePacket.raw_expiration_time s = Some v -> v <> 0 ->
        exists c, SignaturePacket.creation_time s = Some c
                  /\ SignaturePacket.expiration_time s'
                     = Some (add_seconds c v))
  /\ (SignaturePacket.raw_expiration_time s = None
      \/ SignaturePacket.raw_expiration_time s = Some 0 ->
      SignaturePacket.expiration_time s' = SignaturePacket.expiration_time s).
Proof.
  unfold SignaturePacket.finish_expiration. intros H.
  destruct (SignaturePacket.raw_expiration_time s) as [v |] eqn:Hraw.
  - destruct (Z.eqb_spec v 0) as [-> | Hv].
    + apply Ok_inj in H. subst s'. rewrite Hraw.
      do 5 (split; [solve [auto] |]). split.
      * intros v' Hv' Hne. congruence.
      * reflexivity.
    + destruct (SignaturePacket.creation_time s) as [c |] eqn:Hc;
        [| discriminate].
      apply Ok_inj in H. subst s'. cbn.
      do 4 (split; [solve [auto] |]). split; [| split].
      * unfold tracks. cbn. rewrite Hraw, Hc. auto.
      * intros v' Hv' Hne. exists c. split; congruence.
      * intros [Hn | Hz]; congruence.
  - apply Ok_inj in H. subst s'. rewrite Hraw.
    do 5 (split; [solve [auto] |]). split.
    + intros v' Hv'. discriminate.
    + reflexivity.
Qed.








(** ** Public keys: the fingerprint *)

(** FIPS 180 test vectors for the digest. *)
Example sha1_abc :
  hashlib.hexdigest (list_byte_of_string "abc")
  = "a9993e364706816aba3e25717850c26c9cd0d89d"%string.
Proof. vm_compute. reflexivity. Qed.

Example sha1_empty :
  hashlib.hexdigest [] = "da39a3ee5e6b4b0d3255bfef95601890afd80709"%string.
Proof. vm_compute. reflexivity. Qed.

Example sha1_two_blocks :
  hashlib.hexdigest
    (list_byte_of_string
       "abcdbcdecdefdefgefghfghighijhijkijkljklmklmnlmnomnopnopq")
  = "84983e441c3bd26ebaae4aa1f95129e5e54670f1"%string.
Proof. vm_compute. reflexivity. Qed.

Lemma sha1_length (msg : bytearray) :
  List.length (hashlib.sha1 msg) = 20%nat.
Proof.
  unfold hashlib.sha1.
  destruct (fold_left hashlib.compress _ hashlib.initial)
    as [[[[h0 h1] h2] h3] h4].
  reflexivity.
Qed.

Lemma encode_ascii_cons (c : ascii) (s : string) :
  encode_ascii (String c s) = byte_of_ascii c :: encode_ascii s.
Proof. reflexivity. Qed.

Lemma hex_text_length (bs : bytearray) :
  List.length (encode_ascii (upper (hashlib.hexlify bs)))
  = (2 * List.length bs)%nat.
Proof.
  induction bs as [| b bs IH]; [reflexivity |].
  cbn [hashlib.hexlify upper]. rewrite !encode_ascii_cons.
  cbn [List.length]. rewrite IH. lia.
Qed.

Lemma hex_text_digits (bs : bytearray) :
  Forall (fun b => is_upper_hex_digit b = true)
    (encode_ascii (upper (hashlib.hexlify bs))).
Proof.
  induction bs as [| b bs IH]; [constructor |].
  cbn [hashlib.hexlify upper]. rewrite !encode_ascii_cons.
  constructor; [| constructor; [| exact IH]];
    destruct b; vm_compute; reflexivity.
Qed.

Lemma fingerprint_length (length : Z) (data : bytearray) :
  List.length (PublicKeyPacket.compute_fingerprint length data) = 40%nat.
Proof.
  unfold PublicKeyPacket.compute_fingerprint, hashlib.hexdigest.
  rewrite hex_text_length, sha1_length. reflexivity.
Qed.

(** [fingerprint[24:]] is the last 16 characters of the 40. *)
Lemma fingerprint_tail (length : Z) (data : bytearray) :
  let fp := PublicKeyPacket.compute_fingerprint length data in
  getslice_from fp 24 = skipn (List.length fp - 16) fp.
Proof.
  intros fp. subst fp. unfold getslice_from, len.
  rewrite (fingerprint_length length data). reflexivity.
Qed.

Lemma PublicKeyPacket_parse_spec (length : Z) (data : bytearray)
    (k : PublicKeyPacket.t) :
  PublicKeyPacket.parse length data = Ok k ->
  exists version,
    getitem data 0 = Ok version
    /\ PublicKeyPacket.pubkey_version k = Some version
    /\ (version = 4 ->
        PublicKeyPacket.fingerprint k
        = Some (PublicKeyPacket.compute_fingerprint length data)
        /\ PublicKeyPacket.key_id k
           = Some (getslice_from
                     (PublicKeyPacket.compute_fingerprint length data) 24))
    /\ (version <> 4 ->
        PublicKeyPacket.fingerprint k = None
        /\ PublicKeyPacket.key_id k = None).
Proof.
  unfold PublicKeyPacket.parse. intros H.
  apply bind_Ok in H. destruct H as (version & Hv & H).
  exists version. split; [exact Hv |].
  destruct (Z.eqb_spec version 4) as [-> | Hne].
  - apply bind_Ok in H. destruct H as (created & _ & H).
    apply bind_Ok in H. destruct H as (algo & _ & H).
    cbv zeta in H.
    destruct ((algo =? 1) || (algo =? 2) || (algo =? 3));
      [| destruct (algo =? 17); [| destruct (algo =? 16)]];
      repeat (apply bind_Ok in H; destruct H as ([? ?] & _ & H));
      apply Ok_inj in H; subst k; cbn;
      (split; [reflexivity |]); (split; [auto | intros Hc; congruence]).
  - apply Ok_inj in H. subst k. cbn.
    split; [reflexivity |]. split; [intros Hc; congruence | auto].
Qed.

(** C3: a Public-Key or Public-Subkey packet whose body starts with the
    version byte 4 gets as [fingerprint] the SHA-1 digest of the three bytes
    0x99, [(length >> 8) & 0xff], [length & 0xff] followed by the whole body,
    written as 40 upper-case hexadecimal characters, and as [key_id] the last
    16 of them; with any other version both stay unset. *)
Theorem v4_key_fingerprint (cls : PacketType) (raw : Z) (name : string)
    (new : bool) (data : bytearray) (p : Packet.t) :
  cls = PublicKeyPacketClass \/ cls = PublicSubkeyPacketClass ->
  Packet.init cls raw name new data = Ok p ->
  exists k version,
    public_key_of (Packet.parsed p) = Some k
    /\ getitem data 0 = Ok version
    /\ (version = 4 ->
        exists fp,
          PublicKeyPacket.fingerprint k = Some fp
          /\ fp = encode_ascii
                    (upper
                       (hashlib.hexlify
                          (hashlib.sha1
                             (bytearray_of
                                [0x99;
                                 Z.land (Z.shiftr (len data) 8) 0xff;
                                 Z.land (len data) 0xff]
                              ++ data))))
          /\ List.length fp = 40%nat
          /\ Forall (fun b => is_upper_hex_digit b = true) fp
          /\ PublicKeyPacket.key_id k
             = Some (skipn (List.length fp - 16) fp))
    /\ (version <> 4 ->
        PublicKeyPacket.fingerprint k = None
        /\ PublicKeyPacket.key_id k = None).
Proof.
  intros Hcls H. unfold Packet.init in H.
  apply bind_Ok in H. destruct H as (f & Hf & H).
  apply Ok_inj in H. subst p. cbn [Packet.parsed].
  assert (exists k, PublicKeyPacket.parse (len data) data = Ok k
                    /\ public_key_of f = Some k) as (k & Hk & Hpk).
  { destruct Hcls as [-> | ->]; cbn [Packet.parse] in Hf;
      apply bind_Ok in Hf; destruct Hf as (k & Hk & Hf);
      apply Ok_inj in Hf; subst f; exists k; auto. }
  apply PublicKeyPacket_parse_spec in Hk
    as (version & Hv & _ & H4 & Hother).
  exists k, version.
  split; [exact Hpk |]. split; [exact Hv |]. split; [| exact Hother].
  intros E. destruct (H4 E) as [Hfp Hkid].
  exists (PublicKeyPacket.compute_fingerprint (len data) data).
  split; [exact Hfp |]. split; [reflexivity |].
  split; [apply fingerprint_length |].
  split; [apply hex_text_digits |].
  rewrite Hkid. f_equal. apply fingerprint_tail.
Qed.

(** [example_rsa_key] as a Public-Key packet: the fingerprint and key id. *)
Lemma v4_key_fingerprint_witness :
  exists p k,
    Packet.init PublicKeyPacketClass 6 "Public Key Packet" false
      example_rsa_key = Ok p
    /\ public_key_of (Packet.parsed p) = Some k
    /\ PublicKeyPacket.fingerprint k
       = Some (encode_ascii "7C5284FA33819E5751E89E4D86130D133F265DFC")
    /\ PublicKeyPacket.key_id k = Some (encode_ascii "86130D133F265DFC").
Proof.
  destruct (Packet.init PublicKeyPacketClass 6 "Public Key Packet" false
              example_rsa_key) as [p | e |] eqn:H.
  - destruct (v4_key_fingerprint _ _ _ _ _ _ (or_introl eq_refl) H)
      as (k & version & Hk & Hv & H4 & _).
    exists p, k. split; [reflexivity |]. split; [exact Hk |].
    vm_compute in Hv. apply Ok_inj in Hv. subst version.
    destruct (H4 eq_refl) as (fp & Hfp & Hval & _ & _ & Hkid).
    rewrite Hkid, Hfp, Hval. split; vm_compute; reflexivity.
  - vm_compute in H. discriminate H.
  - vm_compute in H. discriminate H.
Defined.

(** ** User IDs: what the pattern matches *)

Lemma take_drop_while (p : Z -> bool) (s : unicode) :
  take_while p s ++ drop_while p s = s.
Proof.
  induction s as [| c s IH]; [reflexivity |].
  cbn. destruct (p c); [cbn; rewrite IH |]; reflexivity.
Qed.

Lemma consumed_app (taken rest : unicode) :
  re.consumed (taken ++ rest) rest = taken.
Proof.
  unfold re.consumed. rewrite length_app.
  replace (List.length taken + List.length rest - List.length rest)%nat
    with (List.length taken) by lia.
  rewrite firstn_app, firstn_all, Nat.sub_diag. cbn. apply app_nil_r.
Qed.

Lemma consumed_drop_while (p : Z -> bool) (s : unicode) :
  re.consumed s (drop_while p s) = take_while p s.
Proof.
  rewrite <- (take_drop_while p s) at 1. apply consumed_app.
Qed.

(** A continuation that accepts everywhere is called after the longest
    run. *)
Lemma greedy_accepting {A : Type} (cs : re.charset) (h : unicode -> A)
    (k : unicode -> option A) (s : unicode) :
  (forall s', k s' = Some (h s')) ->
  re.greedy cs s k = Some (h (drop_while (re.member cs) s)).
Proof.
  intros Hk. induction s as [| c s IH]; cbn; [apply Hk |].
  destruct (re.member cs c); [rewrite IH; reflexivity | apply Hk].
Qed.

(** A continuation that accepts after the longest run is called there. *)
Lemma greedy_longest {A : Type} (cs : re.charset) (k : unicode -> option A)
    (taken rest : unicode) (m : A) :
  Forall (fun c => re.member cs c = true) taken ->
  k rest = Some m ->
  match rest with
  | c :: _ => re.member cs c = false
  | [] => True
  end ->
  re.greedy cs (taken ++ rest) k = Some m.
Proof.
  intros Htaken Hk Hstop.
  induction Htaken as [| c taken Hc _ IH]; cbn.
  - destruct rest as [| c rest]; [exact Hk |].
    cbn. rewrite Hstop. exact Hk.
  - rewrite Hc, IH. reflexivity.
Qed.

(** A continuation that rejects every suffix makes the repetition fail. *)
Lemma greedy_rejecting {A : Type} (cs : re.charset) (k : unicode -> option A)
    (good : unicode -> Prop) (s : unicode) :
  (forall c rest, good (c :: rest) -> good rest) ->
  (forall s', good s' -> k s' = None) ->
  good s ->
  re.greedy cs s k = None.
Proof.
  intros Htail Hk. induction s as [| c s IH]; intros Hs; cbn.
  - apply Hk, Hs.
  - destruct (re.member cs c).
    + rewrite IH by (eapply Htail; eauto). apply Hk, Hs.
    + apply Hk, Hs.
Qed.

(** At a [<] the rest of the pattern always matches, and captures the text
    up to the first [>]. *)
Lemma after_name_at_bracket (subject rest : unicode) (g : re.groups) :
  re.run after_name subject (60 :: rest) g accept
  = Some (re.set_group 2 (up_to_closing rest) g).
Proof.
  cbn [re.run after_name re.member]. cbn [Z.eqb Pos.eqb].
  rewrite (greedy_accepting (re.IsNot 62)
             (fun r' => re.set_group 2 (re.consumed rest r') g)).
  - rewrite consumed_drop_while. reflexivity.
  - intros s'. destruct s' as [| c s']; [reflexivity |].
    unfold accept. destruct (c =? 62); reflexivity.
Qed.

(** Where there is no [<] at all the rest of the pattern cannot match. *)
Lemma after_name_without_bracket (subject s : unicode) (g : re.groups) :
  ~ In 60 s -> re.run after_name subject s g accept = None.
Proof.
  intros Hs. cbn [re.run after_name re.member].
  destruct s as [| c s]; [reflexivity |].
  assert ((c =? 60) = false) as Hc
    by (apply Z.eqb_neq; intros ->; apply Hs; left; reflexivity).
  rewrite Hc.
  destruct (c =? 32); [| reflexivity].
  destruct s as [| c' s]; [reflexivity |].
  assert ((c' =? 60) = false) as ->
    by (apply Z.eqb_neq; intros ->; apply Hs; right; left; reflexivity).
  reflexivity.
Qed.

Lemma match_user_re (user : unicode) :
  re.match_ UserIDPacket.user_re user
  = match
      match user with
      | c :: rest =>
          if negb (c =? 60) then
            re.greedy (re.IsNot 60) rest
              (fun rest' =>
                 re.run after_name user rest'
                   (re.set_group 1 (re.consumed user rest') re.no_groups)
                   accept)
          else None
      | [] => None
      end
    with
    | Some m => Some m
    | None => re.run after_name user user re.no_groups accept
    end.
Proof.
  unfold re.match_, UserIDPacket.user_re.
  cbn [re.run]. rewrite Nat.eqb_refl. reflexivity.
Qed.

(** Text without [<] does not match. *)
Lemma user_re_no_bracket (user : unicode) :
  ~ In 60 user -> re.match_ UserIDPacket.user_re user = None.
Proof.
  intros Hu. rewrite match_user_re.
  rewrite (after_name_without_bracket user user) by exact Hu.
  destruct user as [| c rest]; [reflexivity |].
  destruct (negb (c =? 60)); [| reflexivity].
  rewrite (greedy_rejecting (re.IsNot 60) _ (fun s => ~ In 60 s)).
  - reflexivity.
  - intros c' r Hr Hin. apply Hr. right. exact Hin.
  - intros s' Hs'. apply after_name_without_bracket. exact Hs'.
  - intros Hin. apply Hu. right. exact Hin.
Qed.

(** Text that starts with [<] matches with no first group. *)
Lemma user_re_leading_bracket (rest : unicode) :
  re.match_ UserIDPacket.user_re (60 :: rest)
  = Some (re.set_group 2 (up_to_closing rest) re.no_groups).
Proof.
  rewrite match_user_re. cbn [Z.eqb Pos.eqb negb].
  apply after_name_at_bracket.
Qed.

(** Text with something before its first [<] matches: the first group is
    what precedes the [<], the second what follows up to the first [>]. *)
Lemma user_re_name_and_email (name rest : unicode) :
  name <> [] -> ~ In 60 name ->
  re.match_ UserIDPacket.user_re (name ++ 60 :: rest)
  = Some (re.set_group 2 (up_to_closing rest)
            (re.set_group 1 name re.no_groups)).
Proof.
  intros Hne Hname. rewrite match_user_re.
  destruct name as [| c name]; [contradiction |].
  cbn [app].
  assert ((c =? 60) = false) as ->
    by (apply Z.eqb_neq; intros ->; apply Hname; left; reflexivity).
  cbn [negb].
  rewrite (greedy_longest (re.IsNot 60) _ name (60 :: rest)
             (re.set_group 2 (up_to_closing rest)
                (re.set_group 1 (c :: name) re.no_groups))).
  - reflexivity.
  - apply Forall_forall. intros x Hx. cbn.
    apply negb_true_iff, Z.eqb_neq. intros ->. apply Hname. right. exact Hx.
  - rewrite after_name_at_bracket.
    change (c :: name ++ 60 :: rest) with ((c :: name) ++ 60 :: rest).
    rewrite consumed_app. reflexivity.
  - reflexivity.
Qed.

(** [UserIDPacket.parse] on text that decodes, by where its first [<] is:
    none, so nothing matches and the fields stay unset; at the start, so the
    first group is [None] and stripping it raises; further on, so both
    groups are stripped and stored. *)
Lemma UserIDPacket_parse_by_shape (data : bytearray) (user : unicode) :
  decode_utf8 data = Ok user ->
  (~ In 60 user ->
   UserIDPacket.parse data = Ok (UserIDPacket.mk (Some user) None None))
  /\ (forall rest,
        user = 60 :: rest ->
        UserIDPacket.parse data = Raise AttributeError)
  /\ (forall name rest,
        user = name ++ 60 :: rest -> name <> [] -> ~ In 60 name ->
        UserIDPacket.parse data
        = Ok (UserIDPacket.mk (Some user) (Some (strip name))
                (Some (strip (up_to_closing rest))))).
Proof.
  intros Hd. unfold UserIDPacket.parse. rewrite Hd. cbn [bind].
  split; [| split].
  - intros Hu. rewrite user_re_no_bracket by exact Hu. reflexivity.
  - intros rest ->. rewrite user_re_leading_bracket. reflexivity.
  - intros name rest -> Hne Hname.
    rewrite user_re_name_and_email by assumption. reflexivity.
Qed.

(** The spec's example: a name and an address. *)
Example user_id_alice :
  UserIDPacket.parse
    (list_byte_of_string "Alice Example <alice@example.com>")
  = Ok (UserIDPacket.mk
          (Some (ascii_text "Alice Example <alice@example.com>"))
          (Some (ascii_text "Alice Example"))
          (Some (ascii_text "alice@example.com"))).
Proof. vm_compute. reflexivity. Qed.

(** C8, where the code departs from it: the pattern makes the name optional,
    and on a body with an address and no name it matches with its first
    group [None]; [matches.group(1).strip()] then raises [AttributeError],
    so the packet is not decoded at all. *)
Theorem user_id_without_name_raises :
  re.match_ UserIDPacket.user_re (ascii_text "<alice@example.com>")
  = Some (re.set_group 2 (ascii_text "alice@example.com") re.no_groups)
  /\ UserIDPacket.parse (list_byte_of_string "<alice@example.com>")
     = Raise AttributeError.
Proof.
  split.
  - exact (user_re_leading_bracket (ascii_text "alice@example.com>")).
  - vm_compute. reflexivity.
Qed.

(** ** Further behaviour of the decoders *)

(** An expiration recorded in the hashed region stays in effect when the
    unhashed region records zero: [expiration_time] keeps the value computed
    after the first scan. *)
Example stale_expiration_after_zero :
  exists s,
    SignaturePacket.parse
      (bytearray_of
         [4; 0x10; 1; 2;
          0; 12;  5; 2; 0; 0; 0; 100;  5; 3; 0; 0; 0; 50;
          0; 6;   5; 3; 0; 0; 0; 0;
          0xab; 0xcd]) = Ok s
    /\ SignaturePacket.raw_expiration_time s = Some 0
    /\ SignaturePacket.expiration_time s = Some (utc 150).
Proof. eexists. split; [vm_compute; reflexivity |]. split; reflexivity. Qed.

(** The three shapes of [UserIDPacket_parse_by_shape] on ASCII bodies. *)
Lemma UserIDPacket_parse_by_shape_witness :
  UserIDPacket.parse (list_byte_of_string "no address")
  = Ok (UserIDPacket.mk (Some (ascii_text "no address")) None None)
  /\ UserIDPacket.parse (list_byte_of_string "<bob@example.org>")
     = Raise AttributeError
  /\ UserIDPacket.parse (list_byte_of_string "Bob  <bob@example.org> x")
     = Ok (UserIDPacket.mk (Some (ascii_text "Bob  <bob@example.org> x"))
             (Some (ascii_text "Bob"))
             (Some (ascii_text "bob@example.org"))).
Proof.
  split; [| split].
  - refine (proj1 (UserIDPacket_parse_by_shape
                     (list_byte_of_string "no address")
                     (ascii_text "no address") eq_refl) _).
    vm_compute. intuition discriminate.
  - exact (proj1 (proj2 (UserIDPacket_parse_by_shape
                           (list_byte_of_string "<bob@example.org>")
                           (ascii_text "<bob@example.org>") eq_refl))
             (ascii_text "bob@example.org>") eq_refl).
  - refine (proj2 (proj2 (UserIDPacket_parse_by_shape
                            (list_byte_of_string "Bob  <bob@example.org> x")
                            (ascii_text "Bob  <bob@example.org> x") eq_refl))
              (ascii_text "Bob  ") (ascii_text "bob@example.org> x")
              eq_refl _ _).
    + discriminate.
    + vm_compute. intuition discriminate.
Defined.

(** ** The fuel of the two loops suffices *)

Create HintDb nofuel.

(** Splits a goal [_ <> OutOfFuel] along binds and branches. *)
Ltac no_fuel :=
  repeat first
    [ discriminate
    | solve [auto with nofuel]
    | apply bind_not_OutOfFuel; [| intros ? ?]
    | match goal with
      | |- (if ?c then _ else _) <> _ => destruct c
      | |- (match ?x with _ => _ end) <> _ => destruct x
      end
    | progress cbv zeta ].

Lemma getitem_no_fuel (data : bytearray) (i : Z) :
  getitem data i <> OutOfFuel.
Proof. unfold getitem. no_fuel. Qed.

Lemma read_be_no_fuel (w : Z) (data : bytearray) (off : Z) :
  read_be w data off <> OutOfFuel.
Proof. unfold read_be. no_fuel. Qed.

Lemma get_int2_no_fuel (data : bytearray) (off : Z) :
  get_int2 data off <> OutOfFuel.
Proof. apply read_be_no_fuel. Qed.

Lemma get_int4_no_fuel (data : bytearray) (off : Z) :
  get_int4 data off <> OutOfFuel.
Proof. apply read_be_no_fuel. Qed.

Lemma get_key_id_no_fuel (data : bytearray) (off : Z) :
  get_key_id data off <> OutOfFuel.
Proof. unfold get_key_id. no_fuel. Qed.

#[local] Hint Resolve getitem_no_fuel read_be_no_fuel get_int2_no_fuel
  get_int4_no_fuel get_key_id_no_fuel : nofuel.

Lemma get_mpi_no_fuel (data : bytearray) (off : Z) :
  get_mpi data off <> OutOfFuel.
Proof. unfold get_mpi. no_fuel. Qed.

Lemma new_tag_length_no_fuel (data : bytearray) (start : Z) :
  new_tag_length data start <> OutOfFuel.
Proof. unfold new_tag_length. no_fuel. Qed.

Lemma old_tag_length_no_fuel (data : bytearray) (start : Z) :
  old_tag_length data start <> OutOfFuel.
Proof. unfold old_tag_length. no_fuel. Qed.

#[local] Hint Resolve get_mpi_no_fuel new_tag_length_no_fuel
  old_tag_length_no_fuel : nofuel.

Lemma packet_header_no_fuel (data : bytearray) (start : Z) :
  packet_header data start <> OutOfFuel.
Proof. unfold packet_header. no_fuel. Qed.

Lemma subpacket_step_no_fuel (data : bytearray) (hashed : bool)
    (s : SignaturePacket.t) (offset : Z) :
  SignaturePacket.subpacket_step data hashed s offset <> OutOfFuel.
Proof. unfold SignaturePacket.subpacket_step. no_fuel. Qed.

Lemma finish_expiration_no_fuel (s : SignaturePacket.t) :
  SignaturePacket.finish_expiration s <> OutOfFuel.
Proof. unfold SignaturePacket.finish_expiration. no_fuel. Qed.

#[local] Hint Resolve packet_header_no_fuel subpacket_step_no_fuel
  finish_expiration_no_fuel : nofuel.

(** Each turn of the scan moves forward, so a fuel of the distance to the
    end of the region is never used up. *)
Lemma subpackets_loop_no_fuel (fuel : nat) (data : bytearray) (stop : Z)
    (hashed : bool) :
  forall (s : SignaturePacket.t) (offset : Z),
    0 <= offset -> stop - offset <= Z.of_nat fuel ->
    SignaturePacket.subpackets_loop fuel data stop hashed s offset
    <> OutOfFuel.
Proof.
  induction fuel as [| fuel IH]; intros s offset Ho Hfuel;
    cbn [SignaturePacket.subpackets_loop];
    destruct (Z.ltb_spec offset stop); try discriminate; [lia |].
  apply bind_not_OutOfFuel; [apply subpacket_step_no_fuel |].
  intros [s1 o1] Hstep.
  apply subpacket_step_spec in Hstep as (_ & _ & _ & _ & Hadv).
  apply IH; lia.
Qed.

Lemma parse_subpackets_no_fuel (data : bytearray) (s : SignaturePacket.t)
    (outer_offset outer_length : Z) (hashed : bool) :
  0 <= outer_offset ->
  SignaturePacket.parse_subpackets data s outer_offset outer_length hashed
  <> OutOfFuel.
Proof.
  intros Ho. unfold SignaturePacket.parse_subpackets.
  apply bind_not_OutOfFuel; [| intros; apply finish_expiration_no_fuel].
  apply subpackets_loop_no_fuel; lia.
Qed.

Lemma SignaturePacket_parse_no_fuel (data : bytearray) :
  SignaturePacket.parse data <> OutOfFuel.
Proof.
  unfold SignaturePacket.parse.
  apply bind_not_OutOfFuel; [apply getitem_no_fuel | intros version _].
  cbv zeta.
  destruct (version =? 3); [no_fuel |].
  destruct (version =? 4); [| discriminate].
  do 3 (apply bind_not_OutOfFuel; [apply getitem_no_fuel | intros ? _]).
  apply bind_not_OutOfFuel; [apply get_int2_no_fuel | intros hlen Hh].
  apply read_be_inv in Hh.
  apply bind_not_OutOfFuel; [apply parse_subpackets_no_fuel; lia |].
  intros s1 _.
  apply bind_not_OutOfFuel; [apply get_int2_no_fuel | intros ulen _].
  apply bind_not_OutOfFuel; [apply parse_subpackets_no_fuel; lia |].
  intros s2 _. discriminate.
Qed.

Lemma PublicKeyPacket_parse_no_fuel (length : Z) (data : bytearray) :
  PublicKeyPacket.parse length data <> OutOfFuel.
Proof. unfold PublicKeyPacket.parse. no_fuel. Qed.

Lemma decode_utf8_no_fuel (data : bytearray) :
  decode_utf8 data <> OutOfFuel.
Proof.
  remember (List.length data) as n eqn:Hn.
  revert data Hn.
  induction n as [n IH] using lt_wf_ind. intros data ->.
  assert (forall rest, (List.length rest < List.length data)%nat ->
                       decode_utf8 rest <> OutOfFuel) as Hrec
    by (intros rest Hlt; exact (IH _ Hlt rest eq_refl)).
  destruct data as [| c0 r0]; [discriminate |].
  cbn [decode_utf8]. cbv zeta.
  destruct (int_of_byte c0 <? 128).
  { apply bind_not_OutOfFuel; [apply Hrec; cbn; lia | discriminate]. }
  destruct ((194 <=? int_of_byte c0) && (int_of_byte c0 <? 224)).
  { destruct r0 as [| c1 r1]; [discriminate |].
    destruct (continuation (int_of_byte c1)); [| discriminate].
    apply bind_not_OutOfFuel; [apply Hrec; cbn; lia | discriminate]. }
  destruct ((224 <=? int_of_byte c0) && (int_of_byte c0 <? 240)).
  { destruct r0 as [| c1 [| c2 r2]]; try discriminate.
    match goal with |- (if ?c then _ else _) <> _ => destruct c end;
      [| discriminate].
    apply bind_not_OutOfFuel; [apply Hrec; cbn; lia | discriminate]. }
  destruct ((240 <=? int_of_byte c0) && (int_of_byte c0 <? 245));
    [| discriminate].
  destruct r0 as [| c1 [| c2 [| c3 r3]]]; try discriminate.
  match goal with |- (if ?c then _ else _) <> _ => destruct c end;
    [| discriminate].
  apply bind_not_OutOfFuel; [apply Hrec; cbn; lia | discriminate].
Qed.

Lemma UserIDPacket_parse_no_fuel (data : bytearray) :
  UserIDPacket.parse data <> OutOfFuel.
Proof.
  unfold UserIDPacket.parse, UserIDPacket.group_strip.
  apply bind_not_OutOfFuel; [apply decode_utf8_no_fuel | intros user _].
  no_fuel.
Qed.

Lemma attribute_step_spec (data : bytearray) (s s' : UserAttributePacket.t)
    (offset offset' sub_len' : Z) :
  0 <= offset ->
  UserAttributePacket.attribute_step data s offset
  = Ok (s', offset', sub_len') ->
  offset + 2 <= offset' /\ -1 <= sub_len'.
Proof.
  intros Ho H. unfold UserAttributePacket.attribute_step in H.
  apply bind_Ok in H. destruct H as ([[so sl] spart] & Hlen & H).
  apply new_tag_length_bounds in Hlen as (Hso & Hsl & _); [| lia].
  apply bind_Ok in H. destruct H as (ty & _ & H).
  destruct (ty =? 1).
  - apply bind_Ok in H. destruct H as (lo & Hlo & H).
    apply bind_Ok in H. destruct H as (hi & Hhi & H).
    apply bind_Ok in H. destruct H as (hv & _ & H).
    apply bind_Ok in H. destruct H as (fmt & _ & H).
    ok_tuple H.
    apply getitem_inv in Hlo; [| lia]. apply getitem_inv in Hhi; [| lia].
    rewrite Z.shiftl_mul_pow2 by lia. lia.
  - ok_tuple H. lia.
Qed.

Lemma attribute_step_no_fuel (data : bytearray) (s : UserAttributePacket.t)
    (offset : Z) :
  UserAttributePacket.attribute_step data s offset <> OutOfFuel.
Proof. unfold UserAttributePacket.attribute_step. no_fuel. Qed.

(** A turn that starts at or after the end of the buffer raises; one that
    does not raise moves forward by two or more. *)
Lemma attributes_loop_no_fuel (fuel : nat) (data : bytearray) :
  forall (s : UserAttributePacket.t) (offset sub_len : Z),
    0 <= offset -> -1 <= sub_len ->
    len data + 1 <= offset + Z.of_nat fuel ->
    UserAttributePacket.attributes_loop fuel data s offset sub_len
    <> OutOfFuel.
Proof.
  induction fuel as [| fuel IH]; intros s offset sub_len Ho Hsl Hfuel;
    cbn [UserAttributePacket.attributes_loop];
    destruct (Z.ltb_spec (offset + sub_len) (len data)); try discriminate;
    [lia |].
  apply bind_not_OutOfFuel; [apply attribute_step_no_fuel |].
  intros [[s1 o1] l1] Hstep.
  apply attribute_step_spec in Hstep as [Hadv Hl1]; [| lia].
  apply IH; lia.
Qed.

Lemma UserAttributePacket_parse_no_fuel (data : bytearray) :
  UserAttributePacket.parse data <> OutOfFuel.
Proof.
  unfold UserAttributePacket.parse.
  apply attributes_loop_no_fuel; unfold len; lia.
Qed.

Lemma TrustPacket_parse_no_fuel (length : Z) (data : bytearray) :
  TrustPacket.parse length data <> OutOfFuel.
Proof. unfold TrustPacket.parse. no_fuel. Qed.

#[local] Hint Resolve SignaturePacket_parse_no_fuel
  PublicKeyPacket_parse_no_fuel UserIDPacket_parse_no_fuel
  UserAttributePacket_parse_no_fuel TrustPacket_parse_no_fuel : nofuel.

(** Decoding a packet always ends with a packet or a raised exception: the
    fuel the model gives the two loops is never used up. *)
Theorem construct_packet_terminates (data : bytearray) (start : Z) :
  construct_packet data start <> OutOfFuel.
Proof.
  unfold construct_packet.
  apply bind_not_OutOfFuel; [apply packet_header_no_fuel |].
  intros [[[[tag new] off] length] partial] _.
  destruct (dict_get TAG_TYPES tag ("Unknown"%string, None)) as [nm cls].
  apply bind_not_OutOfFuel; [| discriminate].
  unfold Packet.init.
  apply bind_not_OutOfFuel; [| discriminate].
  destruct cls as [[] |]; cbn [Packet.parse]; no_fuel.
Qed.

(** * Further properties of the decoders *)

(** ** A packet is decoded from its own bytes *)

Lemma getitem_Ok (data : bytearray) (i v : Z) :
  0 <= i -> getitem data i = Ok v ->
  exists c, nth_error data (Z.to_nat i) = Some c /\ v = int_of_byte c.
Proof.
  intros Hi H. unfold getitem in H.
  destruct (Z.ltb_spec i 0); [lia |].
  destruct ((0 <=? i) && (i <? len data)); [| discriminate].
  destruct (nth_error data (Z.to_nat i)) as [c |]; [| discriminate].
  apply Ok_inj in H. eauto.
Qed.

(** A read inside [pkt] gives the same byte when [pkt] lies inside a larger
    buffer. *)
Lemma getitem_shift (pre pkt post : bytearray) (i v : Z) :
  0 <= i -> getitem pkt i = Ok v ->
  getitem (pre ++ pkt ++ post) (len pre + i) = Ok v.
Proof.
  intros Hi H. pose proof (len_nonneg pre).
  pose proof (getitem_inv _ _ _ Hi H) as [Hlt _].
  apply getitem_Ok in H as (c & Hc & ->); [| lia].
  apply getitem_nth; [lia |].
  replace (Z.to_nat (len pre + i))
    with (List.length pre + Z.to_nat i)%nat by (unfold len; lia).
  rewrite nth_error_app2 by lia.
  replace (List.length pre + Z.to_nat i - List.length pre)%nat
    with (Z.to_nat i) by lia.
  rewrite nth_error_app1; [exact Hc |]. unfold len in Hlt. lia.
Qed.

Lemma getslice_shift {A : Type} (pre pkt post : list A) (lo hi : Z) :
  0 <= lo <= hi -> hi <= len pkt ->
  getslice (pre ++ pkt ++ post) (len pre + lo) (len pre + hi)
  = getslice pkt lo hi.
Proof.
  intros H1 H2. pose proof (len_nonneg pre). pose proof (len_nonneg post).
  rewrite !getslice_inside by (rewrite ?len_app; lia).
  replace (len pre + hi - (len pre + lo)) with (hi - lo) by lia.
  replace (Z.to_nat (len pre + lo))
    with (List.length pre + Z.to_nat lo)%nat by (unfold len; lia).
  rewrite skipn_app, skipn_all2 by lia.
  replace (List.length pre + Z.to_nat lo - List.length pre)%nat
    with (Z.to_nat lo) by lia.
  cbn [app]. rewrite skipn_app, firstn_app, length_skipn.
  replace (Z.to_nat (hi - lo) - (List.length pkt - Z.to_nat lo))%nat
    with 0%nat by (unfold len in H2; lia).
  cbn [firstn]. apply app_nil_r.
Qed.

Lemma read_be_shift (w : Z) (pre pkt post : bytearray) (off v : Z) :
  0 <= w -> read_be w pkt off = Ok v ->
  read_be w (pre ++ pkt ++ post) (len pre + off) = Ok v.
Proof.
  intros Hw H. pose proof (len_nonneg pre). pose proof (len_nonneg post).
  unfold read_be in *.
  destruct (Z.leb_spec 0 off); [| discriminate].
  destruct (Z.leb_spec (off + w) (len pkt)); [| discriminate].
  cbn [andb] in H. apply Ok_inj in H. subst v.
  destruct (Z.leb_spec 0 (len pre + off)); [| lia].
  destruct (Z.leb_spec (len pre + off + w) (len (pre ++ pkt ++ post)));
    [| rewrite !len_app in *; lia].
  cbn [andb]. replace (len pre + off + w) with (len pre + (off + w)) by lia.
  rewrite getslice_shift by lia. reflexivity.
Qed.

Lemma new_tag_length_shift (pre pkt post : bytearray) (start : Z)
    (r : Z * Z * bool) :
  0 <= start -> new_tag_length pkt start = Ok r ->
  new_tag_length (pre ++ pkt ++ post) (len pre + start) = Ok r.
Proof.
  intros Hs H. unfold new_tag_length in *.
  apply bind_Ok in H. destruct H as (first & Hfirst & H).
  rewrite (getitem_shift _ _ _ _ _ Hs Hfirst). cbn [bind].
  destruct (first <? 192); [exact H |].
  destruct (first <? 224).
  { apply bind_Ok in H. destruct H as (next & Hnext & H).
    replace (len pre + start + 1) with (len pre + (start + 1)) by lia.
    rewrite (getitem_shift pre pkt post (start + 1) next ltac:(lia) Hnext).
    exact H. }
  destruct (first =? 255); [| exact H].
  apply bind_Ok in H. destruct H as (v & Hv & H).
  replace (len pre + start + 1) with (len pre + (start + 1)) by lia.
  unfold get_int4 in *.
  rewrite (read_be_shift 4 pre pkt post (start + 1) v ltac:(lia) Hv).
  exact H.
Qed.

(** The old format with length type 3 is the one header that looks at the
    end of the buffer. *)
Lemma old_tag_length_shift (pre pkt post : bytearray) (start b : Z)
    (r : Z * Z) :
  0 <= start -> getitem pkt start = Ok b ->
  (Z.land b 3 = 3 -> post = []) ->
  old_tag_length pkt start = Ok r ->
  old_tag_length (pre ++ pkt ++ post) (len pre + start) = Ok r.
Proof.
  intros Hs Hb Hpost H. unfold old_tag_length in *.
  rewrite Hb in H. cbn [bind] in H.
  rewrite (getitem_shift _ _ _ _ _ Hs Hb). cbn [bind].
  destruct (Z.land b 3 =? 0).
  { apply bind_Ok in H. destruct H as (v & Hv & H).
    replace (len pre + start + 1) with (len pre + (start + 1)) by lia.
    rewrite (getitem_shift pre pkt post (start + 1) v ltac:(lia) Hv).
    exact H. }
  destruct (Z.land b 3 =? 1).
  { apply bind_Ok in H. destruct H as (v & Hv & H).
    replace (len pre + start + 1) with (len pre + (start + 1)) by lia.
    unfold get_int2 in *.
    rewrite (read_be_shift 2 pre pkt post (start + 1) v ltac:(lia) Hv).
    exact H. }
  destruct (Z.land b 3 =? 2).
  { apply bind_Ok in H. destruct H as (v & Hv & H).
    replace (len pre + start + 1) with (len pre + (start + 1)) by lia.
    unfold get_int4 in *.
    rewrite (read_be_shift 4 pre pkt post (start + 1) v ltac:(lia) Hv).
    exact H. }
  destruct (Z.eqb_spec (Z.land b 3) 3) as [E | _]; [| exact H].
  rewrite (Hpost E), app_nil_r, len_app. rewrite <- H. do 2 f_equal. lia.
Qed.

Lemma packet_header_shift (pre pkt post : bytearray) (b : Z)
    (h : Z * bool * Z * Z * bool) :
  getitem pkt 0 = Ok b ->
  (indeterminate b = true -> post = []) ->
  packet_header pkt 0 = Ok h ->
  packet_header (pre ++ pkt ++ post) (len pre) = Ok h.
Proof.
  intros Hb Hpost H. unfold packet_header in *.
  rewrite Hb in H. cbn [bind] in H.
  replace (len pre) with (len pre + 0) at 1 by lia.
  rewrite (getitem_shift pre pkt post 0 b ltac:(lia) Hb). cbn [bind].
  unfold indeterminate in Hpost.
  destruct (Z.land b 64 =? 0); cbn [negb andb] in *.
  - apply bind_Ok in H. destruct H as (q & Hq & H).
    apply bind_Ok in Hq. destruct Hq as (r & Hr & Hq).
    replace (len pre) with (len pre + 0) at 1 by lia.
    rewrite (old_tag_length_shift pre pkt post 0 b r); auto; [| lia |].
    + cbn [bind]. rewrite Hq. exact H.
    + intros E. apply Hpost. rewrite E. reflexivity.
  - apply bind_Ok in H. destruct H as (q & Hq & H).
    apply bind_Ok in Hq. destruct Hq as (r & Hr & Hq).
    replace (len pre + 1) with (len pre + (0 + 1)) by lia.
    rewrite (new_tag_length_shift pre pkt post (0 + 1) r); auto; [| lia].
    cbn [bind]. rewrite Hq. exact H.
Qed.

(** Where the bytes of a whole packet (its header and the body the header
    declares) lie inside a larger buffer, decoding at their position gives
    what decoding the packet alone gives: the same packet or the same
    exception, and the same count, which is at most the packet's size.  The
    old format with length type 3 has no declared length, so for it the
    packet must end the buffer. *)
Theorem construct_packet_local (pre pkt post : bytearray) (b tag : Z)
    (new : bool) (off length : Z) (partial : bool) :
  getitem pkt 0 = Ok b ->
  packet_header pkt 0 = Ok (tag, new, off, length, partial) ->
  off + length <= len pkt ->
  (indeterminate b = true -> post = []) ->
  construct_packet (pre ++ pkt ++ post) (len pre) = construct_packet pkt 0
  /\ (forall n p, construct_packet pkt 0 = Ok (n, p) ->
                  n = off + length /\ Packet.length p = length).
Proof.
  intros Hb Hh Hfit Hpost.
  pose proof (packet_header_bounds pkt 0 tag new off length partial
                ltac:(lia) Hh)
    as (Ho & Hl & _).
  split.
  - rewrite (construct_packet_body _ _ _ _ _ _ _ Hh).
    rewrite (construct_packet_body _ _ _ _ _ _ _
               (packet_header_shift pre pkt post b _ Hb Hpost Hh)).
    replace (len pre + off + length) with (len pre + (off + length)) by lia.
    rewrite getslice_shift by lia. reflexivity.
  - intros n p H.
    rewrite (construct_packet_body _ _ _ _ _ _ _ Hh) in H.
    apply bind_Ok in H. destruct H as (p' & Hp & H). ok_tuple H.
    apply Packet_init_fields in Hp as (_ & _ & _ & Hlen & _).
    split; [reflexivity |].
    rewrite Hlen. cbn [Z.add]. rewrite length_getslice by lia. lia.
Qed.

(** A Trust packet, then a new-format User ID packet, then a Marker packet:
    the User ID packet decodes at offset 4 as it does alone. *)
Lemma construct_packet_local_witness :
  construct_packet
    (bytearray_of [0xB0; 2; 0; 5] ++ bytearray_of [0xCD; 3; 97; 98; 99]
     ++ bytearray_of [0xCA; 0]) 4
  = construct_packet (bytearray_of [0xCD; 3; 97; 98; 99]) 0.
Proof.
  exact (proj1 (construct_packet_local
                  (bytearray_of [0xB0; 2; 0; 5])
                  (bytearray_of [0xCD; 3; 97; 98; 99])
                  (bytearray_of [0xCA; 0])
                  0xCD 13 true 2 3 false eq_refl eq_refl
                  ltac:(vm_compute; discriminate)
                  ltac:(vm_compute; discriminate))).
Defined.

(** ** The header: tag, sizes and progress *)

Lemma getitem_byte (data : bytearray) (i v : Z) :
  getitem data i = Ok v -> 0 <= v < 256.
Proof.
  unfold getitem. intros H.
  destruct ((0 <=? _) && (_ <? len data)); [| discriminate].
  destruct (nth_error data _) as [c |]; [| discriminate].
  apply Ok_inj in H. subst v. apply int_of_byte_range.
Qed.

Lemma land_63_range (b : Z) : 0 <= Z.land b 0x3f < 64.
Proof.
  change 0x3f with (Z.ones 6). rewrite Z.land_ones by lia.
  apply Z.mod_pos_bound. lia.
Qed.

Lemma shiftr_2_land_63_range (b : Z) :
  0 <= Z.shiftr (Z.land b 0x3f) 2 < 16.
Proof.
  pose proof (land_63_range b) as H.
  rewrite Z.shiftr_div_pow2 by lia. change (2 ^ 2) with 4.
  split; [apply Z.div_pos; lia | apply Z.div_lt_upper_bound; lia].
Qed.

Lemma new_tag_length_header_size (data : bytearray) (start off length : Z)
    (partial : bool) :
  new_tag_length data start = Ok (off, length, partial) -> off <= 4.
Proof.
  unfold new_tag_length. intros H.
  apply bind_Ok in H. destruct H as (first & _ & H).
  destruct (first <? 192); [ok_tuple H; lia |].
  destruct (first <? 224).
  { apply bind_Ok in H. destruct H as (? & _ & H). ok_tuple H. lia. }
  destruct (first =? 255); [| ok_tuple H; lia].
  apply bind_Ok in H. destruct H as (? & _ & H). ok_tuple H. lia.
Qed.

Lemma old_tag_length_header_size (data : bytearray) (start off length : Z) :
  old_tag_length data start = Ok (off, length) -> off <= 4.
Proof.
  unfold old_tag_length. intros H.
  apply bind_Ok in H. destruct H as (b & _ & H).
  repeat match type of H with
         | (if ?c then _ else _) = _ => destruct c
         | bind _ _ = _ =>
             apply bind_Ok in H; destruct H as (? & _ & H)
         end;
    ok_tuple H; lia.
Qed.

(** What [construct_packet] reads of the header. *)
Lemma packet_header_spec (data : bytearray) (start tag : Z) (new : bool)
    (off length : Z) (partial : bool) :
  packet_header data start = Ok (tag, new, off, length, partial) ->
  exists b,
    getitem data start = Ok b
    /\ new = negb (Z.land b 0x40 =? 0)
    /\ tag = (if new then Z.land b 0x3f else Z.shiftr (Z.land b 0x3f) 2)
    /\ off <= 6
    /\ (new = true -> 2 <= off \/ start < 0).
Proof.
  intros H. unfold packet_header in H.
  apply bind_Ok in H. destruct H as (b & Hb & H).
  exists b. split; [exact Hb |].
  apply bind_Ok in H. destruct H as ([[[tg o] l] pt] & Hl & H).
  ok_tuple H.
  destruct (negb (Z.land b 64 =? 0)).
  - apply bind_Ok in Hl. destruct Hl as ([[o' l'] pt'] & Hl & H).
    ok_tuple H. pose proof (new_tag_length_header_size _ _ _ _ _ Hl).
    split; [reflexivity |]. split; [reflexivity |]. split; [lia |].
    intros _. destruct (Z.ltb_spec start 0); [right; lia | left].
    apply new_tag_length_bounds in Hl; lia.
  - apply bind_Ok in Hl. destruct Hl as ([o' l'] & Hl & H).
    ok_tuple H. pose proof (old_tag_length_header_size _ _ _ _ Hl).
    split; [reflexivity |]. split; [reflexivity |]. split; [lia |].
    discriminate.
Qed.

Lemma Packet_init_class (cls : PacketType) (raw : Z) (name : string)
    (new : bool) (body : bytearray) (p : Packet.t) :
  Packet.init cls raw name new body = Ok p ->
  class_of_fields (Packet.parsed p) = cls.
Proof.
  unfold Packet.init. intros H.
  apply bind_Ok in H. destruct H as (f & Hf & H).
  apply Ok_inj in H. subst p. cbn [Packet.parsed].
  destruct cls; cbn [Packet.parse] in Hf;
    try (apply bind_Ok in Hf; destruct Hf as (? & _ & Hf));
    apply Ok_inj in Hf; subst f; reflexivity.
Qed.

(** A returned packet agrees with its tag: [raw] is a tag number below 64,
    below 16 in the old format (so an old-format packet is never given to
    the User Attribute decoder, tag 17); [name] is the name [TAG_TYPES] has
    for it or "Unknown"; and the packet carries the fields of the class
    registered for the tag, none where [TAG_TYPES] has no class. *)
Theorem packet_agrees_with_tag (data : bytearray) (start n : Z)
    (p : Packet.t) :
  construct_packet data start = Ok (n, p) ->
  0 <= Packet.raw p < 64
  /\ (Packet.new p = false -> Packet.raw p < 16)
  /\ Packet.name p = tag_name (Packet.raw p)
  /\ class_of_fields (Packet.parsed p) = class_of (Packet.raw p)
  /\ (Packet.parsed p = NoFields <-> tag_decoder (Packet.raw p) = None).
Proof.
  intros H.
  destruct (construct_packet_header _ _ _ _ H)
    as (tag & new & off & length & partial & Hh).
  rewrite (construct_packet_body _ _ _ _ _ _ _ Hh) in H.
  apply bind_Ok in H. destruct H as (p' & Hp & H). ok_tuple H.
  pose proof (Packet_init_class _ _ _ _ _ _ Hp) as Hcls.
  apply Packet_init_fields in Hp as (Hraw & Hname & Hnew & _ & _).
  apply packet_header_spec in Hh as (b & _ & Hn & Ht & _).
  assert (forall t,
             t = (if Packet.new p then Z.land b 63
                  else Z.shiftr (Z.land b 63) 2) ->
             0 <= t < 64 /\ (Packet.new p = false -> t < 16)) as Hrange.
  { intros t ->. destruct (Packet.new p).
    - split; [apply land_63_range | discriminate].
    - pose proof (shiftr_2_land_63_range b). split; [lia | intros _; lia]. }
  destruct (Hrange tag) as [Hr Ho]; [rewrite Hnew; exact Ht |].
  rewrite Hraw. clear Hrange Ht Hn Hraw.
  split; [exact Hr |]. split; [exact Ho |]. split; [exact Hname |].
  split; [exact Hcls |].
  unfold class_of in Hcls.
  destruct (tag_decoder tag) as [cls |] eqn:Hd.
  - split; [| discriminate]. intros E. rewrite E in Hcls. cbn in Hcls.
    subst cls.
    revert Hd. unfold tag_decoder, TAG_TYPES. cbn [dict_get].
    repeat match goal with
           | |- context [?k =? tag] =>
               destruct (k =? tag); cbn [snd]; try discriminate
           end.
  - split; [reflexivity |]. intros _.
    destruct (Packet.parsed p); try discriminate. reflexivity.
Qed.

(** An old-format Trust packet: tag 12, the Trust fields. *)
Lemma packet_agrees_with_tag_witness :
  exists n p,
    construct_packet (bytearray_of [0xB0; 2; 0; 5]) 0 = Ok (n, p)
    /\ Packet.raw p = 12
    /\ Packet.name p = "Trust Packet"%string
    /\ class_of_fields (Packet.parsed p) = class_of (Packet.raw p).
Proof.
  destruct (construct_packet (bytearray_of [0xB0; 2; 0; 5]) 0)
    as [[n p] | e |] eqn:H.
  - exists n, p.
    pose proof (packet_agrees_with_tag _ _ _ _ H) as (_ & _ & _ & Hc & _).
    vm_compute in H. apply Ok_inj in H.
    apply pair_equal_spec in H. destruct H as [_ <-].
    split; [reflexivity |]. split; [reflexivity |].
    split; [reflexivity | exact Hc].
  - vm_compute in H. discriminate H.
  - vm_compute in H. discriminate H.
Defined.

(** Decoding at a position of the buffer moves forward: the count returned
    is the header size, between 1 and 6 bytes that all lie in the buffer,
    plus the declared body length, which is never negative; so a caller
    that adds the count to its offset advances by at least one byte.  The
    packet's body is the declared length cut at the end of the buffer. *)
Theorem construct_packet_progress (data : bytearray) (start n : Z)
    (p : Packet.t) :
  0 <= start ->
  construct_packet data start = Ok (n, p) ->
  start < start + n
  /\ exists off length,
       n = off + length
       /\ 1 <= off <= 6 /\ 0 <= length
       /\ start + off <= len data
       /\ Packet.length p = Z.min length (len data - (start + off))
       /\ Packet.data p
          = firstn (Z.to_nat length) (skipn (Z.to_nat (start + off)) data).
Proof.
  intros Hs H.
  destruct (construct_packet_header _ _ _ _ H)
    as (tag & new & off & length & partial & Hh).
  rewrite (construct_packet_body _ _ _ _ _ _ _ Hh) in H.
  apply bind_Ok in H. destruct H as (p' & Hp & H).
  apply Ok_inj in H. apply pair_equal_spec in H. destruct H as [<- <-].
  apply Packet_init_fields in Hp as (_ & _ & _ & Hlen & Hdata).
  pose proof (packet_header_bounds _ _ _ _ _ _ _ Hs Hh) as (Ho & Hl & Hin).
  apply packet_header_spec in Hh as (b & _ & _ & _ & Hsix & _).
  split; [lia |]. exists off, length.
  do 4 (split; [lia |]).
  assert (getslice data (start + off) (start + off + length)
          = firstn (Z.to_nat length) (skipn (Z.to_nat (start + off)) data))
    as Hslice.
  { destruct (Z.le_gt_cases (start + off + length) (len data)).
    - rewrite getslice_inside by lia. do 2 f_equal. lia.
    - rewrite getslice_past_end by lia. symmetry. apply firstn_all2.
      rewrite length_skipn. unfold len in *. lia. }
  rewrite Hlen, Hdata, Hslice. split; [| reflexivity].
  unfold len in *. rewrite length_firstn, length_skipn. lia.
Qed.

(** A Marker packet with a 3-byte body in front of another packet. *)
Lemma construct_packet_progress_witness :
  exists n p,
    construct_packet (bytearray_of [0xCA; 3; 80; 71; 80; 0xCA; 0]) 0
    = Ok (n, p)
    /\ n = 5 /\ 0 < 0 + n.
Proof.
  destruct (construct_packet (bytearray_of [0xCA; 3; 80; 71; 80; 0xCA; 0]) 0)
    as [[n p] | e |] eqn:H.
  - exists n, p.
    pose proof (construct_packet_progress _ 0 n p ltac:(lia) H) as (Hn & _).
    vm_compute in H. apply Ok_inj in H.
    apply pair_equal_spec in H. destruct H as [<- <-].
    split; [reflexivity |]. split; [reflexivity | exact Hn].
  - vm_compute in H. discriminate H.
  - vm_compute in H. discriminate H.
Defined.

(** An old-format tag byte with length type 3 makes the rest of the buffer
    the body: the header is the tag byte alone, the declared length is the
    number of bytes after it, and a returned packet holds all of them, so
    nothing is left for a next packet. *)
Theorem indeterminate_length_takes_rest (pre rest : bytearray) (c : byte) :
  indeterminate (int_of_byte c) = true ->
  packet_header (pre ++ c :: rest) (len pre)
  = Ok (Z.shiftr (Z.land (int_of_byte c) 0x3f) 2, false, 1, len rest, false)
  /\ (forall n p,
        construct_packet (pre ++ c :: rest) (len pre) = Ok (n, p) ->
        Packet.data p = rest /\ Packet.new p = false
        /\ len pre + n = len (pre ++ c :: rest)).
Proof.
  intros Hi. unfold indeterminate in Hi.
  apply andb_true_iff in Hi as [Hold H3].
  assert (packet_header (pre ++ c :: rest) (len pre)
          = Ok (Z.shiftr (Z.land (int_of_byte c) 0x3f) 2, false, 1,
                len rest, false)) as Hh.
  { unfold packet_header.
    rewrite getitem_at. cbn [bind]. rewrite Hold. cbn [negb].
    unfold old_tag_length. rewrite getitem_at. cbn [bind].
    apply Z.eqb_eq in H3. rewrite H3. cbn [Z.eqb Pos.eqb bind].
    rewrite len_app, len_cons. do 4 f_equal. lia. }
  split; [exact Hh |].
  intros n p H. rewrite (construct_packet_body _ _ _ _ _ _ _ Hh) in H.
  apply bind_Ok in H. destruct H as (p' & Hp & H).
  apply Ok_inj in H. apply pair_equal_spec in H. destruct H as [<- <-].
  apply Packet_init_fields in Hp as (_ & _ & Hnew & _ & Hdata).
  pose proof (len_nonneg pre). pose proof (len_nonneg rest).
  split; [| split; [exact Hnew | rewrite len_app, len_cons; lia]].
  rewrite Hdata.
  replace (pre ++ c :: rest) with ((pre ++ [c]) ++ rest ++ [])
    by (rewrite app_nil_r, <- app_assoc; reflexivity).
  replace (len pre + 1) with (len (pre ++ [c]))
    by (rewrite len_app; reflexivity).
  apply getslice_at.
Qed.

(** Tag byte 0xA3: old format, tag 8, length type 3. *)
Lemma indeterminate_length_takes_rest_witness :
  packet_header (bytearray_of [0xB0; 0; 0xA3; 1; 2; 3]) 2
  = Ok (8, false, 1, 3, false).
Proof.
  exact (proj1 (indeterminate_length_takes_rest
                  (bytearray_of [0xB0; 0]) (bytearray_of [1; 2; 3])
                  (byte_of_int 0xA3) eq_refl)).
Defined.

(** ** Empty bodies *)

Lemma getslice_none {A : Type} (data : list A) (a : Z) :
  getslice data a (a + 0) = [].
Proof.
  unfold getslice. rewrite Z.add_0_r, Z.sub_diag. reflexivity.
Qed.

(** The class [TAG_TYPES] registers for a tag. *)
Lemma class_of_tag (tag : Z) :
  class_of tag
  = if tag =? 2 then SignaturePacketClass
    else if tag =? 6 then PublicKeyPacketClass
    else if tag =? 12 then TrustPacketClass
    else if tag =? 13 then UserIDPacketClass
    else if tag =? 14 then PublicSubkeyPacketClass
    else if tag =? 17 then UserAttributePacketClass
    else PacketClass.
Proof.
  unfold class_of, tag_decoder, TAG_TYPES. cbn [dict_get].
  repeat match goal with
         | |- context [?k =? tag] =>
             destruct (Z.eqb_spec k tag); [subst tag; reflexivity |]
         end.
  cbn [snd].
  repeat match goal with
         | |- context [tag =? ?k] =>
             destruct (Z.eqb_spec tag k); [congruence |]
         end.
  reflexivity.
Qed.

(** A header that declares a body of length 0: the Signature, Public-Key and
    Public-Subkey decoders read the version byte of the empty body and raise
    [IndexError]; every other tag gives a packet with an empty body. *)
Theorem empty_body (data : bytearray) (start tag : Z) (new : bool) (off : Z)
    (partial : bool) :
  packet_header data start = Ok (tag, new, off, 0, partial) ->
  (tag = 2 \/ tag = 6 \/ tag = 14 ->
   construct_packet data start = Raise IndexError)
  /\ (tag <> 2 -> tag <> 6 -> tag <> 14 ->
      exists p, construct_packet data start = Ok (off + 0, p)
                /\ Packet.data p = [] /\ Packet.length p = 0).
Proof.
  intros Hh. rewrite (construct_packet_body _ _ _ _ _ _ _ Hh).
  rewrite getslice_none, class_of_tag. split.
  - intros [-> | [-> | ->]]; reflexivity.
  - intros N2 N6 N14.
    destruct (Z.eqb_spec tag 2); [contradiction |].
    destruct (Z.eqb_spec tag 6); [contradiction |].
    destruct (Z.eqb_spec tag 14); [contradiction |].
    destruct (tag =? 12); [eexists; split; [reflexivity | split; reflexivity] |].
    destruct (tag =? 13); [eexists; split; [reflexivity | split; reflexivity] |].
    destruct (tag =? 17); eexists; (split; [reflexivity | split; reflexivity]).
Qed.

(** An old-format Signature packet with a zero length byte, and a User ID
    packet with one. *)
Lemma empty_body_witness :
  construct_packet (bytearray_of [0x88; 0]) 0 = Raise IndexError
  /\ exists p, construct_packet (bytearray_of [0xB4; 0]) 0 = Ok (2 + 0, p)
               /\ Packet.data p = [] /\ Packet.length p = 0.
Proof.
  split.
  - exact (proj1 (empty_body (bytearray_of [0x88; 0]) 0 2 false 2 false
                    eq_refl)
             (or_introl eq_refl)).
  - exact (proj2 (empty_body (bytearray_of [0xB4; 0]) 0 13 false 2 false
                    eq_refl)
             ltac:(discriminate) ltac:(discriminate) ltac:(discriminate)).
Defined.

(** ** Signatures: what the scan keeps and where the fixed fields are *)

(** What one turn of the scan appends and what it leaves alone. *)
Lemma subpacket_step_shape (data : bytearray) (hashed : bool)
    (s s' : SignaturePacket.t) (offset offset' : Z) :
  0 <= offset ->
  SignaturePacket.subpacket_step data hashed s offset = Ok (s', offset') ->
  (exists c lo hi,
      SignaturePacket.subpackets s'
      = SignaturePacket.subpackets s
        ++ [SignatureSubpacket.init (int_of_byte c) hashed
              (getslice data lo hi)])
  /\ SignaturePacket.raw_sig_type s' = SignaturePacket.raw_sig_type s
  /\ SignaturePacket.raw_pub_algorithm s'
     = SignaturePacket.raw_pub_algorithm s
  /\ SignaturePacket.raw_hash_algorithm s'
     = SignaturePacket.raw_hash_algorithm s
  /\ SignaturePacket.hash2 s' = SignaturePacket.hash2 s.
Proof.
  unfold SignaturePacket.subpacket_step. intros Ho H.
  apply bind_Ok in H. destruct H as ([[so sl] spart] & Hlen & H).
  apply new_tag_length_bounds in Hlen as (Hso & _ & _); [| exact Ho].
  apply bind_Ok in H. destruct H as (raw & Hraw & H).
  apply getitem_Ok in Hraw as (c & _ & ->); [| lia].
  apply bind_Ok in H. destruct H as (s1 & Hs1 & H).
  ok_tuple H. cbn.
  repeat match type of Hs1 with
         | (if ?b then _ else _) = _ => destruct b
         | bind _ _ = _ =>
             apply bind_Ok in Hs1; destruct Hs1 as (? & _ & Hs1)
         end;
    apply Ok_inj in Hs1; subst s1; cbn; (split; [eauto | auto]).
Qed.

Lemma subpackets_loop_shape (fuel : nat) (data : bytearray) (stop : Z)
    (hashed : bool) :
  forall (s : SignaturePacket.t) (offset : Z) (s' : SignaturePacket.t),
    0 <= offset ->
    SignaturePacket.subpackets_loop fuel data stop hashed s offset = Ok s' ->
    (Forall (subpacket_of data) (SignaturePacket.subpackets s) ->
     Forall (subpacket_of data) (SignaturePacket.subpackets s'))
    /\ SignaturePacket.raw_sig_type s' = SignaturePacket.raw_sig_type s
    /\ SignaturePacket.raw_pub_algorithm s'
       = SignaturePacket.raw_pub_algorithm s
    /\ SignaturePacket.raw_hash_algorithm s'
       = SignaturePacket.raw_hash_algorithm s
    /\ SignaturePacket.hash2 s' = SignaturePacket.hash2 s.
Proof.
  induction fuel as [| fuel IH]; intros s offset s' Ho H;
    cbn [SignaturePacket.subpackets_loop] in H;
    destruct (offset <? stop); try discriminate;
    try (apply Ok_inj in H; subst s'; auto).
  apply bind_Ok in H. destruct H as ([s1 o1] & Hstep & H).
  pose proof (subpacket_step_spec _ _ _ _ _ _ Hstep)
    as (_ & _ & _ & _ & Hadv).
  apply subpacket_step_shape in Hstep
    as ((c & lo & hi & Hsub) & H1 & H2 & H3 & H4); [| exact Ho].
  apply IH in H as (Hall & H1' & H2' & H3' & H4'); [| lia].
  split; [| repeat split; congruence].
  intros Hs. apply Hall. rewrite Hsub. apply Forall_app. split; [exact Hs |].
  constructor; [| constructor]. exists c, hashed, lo, hi. reflexivity.
Qed.

Lemma finish_expiration_frame (s s' : SignaturePacket.t) :
  SignaturePacket.finish_expiration s = Ok s' ->
  SignaturePacket.raw_sig_type s' = SignaturePacket.raw_sig_type s
  /\ SignaturePacket.raw_pub_algorithm s'
     = SignaturePacket.raw_pub_algorithm s
  /\ SignaturePacket.raw_hash_algorithm s'
     = SignaturePacket.raw_hash_algorithm s
  /\ SignaturePacket.hash2 s' = SignaturePacket.hash2 s.
Proof.
  unfold SignaturePacket.finish_expiration. intros H.
  destruct (SignaturePacket.raw_expiration_time s) as [v |].
  - destruct (v =? 0); [apply Ok_inj in H; subst s'; auto |].
    destruct (SignaturePacket.creation_time s); [| discriminate].
    apply Ok_inj in H. subst s'. cbn. auto.
  - apply Ok_inj in H. subst s'. auto.
Qed.

(** The critical flag of a type byte is its top bit, the subtype the other
    seven. *)
Lemma type_byte_split (c : byte) :
  let sp := SignatureSubpacket.init (int_of_byte c) false [] in
  0 <= SignatureSubpacket.subtype sp < 128
  /\ SignatureSubpacket.critical sp = (128 <=? int_of_byte c)
  /\ int_of_byte c
     = SignatureSubpacket.subtype sp
       + (if SignatureSubpacket.critical sp then 128 else 0).
Proof. destruct c; vm_compute; repeat split; discriminate. Qed.

(** Every subpacket of a decoded signature is built from one type byte and
    one slice of the body: its subtype is below 128, its critical flag is
    the top bit of the type byte, the type byte is the two put together, and
    its [length] is the size of its data. *)
Theorem subpackets_well_formed (data : bytearray) (s : SignaturePacket.t) :
  SignaturePacket.parse data = Ok s ->
  Forall (fun sp =>
            subpacket_of data sp
            /\ 0 <= SignatureSubpacket.subtype sp < 128
            /\ SignatureSubpacket.critical sp
               = (128 <=? SignatureSubpacket.raw sp)
            /\ SignatureSubpacket.raw sp
               = SignatureSubpacket.subtype sp
                 + (if SignatureSubpacket.critical sp then 128 else 0)
            /\ SignatureSubpacket.length sp
               = len (SignatureSubpacket.data sp))
    (SignaturePacket.subpackets s).
Proof.
  intros H.
  assert (Forall (subpacket_of data) (SignaturePacket.subpackets s)) as Hall.
  { unfold SignaturePacket.parse in H.
    apply bind_Ok in H. destruct H as (v & _ & H). cbv zeta in H.
    destruct (v =? 3).
    { apply bind_Ok in H. destruct H as (m & _ & H).
      destruct (negb (m =? 5)); [discriminate |].
      repeat (apply bind_Ok in H; destruct H as (? & _ & H)).
      apply Ok_inj in H. subst s. constructor. }
    destruct (v =? 4); [| apply Ok_inj in H; subst s; constructor].
    do 3 (apply bind_Ok in H; destruct H as (? & _ & H)).
    apply bind_Ok in H. destruct H as (hlen & Hh & H).
    apply read_be_inv in Hh.
    apply bind_Ok in H. destruct H as (s1' & Hscan1 & H).
    apply bind_Ok in H. destruct H as (ulen & _ & H).
    apply bind_Ok in H. destruct H as (s2' & Hscan2 & H).
    apply Ok_inj in H. subst s. cbn.
    unfold SignaturePacket.parse_subpackets in Hscan1, Hscan2.
    apply bind_Ok in Hscan1. destruct Hscan1 as (s1 & Hloop1 & Hfin1).
    apply bind_Ok in Hscan2. destruct Hscan2 as (s2 & Hloop2 & Hfin2).
    apply subpackets_loop_shape in Hloop1 as (Hall1 & _); [| lia].
    apply subpackets_loop_shape in Hloop2 as (Hall2 & _); [| lia].
    apply finish_expiration_spec in Hfin1 as (Hsub1 & _).
    apply finish_expiration_spec in Hfin2 as (Hsub2 & _).
    rewrite Hsub2. apply Hall2. rewrite Hsub1. apply Hall1. constructor. }
  eapply Forall_impl; [| exact Hall].
  intros sp Hsp. split; [exact Hsp |].
  destruct Hsp as (c & h & lo & hi & ->).
  pose proof (type_byte_split c) as (Hr & Hc & Hsum).
  split; [exact Hr |]. split; [exact Hc |]. split; [exact Hsum |].
  reflexivity.
Qed.

(** The three subpackets of [example_v4_duplicates]. *)
Lemma subpackets_well_formed_witness :
  exists s,
    SignaturePacket.parse example_v4_duplicates = Ok s
    /\ List.length (SignaturePacket.subpackets s) = 3%nat
    /\ Forall (fun sp => 0 <= SignatureSubpacket.subtype sp < 128)
         (SignaturePacket.subpackets s).
Proof.
  destruct (SignaturePacket.parse example_v4_duplicates) as [s | e |] eqn:H.
  - exists s.
    pose proof (subpackets_well_formed example_v4_duplicates s H) as Hall.
    split; [reflexivity |]. split.
    + vm_compute in H. apply Ok_inj in H. subst s. reflexivity.
    + eapply Forall_impl; [| exact Hall]. intros sp Hsp. apply Hsp.
  - vm_compute in H. discriminate H.
  - vm_compute in H. discriminate H.
Defined.

(** A signature body of a version other than 3 and 4 is accepted as it is:
    only [sig_version] is set.  In a version 4 body that decodes, the
    signature type and the two algorithm codes are the bytes at offsets 1, 2
    and 3; the hashed region starts at offset 6 with its length at 4, the
    length of the unhashed region follows the hashed region, and [hash2] is
    the slice of two bytes after the unhashed region, all by the declared
    lengths. *)
Theorem signature_fixed_fields (data : bytearray) (version : Z) :
  getitem data 0 = Ok version ->
  (version <> 3 -> version <> 4 ->
   SignaturePacket.parse data
   = Ok (SignaturePacket.mk (Some version) None None None None None None
           None None None []))
  /\ (version = 4 ->
      forall s, SignaturePacket.parse data = Ok s ->
      exists sig_type pub hash hashed_len unhashed_len,
        getitem data 1 = Ok sig_type
        /\ getitem data 2 = Ok pub
        /\ getitem data 3 = Ok hash
        /\ get_int2 data 4 = Ok hashed_len
        /\ get_int2 data (6 + hashed_len) = Ok unhashed_len
        /\ SignaturePacket.raw_sig_type s = Some sig_type
        /\ SignaturePacket.raw_pub_algorithm s = Some pub
        /\ SignaturePacket.raw_hash_algorithm s = Some hash
        /\ SignaturePacket.hash2 s
           = Some (getslice data (8 + hashed_len + unhashed_len)
                     (10 + hashed_len + unhashed_len))).
Proof.
  intros Hv. split.
  - intros N3 N4. unfold SignaturePacket.parse. rewrite Hv. cbn [bind].
    cbv zeta.
    destruct (Z.eqb_spec version 3); [contradiction |].
    destruct (Z.eqb_spec version 4); [contradiction |]. reflexivity.
  - intros -> s H. unfold SignaturePacket.parse in H. rewrite Hv in H.
    cbn [bind] in H. change (4 =? 3) with false in H.
    change (4 =? 4) with true in H. cbv iota zeta in H.
    apply bind_Ok in H. destruct H as (ty & Hty & H).
    apply bind_Ok in H. destruct H as (pa & Hpa & H).
    apply bind_Ok in H. destruct H as (ha & Hha & H).
    apply bind_Ok in H. destruct H as (hlen & Hhlen & H).
    apply bind_Ok in H. destruct H as (s1' & Hscan1 & H).
    apply bind_Ok in H. destruct H as (ulen & Hulen & H).
    apply bind_Ok in H. destruct H as (s2' & Hscan2 & H).
    apply Ok_inj in H. subst s.
    pose proof (read_be_inv _ _ _ _ Hhlen) as (_ & _ & Hh0).
    unfold SignaturePacket.parse_subpackets in Hscan1, Hscan2.
    apply bind_Ok in Hscan1. destruct Hscan1 as (s1 & Hloop1 & Hfin1).
    apply bind_Ok in Hscan2. destruct Hscan2 as (s2 & Hloop2 & Hfin2).
    apply subpackets_loop_shape in Hloop1 as (_ & A1 & A2 & A3 & _);
      [| lia].
    apply subpackets_loop_shape in Hloop2 as (_ & B1 & B2 & B3 & _);
      [| lia].
    apply finish_expiration_frame in Hfin1 as (C1 & C2 & C3 & _).
    apply finish_expiration_frame in Hfin2 as (D1 & D2 & D3 & _).
    cbn in A1, A2, A3.
    exists ty, pa, ha, hlen, ulen.
    split; [exact Hty |]. split; [exact Hpa |]. split; [exact Hha |].
    split; [exact Hhlen |].
    split; [rewrite <- Hulen; f_equal; lia |].
    unfold SignaturePacket.set_hash2.
    cbn [SignaturePacket.raw_sig_type SignaturePacket.raw_pub_algorithm
           SignaturePacket.raw_hash_algorithm SignaturePacket.hash2].
    split; [congruence |]. split; [congruence |].
    split; [congruence |]. do 2 f_equal; lia.
Qed.

(** On [example_v4_duplicates]: type 0x10, algorithms 1 and 2, and the hash
    prefix AB CD after regions of 6 and 16 bytes. *)
Lemma signature_fixed_fields_witness :
  exists s,
    SignaturePacket.parse example_v4_duplicates = Ok s
    /\ SignaturePacket.raw_sig_type s = Some 0x10
    /\ SignaturePacket.hash2 s = Some (bytearray_of [0xab; 0xcd]).
Proof.
  destruct (SignaturePacket.parse example_v4_duplicates) as [s | e |] eqn:H.
  - exists s. split; [reflexivity |].
    destruct (proj2 (signature_fixed_fields example_v4_duplicates 4 eq_refl)
                eq_refl s H)
      as (ty & pa & ha & hl & ul & Hty & _ & _ & Hhl & Hul & -> & _ & _ & ->).
    vm_compute in Hty. apply Ok_inj in Hty. subst ty.
    vm_compute in Hhl. apply Ok_inj in Hhl. subst hl.
    vm_compute in Hul. apply Ok_inj in Hul. subst ul.
    split; reflexivity.
  - vm_compute in H. discriminate H.
  - vm_compute in H. discriminate H.
Defined.

(** A version 4 body whose hashed region is one Signature Expiration Time
    subpacket (critical or not) with a number of seconds that is not zero:
    no creation time has been seen when the scan of the region ends, and
    adding the seconds to [None] raises [TypeError], whatever the rest of
    the body holds. *)
Theorem expiration_before_creation_time_raises
    (sig_type pub hash type s1 s2 s3 s4 : byte) (rest : bytearray) :
  Z.land (int_of_byte type) 0x7f = 3 ->
  be_int [s1; s2; s3; s4] <> 0 ->
  SignaturePacket.parse
    (x04 :: sig_type :: pub :: hash :: x00 :: x06
     :: x05 :: type :: s1 :: s2 :: s3 :: s4 :: rest)
  = Raise TypeError.
Proof.
  intros Htype Hsec. unfold SignaturePacket.parse.
  rewrite (getitem_nth _ 0 x04) by (lia || reflexivity). cbn [bind].
  change (int_of_byte x04 =? 3) with false.
  change (int_of_byte x04 =? 4) with true. cbv iota zeta.
  rewrite (getitem_nth _ 1 sig_type) by (lia || reflexivity). cbn [bind].
  rewrite (getitem_nth _ (1 + 1) pub) by (lia || reflexivity). cbn [bind].
  rewrite (getitem_nth _ (1 + 1 + 1) hash) by (lia || reflexivity).
  cbn [bind].
  unfold get_int2 at 1. rewrite read_be_inside by len_side.
  cbn [bind].
  change (be_int (firstn (Z.to_nat 2) (skipn (Z.to_nat (1 + 1 + 1 + 1)) _)))
    with 6.
  unfold SignaturePacket.parse_subpackets at 1.
  change (Z.to_nat 6) with 6%nat.
  cbn [SignaturePacket.subpackets_loop].
  change (1 + 1 + 1 + 1 + 2 <? 1 + 1 + 1 + 1 + 2 + 6) with true. cbv iota.
  unfold SignaturePacket.subpacket_step at 1.
  unfold new_tag_length at 1.
  rewrite (getitem_nth _ (1 + 1 + 1 + 1 + 2) x05) by (lia || reflexivity).
  cbn [bind]. change (int_of_byte x05) with 5.
  change (5 <? 192) with true. cbv iota zeta. cbn [bind].
  rewrite (getitem_nth _ (1 + 1 + 1 + 1 + 2 + (1 + 0)) type)
    by (lia || reflexivity).
  cbn [bind]. cbv zeta.
  rewrite getslice_inside by len_side.
  change (firstn _ (skipn _ _)) with [s1; s2; s3; s4].
  unfold SignatureSubpacket.init.
  cbn [SignatureSubpacket.subtype SignatureSubpacket.data].
  unfold SignatureSubpacket.CRITICAL_MASK. rewrite Htype.
  change (3 =? 2) with false. change (3 =? 3) with true. cbv iota.
  change (get_int4 [s1; s2; s3; s4] 0) with (Ok (be_int [s1; s2; s3; s4])).
  cbn [bind].
  change (1 + 1 + 1 + 1 + 2 + (1 + 0) + 1 + (5 - 1)
          <? 1 + 1 + 1 + 1 + 2 + 6) with false.
  cbv iota. cbn [bind].
  unfold SignaturePacket.finish_expiration at 1.
  cbn [SignaturePacket.raw_expiration_time
         SignaturePacket.set_raw_expiration_time
         SignaturePacket.append_subpacket SignaturePacket.creation_time
         SignaturePacket.set_raw_hash_algorithm
         SignaturePacket.set_raw_pub_algorithm
         SignaturePacket.set_raw_sig_type SignaturePacket.set_sig_version
         SignaturePacket.init].
  destruct (Z.eqb_spec (be_int [s1; s2; s3; s4]) 0); [contradiction |].
  reflexivity.
Qed.

(** An expiration of 50 seconds, marked critical. *)
Lemma expiration_before_creation_time_raises_witness :
  SignaturePacket.parse
    (bytearray_of
       [4; 0x10; 1; 2;  0; 6;  5; 0x83; 0; 0; 0; 50;  0; 0;  0xab; 0xcd])
  = Raise TypeError.
Proof.
  exact (expiration_before_creation_time_raises
           (byte_of_int 0x10) x01 x02 (byte_of_int 0x83) x00 x00 x00
           (byte_of_int 50) (bytearray_of [0; 0; 0xab; 0xcd])
           eq_refl ltac:(vm_compute; discriminate)).
Defined.

(** ** Public keys: the fields by algorithm *)

(** In a version 4 key body that decodes, the creation time is the u32 at
    offset 1 and the algorithm the byte at offset 5; the family is "rsa" for
    algorithms 1, 2 and 3, "dsa" for 17, "elgamal" for 16 and unset for any
    other; and the key parameters that are set are exactly those of the
    family: modulus and exponent for RSA; prime, group order, generator and
    key value for DSA; prime, generator and key value for ElGamal. *)
Theorem key_fields_by_algorithm (length : Z) (data : bytearray)
    (k : PublicKeyPacket.t) :
  getitem data 0 = Ok 4 ->
  PublicKeyPacket.parse length data = Ok k ->
  exists created algo,
    get_int4 data 1 = Ok created
    /\ getitem data 5 = Ok algo
    /\ PublicKeyPacket.raw_creation_time k = Some created
    /\ PublicKeyPacket.creation_time k = Some (utcfromtimestamp created)
    /\ PublicKeyPacket.raw_pub_algorithm k = Some algo
    /\ PublicKeyPacket.pub_algorithm_type k = key_family algo
    /\ (PublicKeyPacket.modulus k <> None <-> key_family algo = Some "rsa"%string)
    /\ (PublicKeyPacket.exponent k <> None
        <-> key_family algo = Some "rsa"%string)
    /\ (PublicKeyPacket.prime k <> None
        <-> key_family algo = Some "dsa"%string
            \/ key_family algo = Some "elgamal"%string)
    /\ (PublicKeyPacket.group_order k <> None
        <-> key_family algo = Some "dsa"%string)
    /\ (PublicKeyPacket.group_gen k <> None
        <-> key_family algo = Some "dsa"%string
            \/ key_family algo = Some "elgamal"%string)
    /\ (PublicKeyPacket.key_value k <> None
        <-> key_family algo = Some "dsa"%string
            \/ key_family algo = Some "elgamal"%string).
Proof.
  intros Hv H. unfold PublicKeyPacket.parse in H. rewrite Hv in H.
  cbn [bind] in H. change (4 =? 4) with true in H. cbv iota zeta in H.
  apply bind_Ok in H. destruct H as (created & Hc & H).
  apply bind_Ok in H. destruct H as (algo & Ha & H).
  exists created, algo.
  split; [exact Hc |]. split; [exact Ha |].
  unfold key_family.
  destruct ((algo =? 1) || (algo =? 2) || (algo =? 3));
    [| destruct (algo =? 17); [| destruct (algo =? 16)]];
    repeat (apply bind_Ok in H; destruct H as ([? ?] & _ & H));
    apply Ok_inj in H; subst k; cbn;
    repeat split; intros; try congruence; try discriminate;
    intuition discriminate.
Qed.

(** [example_rsa_key]: the RSA family with modulus 511 and exponent 3. *)
Lemma key_fields_by_algorithm_witness :
  exists k,
    PublicKeyPacket.parse (len example_rsa_key) example_rsa_key = Ok k
    /\ PublicKeyPacket.pub_algorithm_type k = Some "rsa"%string
    /\ PublicKeyPacket.modulus k = Some 511
    /\ PublicKeyPacket.prime k = None.
Proof.
  destruct (PublicKeyPacket.parse (len example_rsa_key) example_rsa_key)
    as [k | e |] eqn:H.
  - exists k. split; [reflexivity |].
    destruct (key_fields_by_algorithm (len example_rsa_key) example_rsa_key
                k eq_refl H)
      as (created & algo & _ & Ha & _ & _ & _ & Hf & _).
    vm_compute in Ha. apply Ok_inj in Ha. subst algo.
    split; [exact Hf |].
    vm_compute in H. apply Ok_inj in H. subst k. split; reflexivity.
  - vm_compute in H. discriminate H.
  - vm_compute in H. discriminate H.
Defined.

(** A version 4 key body with an algorithm of no known family needs no more
    than its first 6 bytes: it decodes with fingerprint, key id, creation
    time and algorithm set and no family or key parameter, whatever
    follows. *)
Theorem unknown_key_algorithm_is_accepted (c1 c2 c3 c4 algo : byte)
    (rest : bytearray) :
  key_family (int_of_byte algo) = None ->
  let data := x04 :: c1 :: c2 :: c3 :: c4 :: algo :: rest in
  PublicKeyPacket.parse (len data) data
  = Ok (PublicKeyPacket.mk (Some 4)
          (Some (PublicKeyPacket.compute_fingerprint (len data) data))
          (Some (getslice_from
                   (PublicKeyPacket.compute_fingerprint (len data) data) 24))
          (Some (be_int [c1; c2; c3; c4]))
          (Some (utcfromtimestamp (be_int [c1; c2; c3; c4])))
          (Some (int_of_byte algo)) None None None None None None None).
Proof.
  intros Hf data. subst data. unfold PublicKeyPacket.parse.
  rewrite (getitem_nth _ 0 x04) by (lia || reflexivity). cbn [bind].
  change (int_of_byte x04 =? 4) with true. cbv iota zeta.
  unfold get_int4. rewrite read_be_inside by len_side. cbn [bind].
  rewrite (getitem_nth _ (1 + 4) algo) by (lia || reflexivity). cbn [bind].
  unfold key_family in Hf.
  destruct ((int_of_byte algo =? 1) || (int_of_byte algo =? 2)
            || (int_of_byte algo =? 3)); [discriminate |].
  destruct (int_of_byte algo =? 17); [discriminate |].
  destruct (int_of_byte algo =? 16); [discriminate |].
  reflexivity.
Qed.

(** Algorithm 19 (ECDSA) with nothing after it. *)
Lemma unknown_key_algorithm_is_accepted_witness :
  exists k,
    PublicKeyPacket.parse 6 (bytearray_of [4; 0; 0; 0; 1; 19]) = Ok k
    /\ PublicKeyPacket.raw_pub_algorithm k = Some 19
    /\ PublicKeyPacket.pub_algorithm_type k = None.
Proof.
  eexists. split.
  - exact (unknown_key_algorithm_is_accepted x00 x00 x00 x01
             (byte_of_int 19) [] eq_refl).
  - split; reflexivity.
Defined.

(** Every algorithm the key decoder has a family for has a display name. *)
Theorem key_family_has_name (algo : Z) :
  key_family algo <> None ->
  AlgoLookup.lookup_pub_algorithm (Some algo) <> "Unknown"%string.
Proof.
  unfold key_family, AlgoLookup.lookup_pub_algorithm, dict_get_opt.
  intros H.
  destruct (Z.eqb_spec algo 1) as [E | _]; [rewrite E; discriminate |].
  destruct (Z.eqb_spec algo 2) as [E | _]; [rewrite E; discriminate |].
  destruct (Z.eqb_spec algo 3) as [E | _]; [rewrite E; discriminate |].
  cbn [orb] in H.
  destruct (Z.eqb_spec algo 17) as [E | _]; [rewrite E; discriminate |].
  destruct (Z.eqb_spec algo 16) as [E | _]; [rewrite E; discriminate |].
  contradiction.
Qed.

Lemma key_family_has_name_witness :
  AlgoLookup.lookup_pub_algorithm (Some 17) <> "Unknown"%string.
Proof. exact (key_family_has_name 17 ltac:(discriminate)). Defined.

(** ** Trust packets *)

(** [TrustPacket.parse] never raises: a body of exactly two bytes gives their
    big-endian value, any other body leaves [trust] unset. *)
Theorem trust_value (data : bytearray) :
  exists t,
    TrustPacket.parse (len data) data = Ok t
    /\ (forall c1 c2,
          data = [c1; c2] ->
          TrustPacket.trust t = Some (int_of_byte c1 * 256 + int_of_byte c2))
    /\ (List.length data <> 2%nat -> TrustPacket.trust t = None).
Proof.
  unfold TrustPacket.parse.
  destruct (Z.eqb_spec (len data) 2) as [E | N].
  - destruct data as [| c1 [| c2 [| c3 rest]]];
      try (unfold len in E; cbn in E; lia).
    eexists. split; [reflexivity |]. split.
    + intros ? ? Hd. injection Hd as <- <-. cbn. f_equal.
    + cbn. intros Hn. contradiction Hn. reflexivity.
  - eexists. split; [reflexivity |]. split.
    + intros c1 c2 ->. contradiction N. reflexivity.
    + reflexivity.
Qed.

(** ** User attributes *)

Lemma getslice_from_suffix {A : Type} (data : list A) (lo : Z) :
  exists before, data = before ++ getslice_from data lo.
Proof.
  unfold getslice_from.
  exists (firstn (Z.to_nat (clamp (len data) lo)) data).
  symmetry. apply firstn_skipn.
Qed.

Lemma attribute_step_image (data : bytearray) (s s' : UserAttributePacket.t)
    (offset offset' sub_len' : Z) :
  UserAttributePacket.attribute_step data s offset
  = Ok (s', offset', sub_len') ->
  image_fields data s -> image_fields data s'.
Proof.
  intros H Hs. unfold UserAttributePacket.attribute_step in H.
  apply bind_Ok in H. destruct H as ([[so sl] spart] & _ & H).
  apply bind_Ok in H. destruct H as (ty & _ & H).
  destruct (ty =? 1).
  - apply bind_Ok in H. destruct H as (lo & _ & H).
    apply bind_Ok in H. destruct H as (hi & _ & H).
    apply bind_Ok in H. destruct H as (hv & _ & H).
    apply bind_Ok in H. destruct H as (fmt & Hfmt & H).
    ok_tuple H. right.
    exists fmt, (getslice_from data (offset + (1 + so) + 1 + (lo + Z.shiftl hi 8))).
    split; [reflexivity |].
    split; [exact (getitem_byte _ _ _ Hfmt) |].
    split; [reflexivity |]. split; [reflexivity |].
    apply getslice_from_suffix.
  - ok_tuple H. exact Hs.
Qed.

Lemma attributes_loop_image (fuel : nat) (data : bytearray) :
  forall (s : UserAttributePacket.t) (offset sub_len : Z)
         (s' : UserAttributePacket.t),
    UserAttributePacket.attributes_loop fuel data s offset sub_len = Ok s' ->
    image_fields data s -> image_fields data s'.
Proof.
  induction fuel as [| fuel IH]; intros s offset sub_len s' H Hs;
    cbn [UserAttributePacket.attributes_loop] in H;
    destruct (offset + sub_len <? len data); try discriminate;
    try (apply Ok_inj in H; subst s'; exact Hs).
  apply bind_Ok in H. destruct H as ([[s1 o1] l1] & Hstep & H).
  eapply IH; [exact H |]. eapply attribute_step_image; eauto.
Qed.

(** A decoded User Attribute packet has its three image fields all unset or
    all set; when set, the format code is a byte, [image_format] is "jpeg"
    for code 1 and "unknown" for any other, and the image data is the body
    from some position to its end. *)
Theorem image_fields_go_together (data : bytearray)
    (a : UserAttributePacket.t) :
  UserAttributePacket.parse data = Ok a -> image_fields data a.
Proof.
  unfold UserAttributePacket.parse. intros H.
  eapply attributes_loop_image; [exact H |]. left. auto.
Qed.

Lemma attributes_loop_turn (fuel : nat) (data : bytearray)
    (s : UserAttributePacket.t) (offset sub_len : Z) :
  offset + sub_len < len data ->
  UserAttributePacket.attributes_loop (S fuel) data s offset sub_len
  = ('(s', offset', sub_len') <-
       UserAttributePacket.attribute_step data s offset ;;
     UserAttributePacket.attributes_loop fuel data s' offset' sub_len').
Proof.
  intros H. cbn [UserAttributePacket.attributes_loop].
  destruct (Z.ltb_spec (offset + sub_len) (len data)); [reflexivity | lia].
Qed.

Lemma attributes_loop_done (fuel : nat) (data : bytearray)
    (s : UserAttributePacket.t) (offset sub_len : Z) :
  len data <= offset + sub_len ->
  UserAttributePacket.attributes_loop fuel data s offset sub_len = Ok s.
Proof.
  intros H. destruct fuel; cbn [UserAttributePacket.attributes_loop];
    destruct (Z.ltb_spec (offset + sub_len) (len data)); (reflexivity || lia).
Qed.

(** An empty body has no subpacket to read, and decodes with the image
    fields unset. *)
Lemma empty_user_attribute :
  UserAttributePacket.parse [] = Ok UserAttributePacket.init.
Proof. reflexivity. Qed.

(** A body that is one image subpacket: a length byte below 192 that counts
    the subtype byte and the payload, the subtype 1, and a payload of at
    least four bytes.  The first two payload bytes are the little-endian
    size of the image header, the fourth the format code, and the image
    data is the payload without its first [hdr_size] bytes. *)
Theorem single_image_subpacket (l lo hi version format : byte)
    (rest : bytearray) :
  let payload := lo :: hi :: version :: format :: rest in
  let hdr_size := int_of_byte lo + int_of_byte hi * 256 in
  int_of_byte l = 1 + len payload ->
  int_of_byte l < 192 ->
  UserAttributePacket.parse (l :: x01 :: payload)
  = Ok (UserAttributePacket.mk (Some (int_of_byte format))
          (Some (if int_of_byte format =? 1 then "jpeg"%string
                else "unknown"%string))
          (Some (skipn (Z.to_nat hdr_size) payload))).
Proof.
  intros payload hdr_size Hl Hshort.
  pose proof (int_of_byte_range lo). pose proof (int_of_byte_range hi).
  pose proof (len_nonneg rest) as Hrest.
  assert (len payload = 4 + len rest) as Hpay
    by (subst payload; rewrite !len_cons; lia).
  assert (len (l :: x01 :: payload) = 2 + len payload) as Hlen
    by (rewrite !len_cons; lia).
  assert (0 <= hdr_size) as Hhdr by (subst hdr_size; lia).
  assert (UserAttributePacket.attribute_step (l :: x01 :: payload)
            UserAttributePacket.init 0
          = Ok (UserAttributePacket.mk (Some (int_of_byte format))
                  (Some (if int_of_byte format =? 1 then "jpeg"%string
                        else "unknown"%string))
                  (Some (getslice_from (l :: x01 :: payload)
                           (2 + hdr_size))),
                2 + hdr_size, len payload)) as Hstep.
  { unfold UserAttributePacket.attribute_step, new_tag_length.
    rewrite (getitem_nth _ 0 l) by (lia || reflexivity). cbn [bind].
    destruct (Z.ltb_spec (int_of_byte l) 192); [| lia]. cbn [bind]. cbv zeta.
    rewrite (getitem_nth _ (0 + (1 + 0)) x01) by (lia || reflexivity).
    cbn [bind]. change (int_of_byte x01 =? 1) with true. cbv iota.
    subst payload.
    rewrite (getitem_nth _ (0 + (1 + 0) + 1) lo) by (lia || reflexivity).
    cbn [bind].
    rewrite (getitem_nth _ (0 + (1 + 0) + 1 + 1) hi) by (lia || reflexivity).
    cbn [bind].
    rewrite (getitem_nth _ (0 + (1 + 0) + 1 + 2) version)
      by (lia || reflexivity).
    cbn [bind].
    rewrite (getitem_nth _ (0 + (1 + 0) + 1 + 3) format)
      by (lia || reflexivity).
    cbn [bind].
    rewrite Z.shiftl_mul_pow2 by lia. change (2 ^ 8) with 256.
    fold hdr_size. rewrite Hl.
    replace (0 + (1 + 0) + 1 + hdr_size) with (2 + hdr_size) by lia.
    replace (1 + len (lo :: hi :: version :: format :: rest) - 1)
      with (len (lo :: hi :: version :: format :: rest)) by lia.
    reflexivity. }
  unfold UserAttributePacket.parse. rewrite attributes_loop_turn by lia.
  rewrite Hstep. cbn [bind].
  rewrite attributes_loop_done by lia.
  do 2 f_equal. f_equal.
  unfold getslice_from. rewrite Hlen. unfold clamp.
  destruct (Z.ltb_spec (2 + hdr_size) 0); [lia |].
  destruct (Z.le_gt_cases (2 + hdr_size) (2 + len payload)).
  - rewrite Z.min_l by lia.
    replace (Z.to_nat (2 + hdr_size)) with (2 + Z.to_nat hdr_size)%nat
      by lia.
    reflexivity.
  - rewrite Z.min_r by lia.
    rewrite !skipn_all2; [reflexivity | unfold len in *; lia |].
    unfold len in *. cbn [List.length] in *. lia.
Qed.

(** A JPEG with the usual 16-byte image header and three bytes of image. *)
Lemma single_image_subpacket_witness :
  UserAttributePacket.parse
    (bytearray_of
       [20; 1;  16; 0; 1; 1;  0; 0; 0; 0; 0; 0; 0; 0; 0; 0; 0; 0;
        0xff; 0xd8; 0xff])
  = Ok (UserAttributePacket.mk (Some 1) (Some "jpeg"%string)
          (Some (bytearray_of [0xff; 0xd8; 0xff]))).
Proof.
  exact (single_image_subpacket (byte_of_int 20) (byte_of_int 16) x00 x01 x01
           (bytearray_of [0; 0; 0; 0; 0; 0; 0; 0; 0; 0; 0; 0;
                          0xff; 0xd8; 0xff])
           eq_refl eq_refl).
Defined.

(** The image of the packet above, through the invariant. *)
Lemma image_fields_go_together_witness :
  image_fields
    (bytearray_of
       [20; 1;  16; 0; 1; 1;  0; 0; 0; 0; 0; 0; 0; 0; 0; 0; 0; 0;
        0xff; 0xd8; 0xff])
    (UserAttributePacket.mk (Some 1) (Some "jpeg"%string)
       (Some (bytearray_of [0xff; 0xd8; 0xff]))).
Proof.
  exact (image_fields_go_together
           (bytearray_of
              [20; 1;  16; 0; 1; 1;  0; 0; 0; 0; 0; 0; 0; 0; 0; 0; 0; 0;
               0xff; 0xd8; 0xff])
           (UserAttributePacket.mk (Some 1) (Some "jpeg"%string)
              (Some (bytearray_of [0xff; 0xd8; 0xff])))
           eq_refl).
Defined.

(** After a subpacket that is not an image the scan does not skip the
    subpacket's data: when bytes follow the subpacket, the next length byte
    is the one right after the subtype byte.  So in a body that starts with
    a subpacket of another subtype, the first bytes of that subpacket's data
    are read as a subpacket of their own, here as an image. *)
Theorem image_read_from_subpacket_data
    (l1 t1 l2 lo hi version format : byte) (rest : bytearray) :
  let payload := lo :: hi :: version :: format :: rest in
  let body := l1 :: t1 :: l2 :: x01 :: payload in
  let hdr_size := int_of_byte lo + int_of_byte hi * 256 in
  int_of_byte t1 <> 1 ->
  int_of_byte l1 < 192 -> int_of_byte l2 < 192 ->
  1 + int_of_byte l1 < len body ->
  len body <= 3 + hdr_size + int_of_byte l2 ->
  UserAttributePacket.parse body
  = Ok (UserAttributePacket.mk (Some (int_of_byte format))
          (Some (if int_of_byte format =? 1 then "jpeg"%string
                else "unknown"%string))
          (Some (skipn (Z.to_nat hdr_size) payload))).
Proof.
  intros payload body hdr_size Ht1 Hl1 Hl2 Hmore Hend.
  pose proof (int_of_byte_range lo). pose proof (int_of_byte_range hi).
  pose proof (int_of_byte_range l1). pose proof (int_of_byte_range l2).
  pose proof (len_nonneg rest) as Hrest.
  assert (len body = 8 + len rest) as Hlen
    by (subst body payload; rewrite !len_cons; lia).
  assert (0 <= hdr_size) as Hhdr by (subst hdr_size; lia).
  assert (UserAttributePacket.attribute_step body UserAttributePacket.init 0
          = Ok (UserAttributePacket.init, 2, int_of_byte l1 - 1)) as Hstep1.
  { unfold UserAttributePacket.attribute_step, new_tag_length. subst body.
    rewrite (getitem_nth _ 0 l1) by (lia || reflexivity). cbn [bind].
    destruct (Z.ltb_spec (int_of_byte l1) 192); [| lia].
    cbn [bind]. cbv zeta.
    rewrite (getitem_nth _ (0 + (1 + 0)) t1) by (lia || reflexivity).
    cbn [bind].
    destruct (Z.eqb_spec (int_of_byte t1) 1); [contradiction |].
    reflexivity. }
  assert (UserAttributePacket.attribute_step body UserAttributePacket.init 2
          = Ok (UserAttributePacket.mk (Some (int_of_byte format))
                  (Some (if int_of_byte format =? 1 then "jpeg"%string
                        else "unknown"%string))
                  (Some (getslice_from body (4 + hdr_size))),
                4 + hdr_size, int_of_byte l2 - 1)) as Hstep2.
  { unfold UserAttributePacket.attribute_step, new_tag_length.
    subst body payload.
    rewrite (getitem_nth _ 2 l2) by (lia || reflexivity). cbn [bind].
    destruct (Z.ltb_spec (int_of_byte l2) 192); [| lia].
    cbn [bind]. cbv zeta.
    rewrite (getitem_nth _ (2 + (1 + 0)) x01) by (lia || reflexivity).
    cbn [bind]. change (int_of_byte x01 =? 1) with true. cbv iota.
    rewrite (getitem_nth _ (2 + (1 + 0) + 1) lo) by (lia || reflexivity).
    cbn [bind].
    rewrite (getitem_nth _ (2 + (1 + 0) + 1 + 1) hi) by (lia || reflexivity).
    cbn [bind].
    rewrite (getitem_nth _ (2 + (1 + 0) + 1 + 2) version)
      by (lia || reflexivity).
    cbn [bind].
    rewrite (getitem_nth _ (2 + (1 + 0) + 1 + 3) format)
      by (lia || reflexivity).
    cbn [bind].
    rewrite Z.shiftl_mul_pow2 by lia. change (2 ^ 8) with 256.
    fold hdr_size.
    replace (2 + (1 + 0) + 1 + hdr_size) with (4 + hdr_size) by lia.
    reflexivity. }
  unfold UserAttributePacket.parse.
  assert (exists fuel, S (List.length body) = S (S fuel)) as [fuel ->]
    by (subst body; cbn [List.length]; eauto).
  rewrite attributes_loop_turn by lia. rewrite Hstep1. cbn [bind].
  rewrite attributes_loop_turn by lia. rewrite Hstep2. cbn [bind].
  rewrite attributes_loop_done by lia.
  do 2 f_equal. f_equal.
  unfold getslice_from. rewrite Hlen. unfold clamp.
  destruct (Z.ltb_spec (4 + hdr_size) 0); [lia |].
  assert (len payload = 4 + len rest) as Hpay
    by (subst payload; rewrite !len_cons; lia).
  destruct (Z.le_gt_cases (4 + hdr_size) (8 + len rest)).
  - rewrite Z.min_l by lia.
    replace (Z.to_nat (4 + hdr_size)) with (4 + Z.to_nat hdr_size)%nat
      by lia.
    reflexivity.
  - rewrite Z.min_r by lia.
    rewrite !skipn_all2; [reflexivity | unfold len in *; lia |].
    unfold len in *. subst body. cbn [List.length] in *. lia.
Qed.

(** A subpacket of subtype 2 with 8 data bytes, followed by one more byte:
    the data bytes [0C 01 00 00 01 01 ...] are taken for a JPEG image. *)
Lemma image_read_from_subpacket_data_witness :
  UserAttributePacket.parse
    (bytearray_of [9; 2;  12; 1; 0; 0; 1; 1; 7; 7;  0xAA])
  = Ok (UserAttributePacket.mk (Some 1) (Some "jpeg"%string)
          (Some (bytearray_of [0; 0; 1; 1; 7; 7; 0xAA]))).
Proof.
  exact (image_read_from_subpacket_data
           (byte_of_int 9) x02 (byte_of_int 12) x00 x00 x01 x01
           (bytearray_of [7; 7; 0xAA])
           ltac:(vm_compute; discriminate) eq_refl eq_refl eq_refl
           ltac:(vm_compute; discriminate)).
Defined.

(** ** New-format lengths: ranges and encodings *)

Lemma int_of_byte_of_int (z : Z) :
  0 <= z < 256 -> int_of_byte (byte_of_int z) = z.
Proof.
  intros Hz. unfold int_of_byte, byte_of_int.
  destruct (Byte.of_N (Z.to_N z)) as [b |] eqn:Hb.
  - apply Byte.to_of_N in Hb. rewrite Hb. lia.
  - apply Byte.of_N_None_iff in Hb. lia.
Qed.

(** The length a new-format header declares, by the number of bytes that
    follow the first: one-byte lengths are below 192, two-byte lengths run
    from 192 to 8383, five-byte lengths are below 2^32, and a partial length
    is a power of two from 2^0 to 2^30.  The first two ranges do not
    overlap, so a length has one encoding among them. *)
Theorem new_tag_length_ranges (data : bytearray) (start off length : Z)
    (partial : bool) :
  new_tag_length data start = Ok (off, length, partial) ->
  (off = 0 /\ partial = false /\ 0 <= length < 192)
  \/ (off = 1 /\ partial = false /\ 192 <= length < 8384)
  \/ (off = 4 /\ partial = false /\ 0 <= length < 2 ^ 32)
  \/ (off = 0 /\ partial = true
      /\ exists k, 0 <= k <= 30 /\ length = 2 ^ k).
Proof.
  unfold new_tag_length. intros H.
  apply bind_Ok in H. destruct H as (first & Hfirst & H).
  apply getitem_byte in Hfirst.
  destruct (Z.ltb_spec first 192).
  { ok_tuple H. left. lia. }
  destruct (Z.ltb_spec first 224).
  { apply bind_Ok in H. destruct H as (next & Hnext & H).
    apply getitem_byte in Hnext. ok_tuple H. right. left.
    rewrite Z.shiftl_mul_pow2 by lia. change (2 ^ 8) with 256. lia. }
  destruct (Z.eqb_spec first 255).
  { apply bind_Ok in H. destruct H as (v & Hv & H). ok_tuple H.
    right. right. left.
    split; [reflexivity |]. split; [reflexivity |].
    unfold get_int4, read_be in Hv.
    destruct (Z.leb_spec 0 (start + 1)); [| discriminate].
    destruct (Z.leb_spec (start + 1 + 4) (len data)); [| discriminate].
    cbn [andb] in Hv. apply Ok_inj in Hv. rewrite <- Hv.
    pose proof (be_int_bound (getslice data (start + 1) (start + 1 + 4)))
      as Hb.
    rewrite length_getslice in Hb by lia.
    replace (start + 1 + 4 - (start + 1)) with 4 in Hb by lia.
    change (256 ^ 4) with (2 ^ 32) in Hb. exact Hb. }
  ok_tuple H. right. right. right.
  split; [reflexivity |]. split; [reflexivity |].
  exists (first - 224).
  assert (Z.land first 31 = first - 224) as ->.
  { change 31 with (Z.ones 5). rewrite Z.land_ones by lia.
    symmetry. apply Z.mod_unique with (q := 7); lia. }
  split; [lia |]. rewrite Z.shiftl_mul_pow2 by lia. lia.
Qed.

(** The two-byte length D0 10. *)
Lemma new_tag_length_ranges_witness :
  new_tag_length (bytearray_of [0xD0; 0x10]) 0 = Ok (1, 4304, false)
  /\ 192 <= 4304 < 8384.
Proof.
  split; [reflexivity |].
  destruct (new_tag_length_ranges (bytearray_of [0xD0; 0x10]) 0 1 4304 false
              eq_refl)
    as [(E & _) | [(_ & _ & H) | [(E & _) | (E & _)]]];
    [discriminate E | exact H | discriminate E | discriminate E].
Defined.

(** Every length below 2^32 can be written so that [new_tag_length] reads
    it back: in one byte below 192, in two bytes from 192 to 8383, in five
    bytes (0xFF and the length in big-endian order) for any of them. *)
Theorem new_tag_length_reads_back (n : Z) (rest : bytearray) :
  (0 <= n < 192 ->
   new_tag_length (byte_of_int n :: rest) 0 = Ok (0, n, false))
  /\ (192 <= n < 8384 ->
      new_tag_length
        (byte_of_int (192 + (n - 192) / 256)
         :: byte_of_int ((n - 192) mod 256) :: rest) 0
      = Ok (1, n, false))
  /\ (0 <= n < 2 ^ 32 ->
      new_tag_length
        (xff :: byte_of_int (n / 2 ^ 24) :: byte_of_int (n / 2 ^ 16 mod 256)
         :: byte_of_int (n / 2 ^ 8 mod 256) :: byte_of_int (n mod 256)
         :: rest) 0
      = Ok (4, n, false)).
Proof.
  split; [| split].
  - intros Hn. unfold new_tag_length.
    rewrite (getitem_nth _ 0 (byte_of_int n)) by (lia || reflexivity).
    cbn [bind]. rewrite int_of_byte_of_int by lia.
    destruct (Z.ltb_spec n 192); [reflexivity | lia].
  - intros Hn.
    assert (0 <= (n - 192) / 256 < 32) as Hq
      by (split; [apply Z.div_pos; lia | apply Z.div_lt_upper_bound; lia]).
    pose proof (Z.mod_pos_bound (n - 192) 256 ltac:(lia)) as Hr.
    unfold new_tag_length.
    rewrite (getitem_nth _ 0 (byte_of_int (192 + (n - 192) / 256)))
      by (lia || reflexivity).
    cbn [bind]. rewrite int_of_byte_of_int by lia.
    destruct (Z.ltb_spec (192 + (n - 192) / 256) 192); [lia |].
    destruct (Z.ltb_spec (192 + (n - 192) / 256) 224); [| lia].
    rewrite (getitem_nth _ (0 + 1) (byte_of_int ((n - 192) mod 256)))
      by (lia || reflexivity).
    cbn [bind]. rewrite int_of_byte_of_int by lia.
    rewrite Z.shiftl_mul_pow2 by lia. change (2 ^ 8) with 256.
    do 3 f_equal.
    pose proof (Z.div_mod (n - 192) 256 ltac:(lia)). lia.
  - intros Hn.
    pose proof (Z.mod_pos_bound (n / 2 ^ 16) 256 ltac:(lia)) as H2.
    pose proof (Z.mod_pos_bound (n / 2 ^ 8) 256 ltac:(lia)) as H3.
    pose proof (Z.mod_pos_bound n 256 ltac:(lia)) as H4.
    assert (0 <= n / 2 ^ 24 < 256) as H1
      by (split; [apply Z.div_pos; lia | apply Z.div_lt_upper_bound; lia]).
    unfold new_tag_length.
    rewrite (getitem_nth _ 0 xff) by (lia || reflexivity). cbn [bind].
    change (int_of_byte xff) with 255.
    change (255 <? 192) with false. change (255 <? 224) with false.
    change (255 =? 255) with true. cbv iota.
    change (xff :: ?a) with ([xff] ++ a).
    pose proof (get_int4_at [xff] rest (byte_of_int (n / 2 ^ 24))
                  (byte_of_int (n / 2 ^ 16 mod 256))
                  (byte_of_int (n / 2 ^ 8 mod 256))
                  (byte_of_int (n mod 256))) as Hr.
    change (len [xff]) with (0 + 1) in Hr. rewrite Hr. cbn [bind].
    rewrite !int_of_byte_of_int by lia.
    do 3 f_equal.
    change (2 ^ 24) with (256 * (256 * 256)).
    change (2 ^ 16) with (256 * 256). change (2 ^ 8) with 256.
    rewrite <- !Z.div_div by lia.
    pose proof (Z.div_mod n 256 ltac:(lia)).
    pose proof (Z.div_mod (n / 256) 256 ltac:(lia)).
    pose proof (Z.div_mod (n / 256 / 256) 256 ltac:(lia)).
    lia.
Qed.

(** ** Display names *)

(** Hash algorithm codes 4 to 7 are shown as "Reserved" and no entry of the
    table is hidden by that check; a code is "Unknown" exactly when it is
    outside 1..11; an unset code is "Unknown". *)
Theorem hash_algorithm_names (alg : Z) :
  (AlgoLookup.lookup_hash_algorithm (Some alg) = "Reserved"%string
   <-> 4 <= alg <= 7)
  /\ (AlgoLookup.lookup_hash_algorithm (Some alg) = "Unknown"%string
      <-> alg < 1 \/ 11 < alg)
  /\ AlgoLookup.lookup_hash_algorithm None = "Unknown"%string.
Proof.
  split; [| split; [| reflexivity]];
    unfold AlgoLookup.lookup_hash_algorithm, in_tuple, dict_get_opt,
      AlgoLookup.hash_algorithms;
    cbn [existsb dict_get orb];
    repeat match goal with
           | |- context [alg =? ?k] =>
               destruct (Z.eqb_spec alg k);
               [subst alg; cbn; split; intros; (lia || discriminate
                                                 || reflexivity) |]
           | |- context [?k =? alg] =>
               destruct (Z.eqb_spec k alg);
               [subst alg; cbn; split; intros; (lia || discriminate
                                                 || reflexivity) |]
           end;
    cbn; split; intros; (lia || discriminate || reflexivity).
Qed.

(** The name of a subpacket built from any type byte depends on the subtype
    alone, not on the critical bit, and every subtype from 0 to 32 has a
    name or is "Reserved": the name is "Unknown" exactly for subtypes 33 to
    127. *)
Theorem subpacket_names (c : byte) (hashed : bool) (data : bytearray) :
  let sp := SignatureSubpacket.init (int_of_byte c) hashed data in
  (subpacket_name sp = "Unknown"%string
   <-> 33 <= SignatureSubpacket.subtype sp)
  /\ subpacket_name sp
     = subpacket_name
         (SignatureSubpacket.init (SignatureSubpacket.subtype sp) hashed
            data).
Proof.
  destruct c; split;
    try (vm_compute; reflexivity);
    vm_compute; split; intros H;
    first [ reflexivity | discriminate
          | exfalso; apply H; reflexivity ].
Qed.

(** ** When the header can be read *)

Lemma getitem_inside (data : bytearray) (i : Z) :
  0 <= i < len data -> exists v, getitem data i = Ok v.
Proof.
  intros H. unfold getitem.
  destruct (Z.ltb_spec i 0); [lia |].
  destruct (Z.leb_spec 0 i); [| lia].
  destruct (Z.ltb_spec i (len data)); [| lia]. cbn [andb].
  destruct (nth_error data (Z.to_nat i)) as [c |] eqn:Hc; [eauto |].
  apply nth_error_None in Hc. unfold len in H. lia.
Qed.

Lemma read_be_succeeds (w : Z) (data : bytearray) (off : Z) :
  0 <= off -> off + w <= len data -> exists v, read_be w data off = Ok v.
Proof.
  intros H1 H2. unfold read_be.
  destruct (Z.leb_spec 0 off); [| lia].
  destruct (Z.leb_spec (off + w) (len data)); [| lia]. cbn [andb]. eauto.
Qed.

(** Reading a header raises nothing but [IndexError], and never that when
    six bytes of the buffer are left at the position: no header is longer. *)
Theorem header_needs_at_most_six_bytes (data : bytearray) (start : Z) :
  (forall e, packet_header data start = Raise e -> e = IndexError)
  /\ (0 <= start -> start + 6 <= len data ->
      exists tag new off length partial,
        packet_header data start = Ok (tag, new, off, length, partial)).
Proof.
  split.
  - unfold packet_header, new_tag_length, old_tag_length, get_int2, get_int4,
      read_be, getitem.
    intros e H.
    repeat match type of H with
           | context [if ?c then _ else _] => destruct c; cbn [bind] in H
           | context [match nth_error ?l ?n with _ => _ end] =>
               destruct (nth_error l n); cbn [bind] in H
           end;
      congruence.
  - intros Hs Hsix. unfold packet_header.
    destruct (getitem_inside data start ltac:(lia)) as (b & ->). cbn [bind].
    destruct (negb (Z.land b 64 =? 0)).
    + unfold new_tag_length.
      destruct (getitem_inside data (start + 1) ltac:(lia)) as (f & ->).
      cbn [bind].
      destruct (f <? 192); [cbn [bind]; eauto 6 |].
      destruct (f <? 224).
      { destruct (getitem_inside data (start + 1 + 1) ltac:(lia)) as (x & ->).
        cbn [bind]. eauto 6. }
      destruct (f =? 255); [| cbn [bind]; eauto 6].
      unfold get_int4.
      destruct (read_be_succeeds 4 data (start + 1 + 1) ltac:(lia)
                  ltac:(lia)) as (x & ->).
      cbn [bind]. eauto 6.
    + unfold old_tag_length. 
      destruct (getitem_inside data start ltac:(lia)) as (b' & ->).
      cbn [bind].
      destruct (Z.land b' 3 =? 0).
      { destruct (getitem_inside data (start + 1) ltac:(lia)) as (x & ->).
        cbn [bind]. eauto 6. }
      destruct (Z.land b' 3 =? 1).
      { unfold get_int2.
        destruct (read_be_succeeds 2 data (start + 1) ltac:(lia)
                    ltac:(lia)) as (x & ->).
        cbn [bind]. eauto 6. }
      destruct (Z.land b' 3 =? 2).
      { unfold get_int4.
        destruct (read_be_succeeds 4 data (start + 1) ltac:(lia)
                    ltac:(lia)) as (x & ->).
        cbn [bind]. eauto 6. }
      destruct (Z.land b' 3 =? 3); cbn [bind]; eauto 6.
Qed.
